(** * Blog-Django: the CRUD mixins, the list/search view and the access gate

    A shallow embedding of [blog/utils.py] and [blog/views.py].  Views are
    functions from a request (and a slug) to a computation over the entity
    store that either returns a response or raises an exception, exactly as
    the Python methods do.  The framework calls the views rely on
    ([QuerySet.get], [get_object_or_404], [Paginator], [LoginRequiredMixin],
    [View.dispatch], [ModelForm.is_valid]/[save]) are embedded next to them
    with the behaviour the framework documents. *)

From Stdlib Require Import ZArith NArith List Ascii String Bool Lia.
From stdpp Require Import gmap strings list fin_maps pretty.

Open Scope string_scope.
Open Scope list_scope.

(** ** Text: case folding, substring search and integers

    A text is kept as the bytes of its UTF-8 encoding, so that an ASCII
    text is the string of its characters.  [lower] folds the letters A-Z,
    which is what [iexact] and [icontains] compare modulo. *)
Module Text.

Definition lower_ascii (c : ascii) : ascii :=
  let n := nat_of_ascii c in
  if (65 <=? n)%nat && (n <=? 90)%nat then ascii_of_nat (n + 32) else c.

Fixpoint lower (s : string) : string :=
  match s with
  | EmptyString => EmptyString
  | String c s' => String (lower_ascii c) (lower s')
  end.

(** [needle in hay], Python's substring test. *)
Fixpoint contains (needle hay : string) : bool :=
  String.prefix needle hay ||
  match hay with
  | EmptyString => false
  | String _ hay' => contains needle hay'
  end.

(** The lookups [field__iexact=v] and [field__icontains=v]. *)
Definition iexact (field v : string) : bool := String.eqb (lower field) (lower v).
Definition icontains (field v : string) : bool := contains (lower v) (lower field).

(** Python's [str.format] of an integer: decimal digits, a minus sign for
    negatives. *)
Definition str_of_Z (n : Z) : string := pretty n.

(** [Py_ISSPACE], the white space [int] skips around a numeral: the space
    and the control characters tab, line feed, vertical tab, form feed and
    carriage return. *)
Definition is_space (c : ascii) : bool :=
  let n := nat_of_ascii c in
  ((9 <=? n)%nat && (n <=? 13)%nat) || (n =? 32)%nat.

Definition digit_of (c : ascii) : option Z :=
  let n := nat_of_ascii c in
  if (48 <=? n)%nat && (n <=? 57)%nat then Some (Z.of_nat (n - 48)) else None.

Fixpoint lstrip (s : string) : string :=
  match s with
  | String c s' => if is_space c then lstrip s' else s
  | EmptyString => EmptyString
  end.

(** Digits with single underscores between them, then optional trailing
    white space: [acc] is the value read so far, [after_digit] tells whether
    the previous character was a digit. *)
Fixpoint int_digits (acc : Z) (after_digit : bool) (s : string) : option Z :=
  match s with
  | EmptyString => if after_digit then Some acc else None
  | String c s' =>
      match digit_of c with
      | Some d => int_digits (10 * acc + d) true s'
      | None =>
          if after_digit then
            if Ascii.eqb c "_" then
              match s' with
              | String c' _ =>
                  match digit_of c' with
                  | Some _ => int_digits acc false s'
                  | None => None
                  end
              | EmptyString => None
              end
            else if is_space c then
              match lstrip s' with EmptyString => Some acc | _ => None end
            else None
          else None
      end
  end.

(** [PyLong_FromString] in base 10, on a text all of which has to be read:
    white space, an optional sign, the digits, white space. *)
Definition PyLong_FromString (s : string) : option Z :=
  match lstrip s with
  | String "-" s' => Z.opp <$> int_digits 0 false s'
  | String "+" s' => int_digits 0 false s'
  | s' => int_digits 0 false s'
  end.

(** [str.isascii]. *)
Fixpoint isascii (s : string) : bool :=
  match s with
  | EmptyString => true
  | String c s' => (N_of_ascii c <? 128)%N && isascii s'
  end.

(** The code points of a text, which the model keeps as its UTF-8 bytes.
    [need] bytes of the character being read are still to come, [cp] holds
    the bits read so far and [lo] is the least code point its length may
    encode.  Bytes that are no UTF-8 text give [None]. *)
Fixpoint code_points_from (need : nat) (cp lo : N) (s : string) : option (list N) :=
  match s with
  | EmptyString => match need with O => Some [] | S _ => None end
  | String c s' =>
      let n := N_of_ascii c in
      match need with
      | O =>
          if (n <? 128)%N then cons n <$> code_points_from 0 0 0 s'
          else if (n <? 192)%N then None
          else if (n <? 224)%N then code_points_from 1 (n - 192) 128 s'
          else if (n <? 240)%N then code_points_from 2 (n - 224) 2048 s'
          else if (n <? 248)%N then code_points_from 3 (n - 240) 65536 s'
          else None
      | S need' =>
          if (128 <=? n)%N && (n <? 192)%N then
            let cp' := (cp * 64 + (n - 128))%N in
            match need' with
            | O =>
                if (lo <=? cp')%N && (cp' <? 1114112)%N
                   && negb ((55296 <=? cp')%N && (cp' <? 57344)%N)
                then cons cp' <$> code_points_from 0 0 0 s'
                else None
            | S _ => code_points_from need' cp' lo s'
            end
          else None
      end
  end.

Definition code_points (s : string) : option (list N) := code_points_from 0 0 0 s.

(** [Py_UNICODE_ISSPACE]. *)
Definition Py_UNICODE_ISSPACE (cp : N) : bool :=
  ((0x9 <=? cp) && (cp <=? 0xD) || (0x1C <=? cp) && (cp <=? 0x20)
   || (0x2000 <=? cp) && (cp <=? 0x200A)
   || bool_decide (cp ∈ [0x85; 0xA0; 0x1680; 0x2028; 0x2029; 0x202F; 0x205F; 0x3000]))%N.

(** The digit zero of every script with decimal digits (Unicode 14.0); the
    digits one to nine of a script follow its zero. *)
Definition decimal_zeros : list N :=
  [ 0x30; 0x660; 0x6F0; 0x7C0; 0x966; 0x9E6; 0xA66; 0xAE6;
    0xB66; 0xBE6; 0xC66; 0xCE6; 0xD66; 0xDE6; 0xE50; 0xED0;
    0xF20; 0x1040; 0x1090; 0x17E0; 0x1810; 0x1946; 0x19D0; 0x1A80;
    0x1A90; 0x1B50; 0x1BB0; 0x1C40; 0x1C50; 0xA620; 0xA8D0; 0xA900;
    0xA9D0; 0xA9F0; 0xAA50; 0xABF0; 0xFF10; 0x104A0; 0x10D30; 0x11066;
    0x110F0; 0x11136; 0x111D0; 0x112F0; 0x11450; 0x114D0; 0x11650; 0x116C0;
    0x11730; 0x118E0; 0x11950; 0x11C50; 0x11D50; 0x11DA0; 0x16A60; 0x16AC0;
    0x16B50; 0x1D7CE; 0x1D7D8; 0x1D7E2; 0x1D7EC; 0x1D7F6; 0x1E140; 0x1E2F0;
    0x1E950; 0x1FBF0 ]%N.

(** [Py_UNICODE_TODECIMAL]: the value of a decimal digit of any script. *)
Definition Py_UNICODE_TODECIMAL (cp : N) : option N :=
  (fun zero => cp - zero)%N <$>
  find (fun zero => (zero <=? cp) && (cp <? zero + 10))%N decimal_zeros.

(** [_PyUnicode_TransformDecimalAndSpaceToASCII]: an ASCII text is taken as
    it is; in any other text the characters from 127 on are replaced, white
    space by a space and a decimal digit by its ASCII digit, and the text is
    cut at the first one that is neither, which leaves a question mark. *)
Fixpoint transform (cps : list N) : string :=
  match cps with
  | [] => EmptyString
  | ch :: rest =>
      if (ch <? 127)%N then String (ascii_of_N ch) (transform rest)
      else if Py_UNICODE_ISSPACE ch then String " " (transform rest)
      else match Py_UNICODE_TODECIMAL ch with
           | Some decimal => String (ascii_of_N (48 + decimal)) (transform rest)
           | None => "?"
           end
  end.

Definition TransformDecimalAndSpaceToASCII (s : string) : option string :=
  if isascii s then Some s else transform <$> code_points s.

(** Python's [int(s)] on a string: [None] stands for [ValueError].  A
    numeral is read whatever its length, as the interpreters before
    Python 3.11 do, and the later ones with their limit on integer string
    conversion switched off; [int_of_str_with] below is [int] under that
    limit. *)
Definition int_of_str (s : string) : option Z :=
  match TransformDecimalAndSpaceToASCII s with
  | Some asciidig => PyLong_FromString asciidig
  | None => None
  end.

(** The digits of a numeral, which the interpreter counts against its limit
    on integer string conversion: signs, underscores and white space are
    not counted. *)
Fixpoint count_digits (s : string) : nat :=
  match s with
  | EmptyString => 0
  | String c s' => match digit_of c with Some _ => 1 | None => 0 end + count_digits s'
  end.

Definition digit_count (s : string) : nat :=
  match TransformDecimalAndSpaceToASCII s with
  | Some asciidig => count_digits asciidig
  | None => 0
  end.

(** [sys.int_info.default_max_str_digits], the limit of an interpreter
    that is not configured otherwise. *)
Definition default_max_str_digits : nat := 4300.

(** [int(s)] under the limit [max_str_digits]: a numeral of more digits
    raises [ValueError] too, and 0 switches the limit off. *)
Definition int_of_str_with (max_str_digits : nat) (s : string) : option Z :=
  if (0 <? max_str_digits)%nat && (max_str_digits <? digit_count s)%nat
  then None else int_of_str s.

End Text.

(** ** The entity store *)
Module Models.

(** Modelled from the spec: [blog/models.py] is not among the sources.  A
    Post has a title, a body, a slug and a creation time stamp; its primary
    key is absent until the row is first saved. *)
Record Post := {
  post_id : option nat;
  post_title : string;
  post_slug : string;
  post_body : string;
  post_date_pub : nat }.

(** Modelled from the spec: the [Tag] model of [blog/models.py], a name and
    a slug. *)
Record Tag := {
  tag_id : option nat;
  tag_name : string;
  tag_slug : string }.

Inductive Entity := EPost (p : Post) | ETag (t : Tag).

(** A table keeps its rows in the store's default order, together with the
    next value of its auto-increment primary key. *)
Record Table (E : Type) := { rows : list E; next_pk : nat }.
Arguments rows {E} _.
Arguments next_pk {E} _.

(** Modelled from the spec: the store holds the two tables and the
    relation of a Post to zero or more Tags, kept as the (post key, tag key)
    pairs of a many-to-many field. *)
Record DB := {
  post_table : Table Post;
  tag_table : Table Tag;
  post_tags : list (nat * nat) }.

Definition empty_db : DB :=
  {| post_table := {| rows := []; next_pk := 1 |};
     tag_table := {| rows := []; next_pk := 1 |};
     post_tags := [] |}.

(** A target of [redirect]: a named route reversed with its [slug] keyword
    argument, or the login page. *)
Inductive Url :=
  | reverse (name : string) (slug : option string)
  | login_url.

(** What the generic mixins use of [self.model]. *)
Class Model (E : Type) := {
  model_name : string;
  pk : E -> option nat;
  set_pk : nat -> E -> E;
  slug : E -> string;
  new : E;
  get_absolute_url : E -> Url;
  to_entity : E -> Entity;
  table : DB -> Table E;
  set_table : Table E -> DB -> DB;
  unlink : nat -> DB -> DB;
  set_m2m : nat -> list nat -> DB -> DB }.

Definition objects {E} `{Model E} (db : DB) : list E := rows (table db).

Class ModelLaws (E : Type) `{Model E} := {
  table_set_table : forall t db, table (set_table t db) = t;
  table_unlink : forall i db, table (unlink i db) = table db;
  table_set_m2m : forall i ts db, table (set_m2m i ts db) = table db;
  pk_set_pk : forall i e, pk (set_pk i e) = Some i;
  pk_new : pk new = None }.

(** Modelled from the spec: [Post] of [blog/models.py]; its page is the
    post detail page of its slug. *)
#[export] Instance Post_model : Model Post := {
  model_name := "Post";
  pk := post_id;
  set_pk i p :=
    {| post_id := Some i; post_title := post_title p; post_slug := post_slug p;
       post_body := post_body p; post_date_pub := post_date_pub p |};
  slug := post_slug;
  new := {| post_id := None; post_title := ""; post_slug := "";
            post_body := ""; post_date_pub := 0 |};
  get_absolute_url p := reverse "post_detail_url" (Some (post_slug p));
  to_entity := EPost;
  table := post_table;
  set_table t db :=
    {| post_table := t; tag_table := tag_table db; post_tags := post_tags db |};
  unlink i db :=
    {| post_table := post_table db; tag_table := tag_table db;
       post_tags := List.filter (fun r => negb (Nat.eqb (fst r) i)) (post_tags db) |};
  set_m2m i ts db :=
    {| post_table := post_table db; tag_table := tag_table db;
       post_tags := List.filter (fun r => negb (Nat.eqb (fst r) i)) (post_tags db)
                    ++ List.map (fun t => (i, t)) ts |} }.

(** Modelled from the spec: [Tag] of [blog/models.py]; its page is the tag
    detail page of its slug. *)
#[export] Instance Tag_model : Model Tag := {
  model_name := "Tag";
  pk := tag_id;
  set_pk i t := {| tag_id := Some i; tag_name := tag_name t; tag_slug := tag_slug t |};
  slug := tag_slug;
  new := {| tag_id := None; tag_name := ""; tag_slug := "" |};
  get_absolute_url t := reverse "tag_detail_url" (Some (tag_slug t));
  to_entity := ETag;
  table := tag_table;
  set_table t db :=
    {| post_table := post_table db; tag_table := t; post_tags := post_tags db |};
  unlink i db :=
    {| post_table := post_table db; tag_table := tag_table db;
       post_tags := List.filter (fun r => negb (Nat.eqb (snd r) i)) (post_tags db) |};
  set_m2m _ _ db := db }.

(** Primary keys are present, below the sequence, and unique. *)
Definition table_wf {E} `{Model E} (t : Table E) : Prop :=
  NoDup (List.map pk (rows t)) /\
  Forall (fun r => exists i, pk r = Some i /\ (i < next_pk t)%nat) (rows t).

Definition db_wf (db : DB) : Prop :=
  table_wf (post_table db) /\ table_wf (tag_table db).

End Models.

(** ** Exceptions and the request computation

    A view runs against the store and either returns a value or raises;
    store changes made before an exception is raised are kept (requests are
    not wrapped in a transaction). *)
Module Run.
Import Models.

Inductive Exn :=
  | DoesNotExist (model : string)
  | MultipleObjectsReturned (model : string)
  | Http404
  | PermissionDenied
  | PageNotAnInteger
  | EmptyPage
  | ValueError.

Definition Result (A : Type) : Type := Exn + A.
Definition M (A : Type) : Type := DB -> Result A * DB.

Definition ret {A} (a : A) : M A := fun db => (inr a, db).
Definition raise {A} (e : Exn) : M A := fun db => (inl e, db).
Definition bind {A B} (c : M A) (k : A -> M B) : M B :=
  fun db =>
    match c db with
    | (inr a, db') => k a db'
    | (inl e, db') => (inl e, db')
    end.
Definition get_db : M DB := fun db => (inr db, db).
Definition put_db (db : DB) : M unit := fun _ => (inr tt, db).
Definition lift {A} (r : Result A) : M A := fun db => (r, db).

(** [try: c except: h], where the handler re-raises what it does not catch. *)
Definition try_except {A} (c : M A) (h : Exn -> M A) : M A :=
  fun db =>
    match c db with
    | (inl e, db') => h e db'
    | r => r
    end.

Definition rbind {A B} (r : Result A) (k : A -> Result B) : Result B :=
  match r with
  | inr a => k a
  | inl e => inl e
  end.

End Run.

Declare Scope run_scope.
Delimit Scope run_scope with run.
Notation "x <- c ;; k" := (Run.bind c (fun x => k))
  (at level 100, c at next level, right associativity) : run_scope.
Notation "c ;;; k" := (Run.bind c (fun _ => k))
  (at level 100, right associativity) : run_scope.
Notation "x <~ r ;; k" := (Run.rbind r (fun x => k))
  (at level 100, r at next level, right associativity) : run_scope.
Open Scope run_scope.

(** ** The object-relational mapper: [Model.objects], [save], [delete] *)
Module ORM.
Import Models Run.

Section Manager.
Context {E : Type} `{Model E}.

Definition has_pk (i : nat) (r : E) : bool :=
  match pk r with
  | Some j => Nat.eqb i j
  | None => false
  end.

(** [self.model.objects.all()] *)
Definition objects_all : M (list E) :=
  db <- get_db ;; ret (objects db).

(** [self.model.objects.filter(cond)] *)
Definition objects_filter (cond : E -> bool) : M (list E) :=
  db <- get_db ;; ret (List.filter cond (objects db)).

(** [self.model.objects.get(slug__iexact=slug)] *)
Definition objects_get (s : string) : M E :=
  found <- objects_filter (fun r => Text.iexact (slug r) s) ;;
  match found with
  | [obj] => ret obj
  | [] => raise (DoesNotExist model_name)
  | _ => raise (MultipleObjectsReturned model_name)
  end.

(** [get_object_or_404(self.model, slug__iexact=slug)] *)
Definition get_object_or_404 (s : string) : M E :=
  try_except (objects_get s)
    (fun e => match e with
              | DoesNotExist _ => raise Http404
              | _ => raise e
              end).

(** [instance.save()]: an instance without a primary key is inserted under
    the next key of the sequence; one with a key overwrites the row that has
    it, and is inserted under that key when no row has it. *)
Definition Model_save (e : E) : M E :=
  db <- get_db ;;
  let t := table db in
  match pk e with
  | None =>
      let e' := set_pk (next_pk t) e in
      put_db (set_table {| rows := rows t ++ [e']; next_pk := S (next_pk t) |} db) ;;;
      ret e'
  | Some i =>
      if existsb (has_pk i) (rows t) then
        put_db (set_table
                  {| rows := List.map (fun r => if has_pk i r then e else r) (rows t);
                     next_pk := next_pk t |} db) ;;;
        ret e
      else
        put_db (set_table
                  {| rows := rows t ++ [e]; next_pk := Nat.max (next_pk t) (S i) |} db) ;;;
        ret e
  end.

(** [instance.delete()]: the row with the instance's key goes, and with it
    the relation rows that mention it; an instance that was never saved
    cannot be deleted. *)
Definition Model_delete (e : E) : M unit :=
  match pk e with
  | None => raise ValueError
  | Some i =>
      db <- get_db ;;
      let t := table db in
      put_db (unlink i
                (set_table
                   {| rows := List.filter (fun r => negb (has_pk i r)) (rows t);
                      next_pk := next_pk t |} db))
  end.

End Manager.
End ORM.

(** ** Requests *)
Module Request.

Inductive Method := GET | POST | PUT | PATCH | DELETE.

(** A [QueryDict] maps a key to the list of values submitted for it. *)
Abbreviation QueryDict := (gmap string (list string)).

(** [q.get(key)]: the last value submitted for [key]; [None] when the key is
    missing or its list is empty, the cases in which [get] returns its
    default. *)
Definition QueryDict_get (q : QueryDict) (key : string) : option string :=
  match q !! key with
  | Some vs => List.last (List.map Some vs) None
  | None => None
  end.

Definition QueryDict_getlist (q : QueryDict) (key : string) : list string :=
  default [] (q !! key).

Record HttpRequest := {
  method : Method;
  user_is_authenticated : bool;
  GET_data : QueryDict;
  POST_data : QueryDict }.

End Request.

(** ** Model forms

    [ModelForm] is the framework's flow ([is_valid] runs [full_clean] once
    and caches the errors; [save] writes the instance and its relations).
    The field rules of a concrete form live in [blog/forms.py], which is not
    among the sources: they enter as the class method [clean], which maps
    the store, the instance the form was built on and the submitted data to
    the error dictionary, the instance with the cleaned values assigned, and
    the cleaned tag keys.  The primary key is not a form field, so [clean]
    never changes it. *)
Module Forms.
Import Models Run ORM Request.

Abbreviation ErrorDict := (gmap string (list string)).

Record ModelFormObj (E : Type) := {
  form_data : option QueryDict;
  form_instance : E;
  form_errors : option ErrorDict;
  form_m2m : list nat }.
Arguments form_data {E} _.
Arguments form_instance {E} _.
Arguments form_errors {E} _.
Arguments form_m2m {E} _.

Class ModelForm (E : Type) `{Model E} := {
  clean : DB -> E -> QueryDict -> ErrorDict * E * list nat;
  clean_pk : forall db e d, pk (snd (fst (clean db e d))) = pk e }.

Section Flow.
Context {E : Type} `{ModelForm E}.

(** [self.model_form(data, instance=instance)] *)
Definition model_form (data : option QueryDict) (instance : option E) : ModelFormObj E :=
  {| form_data := data; form_instance := default new instance;
     form_errors := None; form_m2m := [] |}.

Definition is_bound (f : ModelFormObj E) : bool :=
  match form_data f with Some _ => true | None => false end.

Definition full_clean (f : ModelFormObj E) : M (ModelFormObj E) :=
  match form_data f with
  | None =>
      ret {| form_data := None; form_instance := form_instance f;
             form_errors := Some ∅; form_m2m := form_m2m f |}
  | Some d =>
      db <- get_db ;;
      let '(errs, inst, m2m) := clean db (form_instance f) d in
      ret {| form_data := Some d; form_instance := inst;
             form_errors := Some errs; form_m2m := m2m |}
  end.

(** The [errors] property: cleans on first access. *)
Definition errors (f : ModelFormObj E) : M (ErrorDict * ModelFormObj E) :=
  match form_errors f with
  | Some errs => ret (errs, f)
  | None => f' <- full_clean f ;; ret (default ∅ (form_errors f'), f')
  end.

Definition is_valid (f : ModelFormObj E) : M (bool * ModelFormObj E) :=
  r <- errors f ;;
  let '(errs, f') := r in
  ret (is_bound f' && bool_decide (errs = ∅), f').

Definition save (f : ModelFormObj E) : M E :=
  r <- errors f ;;
  let '(errs, f') := r in
  if bool_decide (errs = ∅) then
    obj <- Model_save (form_instance f') ;;
    match pk obj with
    | Some i => db <- get_db ;; put_db (set_m2m i (form_m2m f') db)
    | None => ret tt
    end ;;;
    ret obj
  else raise ValueError.

End Flow.

(** *** The two forms of the application *)

Definition slug_char (c : ascii) : bool :=
  let n := nat_of_ascii c in
  ((48 <=? n)%nat && (n <=? 57)%nat) || ((65 <=? n)%nat && (n <=? 90)%nat) ||
  ((97 <=? n)%nat && (n <=? 122)%nat) || Ascii.eqb c "_" || Ascii.eqb c "-".

Fixpoint well_formed_slug (s : string) : bool :=
  match s with
  | EmptyString => true
  | String c s' => slug_char c && well_formed_slug s'
  end.

Definition slug_taken {E} `{Model E} (db : DB) (inst : E) (s : string) : bool :=
  existsb (fun r => Text.iexact (slug r) s && negb (bool_decide (pk r = pk inst)))
          (objects db).

Definition slug_errors {E} `{Model E} (db : DB) (inst : E) (s : string) : list string :=
  if String.eqb s "" then ["This field is required."]
  else if negb (well_formed_slug s) then ["Enter a valid slug."]
  else if slug_taken db inst s then ["Slug must be unique."]
  else [].

Definition required_errors (v : string) : list string :=
  if String.eqb v "" then ["This field is required."] else [].

Definition add_errors (field : string) (msgs : list string) (errs : ErrorDict) : ErrorDict :=
  match msgs with
  | [] => errs
  | _ => <[field := msgs]> errs
  end.

Definition keep_if_clean (msgs : list string) (cleaned old : string) : string :=
  match msgs with
  | [] => cleaned
  | _ => old
  end.

Definition field (d : QueryDict) (key : string) : string :=
  default "" (QueryDict_get d key).

(** Modelled from the spec: [TagForm] of [blog/forms.py] is not among the
    sources.  Required fields are non-empty; the slug is well-formed and
    unique (case-insensitively) among the other tags. *)
Definition TagForm_clean (db : DB) (inst : Tag) (d : QueryDict)
  : ErrorDict * Tag * list nat :=
  let e_name := required_errors (field d "name") in
  let e_slug := slug_errors db inst (field d "slug") in
  (add_errors "slug" e_slug (add_errors "name" e_name ∅),
   {| tag_id := tag_id inst;
      tag_name := keep_if_clean e_name (field d "name") (tag_name inst);
      tag_slug := keep_if_clean e_slug (field d "slug") (tag_slug inst) |},
   []).

Definition tag_key (db : DB) (v : string) : option nat :=
  match Text.int_of_str v with
  | Some z =>
      if (0 <=? z)%Z && existsb (has_pk (Z.to_nat z)) (objects (E:=Tag) db)
      then Some (Z.to_nat z) else None
  | None => None
  end.

Definition tags_errors (db : DB) (vs : list string) : list string :=
  if forallb (fun v => match tag_key db v with Some _ => true | None => false end) vs
  then [] else ["Select a valid choice."].

(** Modelled from the spec: [PostForm] of [blog/forms.py] is not among the
    sources.  Title and slug are required, the slug is well-formed and
    unique among the other posts, and every submitted tag is a stored one. *)
Definition PostForm_clean (db : DB) (inst : Post) (d : QueryDict)
  : ErrorDict * Post * list nat :=
  let e_title := required_errors (field d "title") in
  let e_slug := slug_errors db inst (field d "slug") in
  let e_tags := tags_errors db (QueryDict_getlist d "tags") in
  (add_errors "tags" e_tags (add_errors "slug" e_slug (add_errors "title" e_title ∅)),
   {| post_id := post_id inst;
      post_title := keep_if_clean e_title (field d "title") (post_title inst);
      post_slug := keep_if_clean e_slug (field d "slug") (post_slug inst);
      post_body := field d "body";
      post_date_pub := post_date_pub inst |},
   match e_tags with
   | [] => omap (tag_key db) (QueryDict_getlist d "tags")
   | _ => []
   end).

Definition TagForm_rules : ModelForm Tag :=
  {| clean := TagForm_clean; clean_pk := fun _ _ _ => eq_refl |}.
Definition PostForm_rules : ModelForm Post :=
  {| clean := PostForm_clean; clean_pk := fun _ _ _ => eq_refl |}.

End Forms.

(** ** [django.core.paginator] *)
Module Paginator.
Import Run.

Record Paginator (A : Type) := {
  object_list : list A;
  per_page : Z;
  orphans : Z;
  allow_empty_first_page : bool }.
Arguments object_list {A} _.
Arguments per_page {A} _.
Arguments orphans {A} _.
Arguments allow_empty_first_page {A} _.

Record Page (A : Type) := {
  page_object_list : list A;
  number : Z;
  paginator : Paginator A }.
Arguments page_object_list {A} _.
Arguments number {A} _.
Arguments paginator {A} _.

(** The page number as the view hands it over: the query string's text, or
    the integer default. *)
Inductive PageParam := PStr (s : string) | PInt (n : Z).

Section Paginator.
Context {A : Type}.

(** [Paginator(object_list, per_page)] *)
Definition make (l : list A) (n : Z) : Paginator A :=
  {| object_list := l; per_page := n; orphans := 0; allow_empty_first_page := true |}.

Definition count (p : Paginator A) : Z := Z.of_nat (length (object_list p)).

(** [ceil(hits / per_page)] *)
Definition num_pages (p : Paginator A) : Z :=
  if (count p =? 0)%Z && negb (allow_empty_first_page p) then 0%Z
  else
    let hits := Z.max 1 (count p - orphans p) in
    ((hits + per_page p - 1) / per_page p)%Z.

(** [int(number)]: the page parameter of a query string is a text, the
    view's default an integer. *)
Definition int (v : PageParam) : Result Z :=
  match v with
  | PInt n => inr n
  | PStr s =>
      match Text.int_of_str s with
      | Some n => inr n
      | None => inl ValueError
      end
  end.

Definition validate_number (p : Paginator A) (v : PageParam) : Result Z :=
  n <~ match int v with
       | inl _ => inl PageNotAnInteger
       | inr n => inr n
       end ;;
  if (n <? 1)%Z then inl EmptyPage
  else if (n >? num_pages p)%Z then
    if (n =? 1)%Z && allow_empty_first_page p then inr n else inl EmptyPage
  else inr n.

(** [l[bottom:top]] for [0 <= bottom] *)
Definition slice (bottom top : Z) (l : list A) : list A :=
  take (Z.to_nat (top - bottom)) (drop (Z.to_nat bottom) l).

Definition page (p : Paginator A) (v : PageParam) : Result (Page A) :=
  n <~ validate_number p v ;;
  let bottom := ((n - 1) * per_page p)%Z in
  let top := (bottom + per_page p)%Z in
  let top := if (top + orphans p >=? count p)%Z then count p else top in
  inr {| page_object_list := slice bottom top (object_list p);
         number := n; paginator := p |}.

Definition get_page (p : Paginator A) (v : PageParam) : Result (Page A) :=
  n <~ match validate_number p v with
       | inl PageNotAnInteger => inr 1%Z
       | inl EmptyPage => inr (num_pages p)
       | r => r
       end ;;
  page p (PInt n).

Definition has_next (pg : Page A) : bool := (number pg <? num_pages (paginator pg))%Z.
Definition has_previous (pg : Page A) : bool := (number pg >? 1)%Z.
Definition has_other_pages (pg : Page A) : bool := has_previous pg || has_next pg.
Definition next_page_number (pg : Page A) : Result Z :=
  validate_number (paginator pg) (PInt (number pg + 1)).
Definition previous_page_number (pg : Page A) : Result Z :=
  validate_number (paginator pg) (PInt (number pg - 1)).

End Paginator.
End Paginator.

(** ** Responses *)
Module Response.
Import Models Run Request Forms Paginator.

Inductive Value :=
  | VEntity (e : Entity)
  | VBool (b : bool)
  | VStr (s : string)
  | VForm (f : ModelFormObj Entity)
  | VPage (p : Page Post)
  | VTags (ts : list Tag).

Inductive HttpResponse :=
  | TemplateResponse (template : string) (context : gmap string Value)
  | HttpResponseRedirect (to : Url)
  | HttpResponseNotAllowed
  | HttpResponseNotFound
  | HttpResponseForbidden
  | HttpResponseServerError (e : Exn).

(** A dictionary display [{k1: v1, k2: v2, ...}]: later items win. *)
Definition dict (items : list (string * Value)) : gmap string Value :=
  foldl (fun m kv => <[fst kv := snd kv]> m) ∅ items.

Definition render (request : HttpRequest) (template : string)
    (context : gmap string Value) : M HttpResponse :=
  ret (TemplateResponse template context).

(** [redirect(obj)] goes to [obj.get_absolute_url()], [redirect(url)] to
    the URL. *)
Definition redirect_to_object {E} `{Model E} (obj : E) : M HttpResponse :=
  ret (HttpResponseRedirect (get_absolute_url obj)).
Definition redirect (to : Url) : M HttpResponse :=
  ret (HttpResponseRedirect to).

Definition form_value {E} `{Model E} (f : ModelFormObj E) : Value :=
  VForm {| form_data := form_data f; form_instance := to_entity (form_instance f);
           form_errors := form_errors f; form_m2m := form_m2m f |}.

Definition object_value {E} `{Model E} (obj : E) : Value := VEntity (to_entity obj).

(** The request handler around a view: [Http404] becomes the 404 page,
    [PermissionDenied] the 403 page, any other exception a server error. *)
Definition get_response (view : M HttpResponse) (db : DB) : HttpResponse * DB :=
  match view db with
  | (inr r, db') => (r, db')
  | (inl Http404, db') => (HttpResponseNotFound, db')
  | (inl PermissionDenied, db') => (HttpResponseForbidden, db')
  | (inl e, db') => (HttpResponseServerError e, db')
  end.

End Response.

(** ** [blog/utils.py] *)
Module Utils.
Import Models Run ORM Request Forms Response.

Section Model.
Context {E : Type} `{Model E}.

(** [self.model.__name__.lower()] *)
Definition model_key : string := Text.lower model_name.

Definition ObjectDetailMixin_get (template : string)
    (request : HttpRequest) (slug : string) : M HttpResponse :=
  obj <- get_object_or_404 slug ;;
  render request template
    (dict [(model_key, object_value obj);
           ("admin_object", object_value obj);
           ("detail", VBool true)]).

Definition ObjectDeleteMixin_get (template : string)
    (request : HttpRequest) (slug : string) : M HttpResponse :=
  obj <- objects_get slug ;;
  render request template (dict [(model_key, object_value obj)]).

(** [reverse] reaches [utils.py] through [from .models import *]. *)
Definition ObjectDeleteMixin_post (redirect_url : string)
    (request : HttpRequest) (slug : string) : M HttpResponse :=
  obj <- objects_get slug ;;
  Model_delete obj ;;;
  redirect (reverse redirect_url None).

End Model.

Section ModelForm.
Context {E : Type} `{ModelForm E}.

Definition ObjectCreateMixin_get (template : string)
    (request : HttpRequest) : M HttpResponse :=
  let form := model_form None None in
  render request template (dict [("form", form_value form)]).

Definition ObjectCreateMixin_post (template : string)
    (request : HttpRequest) : M HttpResponse :=
  let bound_form := model_form (Some (POST_data request)) None in
  v <- is_valid bound_form ;;
  let '(valid, bound_form) := v in
  if valid then
    new_obj <- save bound_form ;;
    redirect_to_object new_obj
  else
    render request template (dict [("form", form_value bound_form)]).

Definition ObjectUpdateMixin_get (template : string)
    (request : HttpRequest) (slug : string) : M HttpResponse :=
  obj <- objects_get slug ;;
  let bound_form := model_form None (Some obj) in
  render request template
    (dict [("form", form_value bound_form); (model_key, object_value obj)]).

(** [obj] and [bound_form.instance] are one object: what the template gets
    under the model's key is the instance as cleaning left it. *)
Definition ObjectUpdateMixin_post (template : string)
    (request : HttpRequest) (slug : string) : M HttpResponse :=
  obj <- objects_get slug ;;
  let bound_form := model_form (Some (POST_data request)) (Some obj) in
  v <- is_valid bound_form ;;
  let '(valid, bound_form) := v in
  if valid then
    new_obj <- save bound_form ;;
    redirect_to_object new_obj
  else
    render request template
      (dict [("form", form_value bound_form);
             (model_key, object_value (form_instance bound_form))]).

End ModelForm.
End Utils.

(** ** [blog/views.py] *)
Module Views.
Import Models Run ORM Request Forms Paginator Response Utils.

(** [View.dispatch]: the handler named after the request method, or
    [http_method_not_allowed] when the class has none. *)
Definition http_method_not_allowed : M HttpResponse := ret HttpResponseNotAllowed.

Definition View_dispatch (request : HttpRequest)
    (get post : option (M HttpResponse)) : M HttpResponse :=
  match method request with
  | GET => default http_method_not_allowed get
  | POST => default http_method_not_allowed post
  | _ => http_method_not_allowed
  end.

(** [AccessMixin.handle_no_permission] and [LoginRequiredMixin.dispatch] *)
Definition handle_no_permission (raise_exception : bool)
    (request : HttpRequest) : M HttpResponse :=
  if raise_exception || user_is_authenticated request
  then raise PermissionDenied
  else redirect login_url.

Definition LoginRequiredMixin_dispatch (raise_exception : bool)
    (request : HttpRequest) (super_dispatch : M HttpResponse) : M HttpResponse :=
  if negb (user_is_authenticated request)
  then handle_no_permission raise_exception request
  else super_dispatch.

Definition posts_list (request : HttpRequest) : M HttpResponse :=
  let search_query := default "" (QueryDict_get (GET_data request) "search") in
  posts <- (if negb (String.eqb search_query "") then
              objects_filter (fun p : Post =>
                Text.icontains (post_title p) search_query ||
                Text.icontains (post_body p) search_query)
            else objects_all) ;;
  let paginator := Paginator.make posts 10 in
  let page_number :=
    from_option PStr (PInt 1) (QueryDict_get (GET_data request) "page") in
  page <- lift (get_page paginator page_number) ;;
  let is_paginated := has_other_pages page in
  prev_url <- (if has_previous page then
                 n <- lift (previous_page_number page) ;;
                 ret ("?page=" +:+ Text.str_of_Z n)
               else ret "") ;;
  next_url <- (if has_next page then
                 n <- lift (next_page_number page) ;;
                 ret ("?page=" +:+ Text.str_of_Z n)
               else ret "") ;;
  let context :=
    dict [("page_object", VPage page);
          ("is_paginated", VBool is_paginated);
          ("next_url", VStr next_url);
          ("prev_url", VStr prev_url)] in
  render request "blog/index.html" context.

Definition tags_list (request : HttpRequest) : M HttpResponse :=
  tags <- objects_all ;;
  render request "blog/tags_list.html" (dict [("tags", VTags tags)]).

Section Views.
(** [from .forms import TagForm, PostForm] *)
Context (PostForm : ModelForm Post) (TagForm : ModelForm Tag).

Definition raise_exception : bool := true.

Definition PostDetail (request : HttpRequest) (slug : string) : M HttpResponse :=
  View_dispatch request
    (Some (ObjectDetailMixin_get (E:=Post) "blog/post_detail.html" request slug))
    None.

Definition PostCreate_post (request : HttpRequest) : M HttpResponse :=
  ObjectCreateMixin_post (E:=Post) "blog/post_create_form.html" request.

Definition PostCreate (request : HttpRequest) : M HttpResponse :=
  LoginRequiredMixin_dispatch raise_exception request
    (View_dispatch request
       (Some (ObjectCreateMixin_get (E:=Post) "blog/post_create_form.html" request))
       (Some (PostCreate_post request))).

Definition PostUpdate_post (request : HttpRequest) (slug : string) : M HttpResponse :=
  ObjectUpdateMixin_post (E:=Post) "blog/post_update_form.html" request slug.

Definition PostUpdate (request : HttpRequest) (slug : string) : M HttpResponse :=
  LoginRequiredMixin_dispatch raise_exception request
    (View_dispatch request
       (Some (ObjectUpdateMixin_get (E:=Post) "blog/post_update_form.html" request slug))
       (Some (PostUpdate_post request slug))).

Definition PostDelete_post (request : HttpRequest) (slug : string) : M HttpResponse :=
  ObjectDeleteMixin_post (E:=Post) "posts_list_url" request slug.

Definition PostDelete (request : HttpRequest) (slug : string) : M HttpResponse :=
  LoginRequiredMixin_dispatch raise_exception request
    (View_dispatch request
       (Some (ObjectDeleteMixin_get (E:=Post) "blog/post_delete_form.html" request slug))
       (Some (PostDelete_post request slug))).

Definition TagDetail (request : HttpRequest) (slug : string) : M HttpResponse :=
  View_dispatch request
    (Some (ObjectDetailMixin_get (E:=Tag) "blog/tag_detail.html" request slug))
    None.

Definition TagCreate_post (request : HttpRequest) : M HttpResponse :=
  ObjectCreateMixin_post (E:=Tag) "blog/tag_create.html" request.

Definition TagCreate (request : HttpRequest) : M HttpResponse :=
  LoginRequiredMixin_dispatch raise_exception request
    (View_dispatch request
       (Some (ObjectCreateMixin_get (E:=Tag) "blog/tag_create.html" request))
       (Some (TagCreate_post request))).

Definition TagUpdate_post (request : HttpRequest) (slug : string) : M HttpResponse :=
  ObjectUpdateMixin_post (E:=Tag) "blog/tag_update_form.html" request slug.

Definition TagUpdate (request : HttpRequest) (slug : string) : M HttpResponse :=
  LoginRequiredMixin_dispatch raise_exception request
    (View_dispatch request
       (Some (ObjectUpdateMixin_get (E:=Tag) "blog/tag_update_form.html" request slug))
       (Some (TagUpdate_post request slug))).

Definition TagDelete_post (request : HttpRequest) (slug : string) : M HttpResponse :=
  ObjectDeleteMixin_post (E:=Tag) "tags_list_url" request slug.

Definition TagDelete (request : HttpRequest) (slug : string) : M HttpResponse :=
  LoginRequiredMixin_dispatch raise_exception request
    (View_dispatch request
       (Some (ObjectDeleteMixin_get (E:=Tag) "blog/tag_delete_form.html" request slug))
       (Some (TagDelete_post request slug))).

End Views.
End Views.

(** * Vocabulary of the properties *)

Import Text Models Run ORM Request Forms Paginator Response Utils Views.

(** A stored row answers to a slug when the two agree up to letter case. *)
Definition slug_matches {E} `{Model E} (s : string) (r : E) : Prop :=
  lower (slug r) = lower s.

(** [obj] is the one stored row that answers to [s]. *)
Definition sole_match {E} `{Model E} (s : string) (db : DB) (obj : E) : Prop :=
  exists before after : list E,
    objects db = before ++ obj :: after /\
    slug_matches s obj /\
    Forall (fun r => ~ slug_matches s r) before /\
    Forall (fun r => ~ slug_matches s r) after.

(** No stored row answers to [s]. *)
Definition no_match {E} `{Model E} (s : string) (db : DB) : Prop :=
  Forall (fun r : E => ~ slug_matches s r) (objects db).

(** The page a parameter resolves to: page 1 when it is not an integer, the
    last page when it is an integer outside the page range. *)
Definition resolve {A} (p : Paginator A) (v : PageParam) : Z :=
  match Paginator.int v with
  | inl _ => 1
  | inr k => if (k <? 1)%Z || (k >? num_pages p)%Z then num_pages p else k
  end.

(** Page [k] of a paginator. *)
Definition page_at {A} (p : Paginator A) (k : Z) : Page A :=
  let bottom := ((k - 1) * per_page p)%Z in
  let top := (bottom + per_page p)%Z in
  {| page_object_list :=
       slice bottom (if (top + orphans p >=? count p)%Z then count p else top)
             (object_list p);
     number := k; paginator := p |}.

Definition next_link {A} (pg : Page A) : string :=
  if has_next pg then "?page=" +:+ str_of_Z (number pg + 1) else "".
Definition prev_link {A} (pg : Page A) : string :=
  if has_previous pg then "?page=" +:+ str_of_Z (number pg - 1) else "".

Definition search_term (request : HttpRequest) : string :=
  default "" (QueryDict_get (GET_data request) "search").

Definition page_param (request : HttpRequest) : PageParam :=
  from_option PStr (PInt 1) (QueryDict_get (GET_data request) "page").

(** A post mentions a term when its title or its body has it as a
    substring, letter case aside. *)
Definition mentions (q : string) (post : Post) : Prop :=
  (exists pre suf, lower (post_title post) = pre +:+ lower q +:+ suf) \/
  (exists pre suf, lower (post_body post) = pre +:+ lower q +:+ suf).

Definition mentionsb (q : string) (post : Post) : bool :=
  icontains (post_title post) q || icontains (post_body post) q.

(** The posts the view paginates. *)
Definition queryset (request : HttpRequest) (db : DB) : list Post :=
  if negb (String.eqb (search_term request) "")
  then List.filter (mentionsb (search_term request)) (objects db)
  else objects db.

Definition listing (request : HttpRequest) (db : DB) : Paginator Post :=
  Paginator.make (queryset request db) 10.

Definition listed_page (request : HttpRequest) (db : DB) : Page Post :=
  page_at (listing request db) (resolve (listing request db) (page_param request)).

Definition index_page (pg : Page Post) : HttpResponse :=
  TemplateResponse "blog/index.html"
    (dict [("page_object", VPage pg);
           ("is_paginated", VBool (has_other_pages pg));
           ("next_url", VStr (next_link pg));
           ("prev_url", VStr (prev_link pg))]).

(** The page a response shows under ["page_object"]. *)
Definition shown_page (r : HttpResponse) : option (Page Post) :=
  match r with
  | TemplateResponse _ c =>
      match c !! "page_object" with
      | Some (VPage pg) => Some pg
      | _ => None
      end
  | _ => None
  end.

(** The same request with [page=v] in its query string. *)
Definition with_page (v : string) (request : HttpRequest) : HttpRequest :=
  {| method := method request;
     user_is_authenticated := user_is_authenticated request;
     GET_data := <["page" := [v]]> (GET_data request);
     POST_data := POST_data request |}.

Definition keeps_wf {A} (c : M A) : Prop :=
  forall db, db_wf db -> db_wf (snd (c db)).

(** The request a browser sends for the link [?page=k] of a listing: the
    link replaces the whole query string. *)
Definition follow_page_link (k : Z) (request : HttpRequest) : HttpRequest :=
  {| method := GET;
     user_is_authenticated := user_is_authenticated request;
     GET_data := {[ "page" := [str_of_Z k] ]};
     POST_data := ∅ |}.

(** More than one stored row answers to [s]. *)
Definition ambiguous {E} `{Model E} (s : string) (db : DB) : Prop :=
  exists (l1 : list E) (a : E) (l2 : list E) (b : E) (l3 : list E),
    objects db = l1 ++ a :: l2 ++ b :: l3 /\
    slug_matches s a /\ slug_matches s b.

(** The view callables of [blog/views.py], with the slug they are called
    with. *)
Inductive ViewCall :=
  | call_posts_list
  | call_tags_list
  | call_PostDetail (slug : string)
  | call_PostCreate
  | call_PostUpdate (slug : string)
  | call_PostDelete (slug : string)
  | call_TagDetail (slug : string)
  | call_TagCreate
  | call_TagUpdate (slug : string)
  | call_TagDelete (slug : string).

Definition serve (PostForm : ModelForm Post) (TagForm : ModelForm Tag)
    (v : ViewCall) (request : HttpRequest) : M HttpResponse :=
  match v with
  | call_posts_list => posts_list request
  | call_tags_list => tags_list request
  | call_PostDetail s => PostDetail request s
  | call_PostCreate => PostCreate PostForm request
  | call_PostUpdate s => PostUpdate PostForm request s
  | call_PostDelete s => PostDelete request s
  | call_TagDetail s => TagDetail request s
  | call_TagCreate => TagCreate TagForm request
  | call_TagUpdate s => TagUpdate TagForm request s
  | call_TagDelete s => TagDelete request s
  end.

(** The views behind the access gate. *)
Definition gated (v : ViewCall) : bool :=
  match v with
  | call_PostCreate | call_PostUpdate _ | call_PostDelete _
  | call_TagCreate | call_TagUpdate _ | call_TagDelete _ => true
  | _ => false
  end.

(** The class-based views, which dispatch on the request method. *)
Definition class_based (v : ViewCall) : bool :=
  match v with
  | call_posts_list | call_tags_list => false
  | _ => true
  end.

(** The store after a sequence of requests, each answered in turn. *)
Definition store_after (PostForm : ModelForm Post) (TagForm : ModelForm Tag)
    (hits : list (ViewCall * HttpRequest)) (db : DB) : DB :=
  foldl (fun db hit => snd (get_response (serve PostForm TagForm (fst hit) (snd hit)) db))
        db hits.

Definition reads_only {A} (c : M A) : Prop :=
  forall db, snd (c db) = db.

Definition redirects_or_reads (c : M HttpResponse) : Prop :=
  forall db, snd (c db) = db \/ exists u, fst (c db) = inr (HttpResponseRedirect u).

(** The posts a list request shows: the object list of the page in its
    response. *)
Definition shown_posts (request : HttpRequest) (db : DB) : list Post :=
  match shown_page (fst (get_response (posts_list request) db)) with
  | Some pg => page_object_list pg
  | None => []
  end.

(** ** Sample data *)

(** A small store and a few requests to run the views on. *)
Module Sample.

Definition hello : Post :=
  {| post_id := Some 1; post_title := "Hello World"; post_slug := "hello-world";
     post_body := "first body"; post_date_pub := 0 |}.
Definition second : Post :=
  {| post_id := Some 2; post_title := "Second"; post_slug := "second";
     post_body := "say hello again"; post_date_pub := 0 |}.
Definition news : Tag :=
  {| tag_id := Some 1; tag_name := "News"; tag_slug := "news" |}.

Definition db : DB :=
  {| post_table := {| rows := [hello; second]; next_pk := 3 |};
     tag_table := {| rows := [news]; next_pk := 2 |};
     post_tags := [(1, 1)] |}.

Definition request (m : Method) (auth : bool) (get post : QueryDict) : HttpRequest :=
  {| method := m; user_is_authenticated := auth; GET_data := get; POST_data := post |}.

End Sample.

Module SampleForms.

Definition new_post : QueryDict :=
  {[ "title" := ["Third"]; "slug" := ["third"]; "body" := ["more text"]; "tags" := ["1"] ]}.
Definition bad_tag : QueryDict :=
  {[ "name" := ["Daily news"]; "slug" := ["NEWS"] ]}.

End SampleForms.

Module SampleEdits.

Definition retitle : QueryDict :=
  {[ "title" := ["Second, revised"]; "slug" := ["second"]; "body" := ["say hello again"] ]}.

Definition second' : Post :=
  {| post_id := Some 2; post_title := "Second, revised"; post_slug := "second";
     post_body := "say hello again"; post_date_pub := 0 |}.

End SampleEdits.

Module SampleListing.

Definition numbered (i : nat) : Post :=
  {| post_id := Some i; post_title := "Post"; post_slug := "post";
     post_body := ""; post_date_pub := i |}.

(** A store of 25 posts. *)
Definition db25 : DB :=
  {| post_table := {| rows := List.map numbered (seq 1 25); next_pk := 26 |};
     tag_table := {| rows := []; next_pk := 1 |};
     post_tags := [] |}.

Definition get (query : QueryDict) : HttpRequest := Sample.request GET false query ∅.

Definition search_hello : HttpRequest := get {[ "search" := ["HELLO"] ]}.
Definition search_world : HttpRequest := get {[ "search" := ["World"] ]}.
Definition search_blank : HttpRequest := get {[ "search" := [""] ]}.
Definition page_2 : HttpRequest := get {[ "page" := ["2"] ]}.


(** [?page=%EF%BC%92]: the fullwidth digit two, U+FF12. *)
Definition fullwidth_2 : string := String "239" (String "188" (String "146" "")).
Definition page_fullwidth_2 : HttpRequest := get {[ "page" := [fullwidth_2] ]}.

End SampleListing.

Module SampleTwins.

Definition upper : Post :=
  {| post_id := Some 1; post_title := "Shouting"; post_slug := "NEWS";
     post_body := ""; post_date_pub := 0 |}.
Definition lower : Post :=
  {| post_id := Some 2; post_title := "Whispering"; post_slug := "news";
     post_body := ""; post_date_pub := 1 |}.

(** Two posts whose slugs differ in letter case only. *)
Definition db : DB :=
  {| post_table := {| rows := [upper; lower]; next_pk := 3 |};
     tag_table := {| rows := []; next_pk := 1 |};
     post_tags := [] |}.

End SampleTwins.

Module SampleClash.

(** An edit of the second post that takes the first post's slug. *)
Definition data : QueryDict :=
  {[ "title" := ["Retitled"]; "slug" := ["Hello-World"]; "body" := ["new body"] ]}.

Definition errs : ErrorDict := {[ "slug" := ["Slug must be unique."] ]}.

(** The second post with the fields that cleaned well assigned. *)
Definition shown : Post :=
  {| post_id := Some 2; post_title := "Retitled"; post_slug := "second";
     post_body := "new body"; post_date_pub := 0 |}.

End SampleClash.

Module SampleRename.

(** An edit of the second post that changes its slug. *)
Definition data : QueryDict :=
  {[ "title" := ["Second"]; "slug" := ["renamed"]; "body" := ["say hello again"] ]}.

Definition renamed : Post :=
  {| post_id := Some 2; post_title := "Second"; post_slug := "renamed";
     post_body := "say hello again"; post_date_pub := 0 |}.

Definition third : Post :=
  {| post_id := Some 3; post_title := "Third"; post_slug := "third";
     post_body := "more text"; post_date_pub := 0 |}.

End SampleRename.

(** * Properties *)

(** ** The embedding at work *)

Example int_of_str_samples :
  int_of_str "12" = Some 12%Z /\ int_of_str " +1_0 " = Some 10%Z /\
  int_of_str "-3" = Some (-3)%Z /\ int_of_str "abc" = None /\
  int_of_str "" = None /\ int_of_str "1__0" = None /\
  int_of_str "2.5" = None /\ int_of_str "- 1" = None.
Proof. repeat split. Qed.

(** White space is the space and the characters 9 to 13, in a text with
    characters beyond ASCII the Unicode white space from 127 on as well;
    the digits of every script are read. *)
Example int_of_str_unicode_samples :
  int_of_str (String "031" "99") = None /\
  int_of_str (String "028" "2") = None /\
  int_of_str (String "009" (String "012" "7 ")) = Some 7%Z /\
  int_of_str SampleListing.fullwidth_2 = Some 2%Z /\
  int_of_str (String "194" (String "160" "12")) = Some 12%Z /\
  int_of_str (String "028" SampleListing.fullwidth_2) = None /\
  int_of_str (String "217" (String "163" "4")) = Some 34%Z /\
  int_of_str (String "195" (String "169" "")) = None /\
  int_of_str (String "194" (String "178" "")) = None /\
  int_of_str (String "255" "1") = None.
Proof. repeat split; vm_compute; reflexivity. Qed.

Example text_samples :
  lower "Hello-World_9Z" = "hello-world_9z" /\
  iexact "Hello-World" "hello-world" = true /\
  icontains "Say HELLO again" "hello" = true /\
  icontains "Second" "hello" = false /\
  str_of_Z 25 = "25".
Proof. repeat split. Qed.

Example detail_is_not_gated :
  get_response (PostDetail (Sample.request GET false ∅ ∅) "second") Sample.db =
  (TemplateResponse "blog/post_detail.html"
     (dict [("post", VEntity (EPost Sample.second));
            ("admin_object", VEntity (EPost Sample.second));
            ("detail", VBool true)]), Sample.db).
Proof. reflexivity. Qed.

Example delete_tag_drops_its_relations :
  get_response (TagDelete (Sample.request POST true ∅ ∅) "NEWS") Sample.db =
  (HttpResponseRedirect (reverse "tags_list_url" None),
   {| post_table := post_table Sample.db;
      tag_table := {| rows := []; next_pk := 2 |};
      post_tags := [] |}).
Proof. reflexivity. Qed.

Example create_post_with_tag :
  get_response
    (PostCreate PostForm_rules (Sample.request POST true ∅ SampleForms.new_post))
    Sample.db =
  (HttpResponseRedirect (reverse "post_detail_url" (Some "third")),
   {| post_table :=
        {| rows := [Sample.hello; Sample.second;
                    {| post_id := Some 3; post_title := "Third"; post_slug := "third";
                       post_body := "more text"; post_date_pub := 0 |}];
           next_pk := 4 |};
      tag_table := tag_table Sample.db;
      post_tags := [(1, 1); (3, 1)] |}).
Proof. vm_compute. reflexivity. Qed.

Example detail_with_other_method :
  get_response (PostDetail (Sample.request POST true ∅ ∅) "second") Sample.db =
  (HttpResponseNotAllowed, Sample.db).
Proof. reflexivity. Qed.

(** ** Text *)
Section TextFacts.

Lemma append_cons (c : ascii) (a b : string) :
  String c a +:+ b = String c (a +:+ b).
Proof. reflexivity. Qed.

Lemma append_nil (b : string) : "" +:+ b = b.
Proof. reflexivity. Qed.

Lemma prefix_spec (n h : string) :
  String.prefix n h = true <-> exists post, h = n +:+ post.
Proof.
  revert n; induction h as [|c' h IH]; intros [|c n]; simpl.
  - split; [intros _; exists ""; reflexivity | reflexivity].
  - split; [discriminate | intros [post Hp]; discriminate].
  - split; [intros _; eexists; reflexivity | reflexivity].
  - destruct (Ascii.ascii_dec c c') as [->|Hne].
    + rewrite IH. split; intros [post Hp]; exists post;
        rewrite append_cons in *; congruence.
    + split; [discriminate | intros [post Hp]; rewrite append_cons in Hp; congruence].
Qed.

Lemma contains_nil (n : string) : contains n "" = String.prefix n "" || false.
Proof. reflexivity. Qed.

Lemma contains_cons (n : string) (c : ascii) (h : string) :
  contains n (String c h) = String.prefix n (String c h) || contains n h.
Proof. reflexivity. Qed.

(** [contains] is the substring relation. *)
Lemma contains_spec (n h : string) :
  contains n h = true <-> exists pre post, h = pre +:+ n +:+ post.
Proof.
  induction h as [|c h IH].
  - rewrite contains_nil, orb_false_r, prefix_spec. split.
    + intros [post Hp]. exists "", post. exact Hp.
    + intros [pre [post Hp]]. destruct pre;
        [exists post; exact Hp | rewrite append_cons in Hp; discriminate].
  - rewrite contains_cons, orb_true_iff, prefix_spec, IH. split.
    + intros [[post Hp] | [pre [post Hp]]].
      * exists "", post. exact Hp.
      * exists (String c pre), post. rewrite append_cons. by rewrite Hp.
    + intros [pre [post Hp]]. destruct pre as [|c' pre].
      * left. exists post. exact Hp.
      * right. exists pre, post. rewrite append_cons in Hp. congruence.
Qed.

Lemma iexact_spec (a b : string) : iexact a b = true <-> lower a = lower b.
Proof. unfold iexact. apply String.eqb_eq. Qed.

Lemma icontains_spec (field v : string) :
  icontains field v = true <->
  exists pre post, lower field = pre +:+ lower v +:+ post.
Proof. unfold icontains. apply contains_spec. Qed.

End TextFacts.

(** ** Slug lookup *)

(** Settles, on a concrete store, which rows answer to a slug. *)
Ltac match_facts :=
  repeat first
    [ apply Forall_nil | apply Forall_cons | discriminate | reflexivity | split ].

Section Lookup.
Context {E : Type} `{Model E}.

Lemma filter_no_match (s : string) (l : list E) :
  Forall (fun r => ~ slug_matches s r) l ->
  List.filter (fun r => iexact (slug r) s) l = [].
Proof.
  induction 1 as [|r l Hr _ IH]; simpl; [done|].
  destruct (iexact (slug r) s) eqn:Hi; [|exact IH].
  apply iexact_spec in Hi. contradiction.
Qed.

Lemma filter_sole_match (s : string) (db : DB) (obj : E) :
  sole_match s db obj ->
  List.filter (fun r => iexact (slug r) s) (objects db) = [obj].
Proof.
  intros (before & after & Hrows & Hobj & Hb & Ha).
  rewrite Hrows, List.filter_app. simpl.
  rewrite (filter_no_match s before Hb), (filter_no_match s after Ha).
  apply iexact_spec in Hobj. by rewrite Hobj.
Qed.

Lemma sole_match_In (s : string) (db : DB) (obj : E) :
  sole_match s db obj -> In obj (objects db).
Proof.
  intros (before & after & Hrows & _). rewrite Hrows.
  apply in_or_app. right. by left.
Qed.

Lemma objects_get_found (s : string) (db : DB) (obj : E) :
  sole_match s db obj -> objects_get s db = (inr obj, db).
Proof.
  intros Hs. unfold objects_get, objects_filter, bind, get_db, ret.
  by rewrite (filter_sole_match s db obj Hs).
Qed.

Lemma objects_get_missing (s : string) (db : DB) :
  no_match s db -> objects_get s db = (inl (DoesNotExist model_name), db).
Proof.
  intros Hs. unfold objects_get, objects_filter, bind, get_db, ret.
  by rewrite (filter_no_match s _ Hs).
Qed.

Lemma get_object_or_404_found (s : string) (db : DB) (obj : E) :
  sole_match s db obj -> get_object_or_404 s db = (inr obj, db).
Proof.
  intros Hs. unfold get_object_or_404, try_except.
  by rewrite (objects_get_found s db obj Hs).
Qed.

Lemma get_object_or_404_missing (s : string) (db : DB) :
  no_match s db -> get_object_or_404 s db = (inl Http404, db).
Proof.
  intros Hs. unfold get_object_or_404, try_except.
  by rewrite (objects_get_missing s db Hs).
Qed.

Lemma detail_found (template : string) (request : HttpRequest) (s : string)
    (db : DB) (obj : E) :
  sole_match s db obj ->
  ObjectDetailMixin_get template request s db =
  (inr (TemplateResponse template
          (dict [(model_key, object_value obj);
                 ("admin_object", object_value obj);
                 ("detail", VBool true)])), db).
Proof.
  intros Hs. unfold ObjectDetailMixin_get, bind.
  by rewrite (get_object_or_404_found s db obj Hs).
Qed.

Lemma detail_missing (template : string) (request : HttpRequest) (s : string)
    (db : DB) :
  no_match s db -> ObjectDetailMixin_get template request s db = (inl Http404, db).
Proof.
  intros Hs. unfold ObjectDetailMixin_get, bind.
  by rewrite (get_object_or_404_missing s db Hs).
Qed.

End Lookup.

(** C1. Detail lookup: when exactly one stored Post (Tag) answers to the
    slug up to letter case, a GET of the detail page renders the detail
    template with exactly that entity and leaves the store alone; when no
    stored entity answers to it, the outcome is the NotFound response. *)
Theorem detail_lookup (request : HttpRequest) (s : string) (db : DB) :
  method request = GET ->
  (forall p : Post, sole_match s db p ->
     get_response (PostDetail request s) db =
     (TemplateResponse "blog/post_detail.html"
        (dict [("post", VEntity (EPost p));
               ("admin_object", VEntity (EPost p));
               ("detail", VBool true)]), db)) /\
  (no_match (E:=Post) s db ->
     get_response (PostDetail request s) db = (HttpResponseNotFound, db)) /\
  (forall t : Tag, sole_match s db t ->
     get_response (TagDetail request s) db =
     (TemplateResponse "blog/tag_detail.html"
        (dict [("tag", VEntity (ETag t));
               ("admin_object", VEntity (ETag t));
               ("detail", VBool true)]), db)) /\
  (no_match (E:=Tag) s db ->
     get_response (TagDetail request s) db = (HttpResponseNotFound, db)).
Proof.
  intros Hm. unfold get_response, PostDetail, TagDetail, View_dispatch.
  rewrite Hm. simpl default. repeat split.
  - intros p Hp. by rewrite (detail_found _ _ _ _ _ Hp).
  - intros Hn. by rewrite (detail_missing _ _ _ _ Hn).
  - intros t Ht. by rewrite (detail_found _ _ _ _ _ Ht).
  - intros Hn. by rewrite (detail_missing _ _ _ _ Hn).
Qed.

Lemma detail_lookup_witness :
  get_response (PostDetail (Sample.request GET false ∅ ∅) "HELLO-World") Sample.db =
  (TemplateResponse "blog/post_detail.html"
     (dict [("post", VEntity (EPost Sample.hello));
            ("admin_object", VEntity (EPost Sample.hello));
            ("detail", VBool true)]), Sample.db) /\
  get_response (TagDetail (Sample.request GET false ∅ ∅) "HELLO-World") Sample.db =
  (HttpResponseNotFound, Sample.db).
Proof.
  destruct (detail_lookup (Sample.request GET false ∅ ∅) "HELLO-World" Sample.db eq_refl)
    as (Hp & _ & _ & Ht).
  split.
  - apply Hp. exists [], [Sample.second].
    repeat split; match_facts.
  - apply Ht. match_facts.
Defined.

(** ** Update and delete on a slug nothing answers to *)
Section Missing.
Context {E : Type} `{ModelForm E}.

Lemma update_post_missing (template : string) (request : HttpRequest)
    (s : string) (db : DB) :
  no_match s db ->
  ObjectUpdateMixin_post template request s db = (inl (DoesNotExist model_name), db).
Proof.
  intros Hs. unfold ObjectUpdateMixin_post, bind.
  by rewrite (objects_get_missing s db Hs).
Qed.

Lemma delete_post_missing (redirect_url : string) (request : HttpRequest)
    (s : string) (db : DB) :
  no_match s db ->
  ObjectDeleteMixin_post redirect_url request s db = (inl (DoesNotExist model_name), db).
Proof.
  intros Hs. unfold ObjectDeleteMixin_post, bind.
  by rewrite (objects_get_missing s db Hs).
Qed.

End Missing.

(** C2. On a slug no stored entity answers to, the update and the delete
    submission of an authenticated caller end in the unhandled
    [DoesNotExist] of [objects.get], which the request handler turns into a
    server error; the detail view of the same slug gives NotFound. *)
Theorem update_delete_missing_slug_server_error
    (PostForm : ModelForm Post) (TagForm : ModelForm Tag) :
  let request := Sample.request POST true ∅ ∅ in
  get_response (PostUpdate PostForm request "missing") Sample.db =
    (HttpResponseServerError (DoesNotExist "Post"), Sample.db) /\
  get_response (PostDelete request "missing") Sample.db =
    (HttpResponseServerError (DoesNotExist "Post"), Sample.db) /\
  get_response (TagUpdate TagForm request "missing") Sample.db =
    (HttpResponseServerError (DoesNotExist "Tag"), Sample.db) /\
  get_response (TagDelete request "missing") Sample.db =
    (HttpResponseServerError (DoesNotExist "Tag"), Sample.db) /\
  get_response (PostDetail (Sample.request GET true ∅ ∅) "missing") Sample.db =
    (HttpResponseNotFound, Sample.db).
Proof. repeat split. Qed.

(** ** The access gate *)

Lemma gate_rejects (request : HttpRequest) (operation : M HttpResponse) (db : DB) :
  user_is_authenticated request = false ->
  LoginRequiredMixin_dispatch raise_exception request operation db =
  (inl PermissionDenied, db).
Proof.
  intros Hu. unfold LoginRequiredMixin_dispatch, handle_no_permission.
  by rewrite Hu.
Qed.

Lemma gate_admits (request : HttpRequest) (operation : M HttpResponse) :
  user_is_authenticated request = true ->
  LoginRequiredMixin_dispatch raise_exception request operation = operation.
Proof.
  intros Hu. unfold LoginRequiredMixin_dispatch. by rewrite Hu.
Qed.

(** An authenticated POST reaches the operation behind the gate. *)
Lemma authenticated_post_runs_operation
    (PostForm : ModelForm Post) (TagForm : ModelForm Tag)
    (request : HttpRequest) (s : string) :
  user_is_authenticated request = true -> method request = POST ->
  PostCreate PostForm request = PostCreate_post PostForm request /\
  PostUpdate PostForm request s = PostUpdate_post PostForm request s /\
  PostDelete request s = PostDelete_post request s /\
  TagCreate TagForm request = TagCreate_post TagForm request /\
  TagUpdate TagForm request s = TagUpdate_post TagForm request s /\
  TagDelete request s = TagDelete_post request s.
Proof.
  intros Hu Hm.
  unfold PostCreate, PostUpdate, PostDelete, TagCreate, TagUpdate, TagDelete.
  rewrite !gate_admits by done. unfold View_dispatch. by rewrite Hm.
Qed.

(** C8. A request without an authenticated session to any of the create,
    update and delete views, whatever its method, slug and payload, gets the
    Forbidden response and leaves the store as it was; the gate answers
    without running the operation it wraps, whatever that operation is. *)
Theorem unauthenticated_write_forbidden
    (PostForm : ModelForm Post) (TagForm : ModelForm Tag)
    (request : HttpRequest) (s : string) (db : DB) :
  user_is_authenticated request = false ->
  (forall operation : M HttpResponse,
     LoginRequiredMixin_dispatch raise_exception request operation db =
     (inl PermissionDenied, db)) /\
  get_response (PostCreate PostForm request) db = (HttpResponseForbidden, db) /\
  get_response (PostUpdate PostForm request s) db = (HttpResponseForbidden, db) /\
  get_response (PostDelete request s) db = (HttpResponseForbidden, db) /\
  get_response (TagCreate TagForm request) db = (HttpResponseForbidden, db) /\
  get_response (TagUpdate TagForm request s) db = (HttpResponseForbidden, db) /\
  get_response (TagDelete request s) db = (HttpResponseForbidden, db).
Proof.
  intros Hu. split; [intros op; by apply gate_rejects|].
  unfold get_response, PostCreate, PostUpdate, PostDelete, TagCreate, TagUpdate, TagDelete.
  by rewrite !gate_rejects.
Qed.

Lemma unauthenticated_write_forbidden_witness :
  get_response
    (PostDelete (Sample.request POST false ∅ ∅) "second") Sample.db =
  (HttpResponseForbidden, Sample.db).
Proof.
  exact (proj1 (proj2 (proj2 (proj2
    (unauthenticated_write_forbidden PostForm_rules TagForm_rules
       (Sample.request POST false ∅ ∅) "second" Sample.db eq_refl))))).
Defined.

(** ** Saving and deleting rows *)

Lemma Post_laws : ModelLaws Post.
Proof. split; reflexivity. Qed.

Lemma Tag_laws : ModelLaws Tag.
Proof. split; reflexivity. Qed.

Section Rows.
Context {E : Type} `{Model E}.

Lemma has_pk_true (i : nat) (r : E) : has_pk i r = true <-> pk r = Some i.
Proof.
  unfold has_pk. destruct (pk r) as [j|]; [|by split].
  rewrite Nat.eqb_eq. split; congruence.
Qed.

Lemma has_pk_false (i : nat) (r : E) : has_pk i r = false <-> pk r <> Some i.
Proof.
  rewrite <- has_pk_true. destruct (has_pk i r); split; congruence.
Qed.

Lemma existsb_has_pk (i : nat) (obj : E) (l : list E) :
  In obj l -> pk obj = Some i -> existsb (has_pk i) l = true.
Proof.
  intros Hin Hpk. apply existsb_exists. exists obj. split; [done|].
  by apply has_pk_true.
Qed.

(** In a list with distinct keys, the rows around [obj] have other keys. *)
Lemma others_have_other_keys (i : nat) (obj : E) (before after : list E) :
  NoDup (List.map pk (before ++ obj :: after)) -> pk obj = Some i ->
  Forall (fun r => has_pk i r = false) (before ++ after).
Proof.
  intros Hnd Hpk. apply NoDup_ListNoDup in Hnd.
  rewrite List.map_app in Hnd. simpl in Hnd.
  apply List.NoDup_remove_2 in Hnd. rewrite <- List.map_app in Hnd.
  apply List.Forall_forall. intros r Hr. apply has_pk_false.
  intros Hr'. apply Hnd. rewrite Hpk, <- Hr'. by apply List.in_map.
Qed.

Lemma map_skip (i : nat) (e : E) (l : list E) :
  Forall (fun r => has_pk i r = false) l ->
  List.map (fun r => if has_pk i r then e else r) l = l.
Proof.
  induction 1 as [|r l Hr _ IH]; simpl; [done|]. by rewrite Hr, IH.
Qed.

Lemma filter_keep (i : nat) (l : list E) :
  Forall (fun r => has_pk i r = false) l ->
  List.filter (fun r => negb (has_pk i r)) l = l.
Proof.
  induction 1 as [|r l Hr _ IH]; simpl; [done|]. by rewrite Hr, IH.
Qed.

(** Overwriting by key replaces [obj] where it stands. *)
Lemma overwrite_in_place (i : nat) (obj e : E) (before after : list E) :
  NoDup (List.map pk (before ++ obj :: after)) -> pk obj = Some i ->
  List.map (fun r => if has_pk i r then e else r) (before ++ obj :: after)
  = before ++ e :: after.
Proof.
  intros Hnd Hpk.
  pose proof (others_have_other_keys i obj before after Hnd Hpk) as Ho.
  apply Forall_app in Ho as [Hb Ha].
  rewrite List.map_app. simpl.
  rewrite (map_skip i e before Hb), (map_skip i e after Ha).
  by rewrite (proj2 (has_pk_true i obj) Hpk).
Qed.

(** Deleting by key removes [obj] and nothing else. *)
Lemma delete_in_place (i : nat) (obj : E) (before after : list E) :
  NoDup (List.map pk (before ++ obj :: after)) -> pk obj = Some i ->
  List.filter (fun r => negb (has_pk i r)) (before ++ obj :: after)
  = before ++ after.
Proof.
  intros Hnd Hpk.
  pose proof (others_have_other_keys i obj before after Hnd Hpk) as Ho.
  apply Forall_app in Ho as [Hb Ha].
  rewrite List.filter_app. simpl.
  rewrite (filter_keep i before Hb), (filter_keep i after Ha).
  by rewrite (proj2 (has_pk_true i obj) Hpk).
Qed.

Lemma stored_has_key (t : Table E) (obj : E) :
  table_wf t -> In obj (rows t) -> exists i, pk obj = Some i /\ (i < next_pk t)%nat.
Proof.
  intros [_ Hk] Hin. rewrite List.Forall_forall in Hk. by apply Hk.
Qed.

Lemma Model_save_insert (e : E) (db : DB) :
  pk e = None ->
  Model_save e db =
  (inr (set_pk (next_pk (table db)) e),
   set_table {| rows := objects db ++ [set_pk (next_pk (table db)) e];
                next_pk := S (next_pk (table db)) |} db).
Proof. intros Hpk. unfold Model_save, bind, get_db, put_db, ret. by rewrite Hpk. Qed.

Lemma Model_save_update (e obj : E) (i : nat) (db : DB) :
  pk e = Some i -> In obj (objects db) -> pk obj = Some i ->
  Model_save e db =
  (inr e,
   set_table {| rows := List.map (fun r => if has_pk i r then e else r) (objects db);
                next_pk := next_pk (table db) |} db).
Proof.
  intros Hpk Hin Hobj. unfold Model_save, bind, get_db, put_db, ret.
  rewrite Hpk. fold (objects db). by rewrite (existsb_has_pk i obj _ Hin Hobj).
Qed.

Lemma Model_delete_run (obj : E) (i : nat) (db : DB) :
  pk obj = Some i ->
  Model_delete obj db =
  (inr tt,
   unlink i (set_table {| rows := List.filter (fun r => negb (has_pk i r)) (objects db);
                          next_pk := next_pk (table db) |} db)).
Proof. intros Hpk. unfold Model_delete. by rewrite Hpk. Qed.

End Rows.

(** ** Create, update and delete submissions *)
Section Submit.
Context {E : Type} `{ModelForm E} {Laws : ModelLaws E}.

Lemma is_valid_bound (d : QueryDict) (inst : option E) (db : DB)
    (errs : ErrorDict) (inst' : E) (m2m : list nat) :
  clean db (default new inst) d = (errs, inst', m2m) ->
  is_valid (model_form (Some d) inst) db =
  (inr (bool_decide (errs = ∅),
        {| form_data := Some d; form_instance := inst';
           form_errors := Some errs; form_m2m := m2m |}), db).
Proof.
  intros Hc. unfold is_valid, errors, full_clean, model_form, bind, get_db, ret.
  simpl. by rewrite Hc.
Qed.

Lemma create_valid (template : string) (request : HttpRequest) (db : DB)
    (inst : E) (m2m : list nat) :
  clean db new (POST_data request) = (∅, inst, m2m) ->
  let key := next_pk (table db) in
  ObjectCreateMixin_post template request db =
  (inr (HttpResponseRedirect (get_absolute_url (set_pk key inst))),
   set_m2m key m2m
     (set_table {| rows := objects db ++ [set_pk key inst]; next_pk := S key |} db)).
Proof.
  intros Hc key. unfold ObjectCreateMixin_post, bind at 1.
  rewrite (is_valid_bound _ None db ∅ inst m2m Hc).
  rewrite bool_decide_eq_true_2 by done.
  assert (pk inst = None) as Hpk.
  { pose proof (clean_pk db new (POST_data request)) as Hk.
    rewrite Hc in Hk. simpl in Hk. by rewrite Hk, pk_new. }
  unfold save, errors, bind, redirect_to_object, ret.
  cbn [form_errors form_instance form_m2m].
  rewrite bool_decide_eq_true_2 by done.
  rewrite (Model_save_insert inst db Hpk). fold key.
  by rewrite pk_set_pk.
Qed.

Lemma create_invalid (template : string) (request : HttpRequest) (db : DB)
    (errs : ErrorDict) (inst : E) (m2m : list nat) :
  clean db new (POST_data request) = (errs, inst, m2m) -> errs <> ∅ ->
  ObjectCreateMixin_post template request db =
  (inr (TemplateResponse template
          (dict [("form",
                  form_value {| form_data := Some (POST_data request);
                                form_instance := inst;
                                form_errors := Some errs; form_m2m := m2m |})])), db).
Proof.
  intros Hc Hne. unfold ObjectCreateMixin_post, bind at 1.
  rewrite (is_valid_bound _ None db errs inst m2m Hc).
  by rewrite bool_decide_eq_false_2.
Qed.

Lemma update_valid (template : string) (request : HttpRequest) (s : string)
    (db : DB) (obj : E) (i : nat) (inst : E) (m2m : list nat) :
  sole_match s db obj -> pk obj = Some i ->
  clean db obj (POST_data request) = (∅, inst, m2m) ->
  ObjectUpdateMixin_post template request s db =
  (inr (HttpResponseRedirect (get_absolute_url inst)),
   set_m2m i m2m
     (set_table {| rows := List.map (fun r => if has_pk i r then inst else r) (objects db);
                   next_pk := next_pk (table db) |} db)).
Proof.
  intros Hs Hobj Hc. unfold ObjectUpdateMixin_post, bind at 1.
  rewrite (objects_get_found s db obj Hs). unfold bind at 1.
  rewrite (is_valid_bound _ (Some obj) db ∅ inst m2m Hc).
  rewrite bool_decide_eq_true_2 by done.
  assert (pk inst = Some i) as Hpk.
  { pose proof (clean_pk db obj (POST_data request)) as Hk.
    rewrite Hc in Hk. simpl in Hk. by rewrite Hk. }
  unfold save, errors, bind, redirect_to_object, ret.
  cbn [form_errors form_instance form_m2m].
  rewrite bool_decide_eq_true_2 by done.
  rewrite (Model_save_update inst obj i db Hpk (sole_match_In s db obj Hs) Hobj).
  by rewrite Hpk.
Qed.

Lemma update_invalid (template : string) (request : HttpRequest) (s : string)
    (db : DB) (obj : E) (errs : ErrorDict) (inst : E) (m2m : list nat) :
  sole_match s db obj ->
  clean db obj (POST_data request) = (errs, inst, m2m) -> errs <> ∅ ->
  ObjectUpdateMixin_post template request s db =
  (inr (TemplateResponse template
          (dict [("form",
                  form_value {| form_data := Some (POST_data request);
                                form_instance := inst;
                                form_errors := Some errs; form_m2m := m2m |});
                 (model_key, object_value inst)])), db).
Proof.
  intros Hs Hc Hne. unfold ObjectUpdateMixin_post, bind at 1.
  rewrite (objects_get_found s db obj Hs). unfold bind at 1.
  rewrite (is_valid_bound _ (Some obj) db errs inst m2m Hc).
  by rewrite bool_decide_eq_false_2.
Qed.

Lemma delete_found (redirect_url : string) (request : HttpRequest) (s : string)
    (db : DB) (obj : E) (i : nat) :
  sole_match s db obj -> pk obj = Some i ->
  ObjectDeleteMixin_post redirect_url request s db =
  (inr (HttpResponseRedirect (reverse redirect_url None)),
   unlink i
     (set_table {| rows := List.filter (fun r => negb (has_pk i r)) (objects db);
                   next_pk := next_pk (table db) |} db)).
Proof.
  intros Hs Hobj. unfold ObjectDeleteMixin_post, bind at 1.
  rewrite (objects_get_found s db obj Hs). unfold bind.
  by rewrite (Model_delete_run obj i db Hobj).
Qed.

End Submit.

Section Stored.
Context {E : Type} `{Model E} {Laws : ModelLaws E}.

Lemma objects_after_write (i : nat) (m2m : list nat) (t : Table E) (db : DB) :
  objects (set_m2m i m2m (set_table t db)) = rows t.
Proof. unfold objects. by rewrite table_set_m2m, table_set_table. Qed.

Lemma objects_after_delete (i : nat) (t : Table E) (db : DB) :
  objects (unlink i (set_table t db)) = rows t.
Proof. unfold objects. by rewrite table_unlink, table_set_table. Qed.

Lemma sole_match_key (s : string) (db : DB) (obj : E) :
  table_wf (table db) -> sole_match s db obj ->
  exists i, pk obj = Some i /\ (i < next_pk (table db))%nat.
Proof.
  intros Hwf Hs. apply stored_has_key; [done|]. by apply (sole_match_In s).
Qed.

Lemma not_in_after_delete (i : nat) (obj : E) (l : list E) :
  pk obj = Some i -> ~ In obj (List.filter (fun r => negb (has_pk i r)) l).
Proof.
  intros Hpk Hin. apply List.filter_In in Hin as [_ Hin].
  by rewrite (proj2 (has_pk_true i obj) Hpk) in Hin.
Qed.

End Stored.

(** C3. A create submission whose fields clean without errors appends
    exactly one row, the cleaned instance under the next primary key, to the
    table of its kind, leaves the other table alone and redirects to the new
    entity's detail page; one whose fields have errors leaves the store as it
    was and renders the form again, bound to the submitted data and carrying
    the field errors. *)
Theorem create_submission (PostForm : ModelForm Post) (TagForm : ModelForm Tag)
    (request : HttpRequest) (db : DB) :
  (forall (errs : ErrorDict) (inst : Post) (m2m : list nat),
     @clean _ _ PostForm db new (POST_data request) = (errs, inst, m2m) ->
     (errs = ∅ ->
      exists db',
        PostCreate_post PostForm request db =
          (inr (HttpResponseRedirect (reverse "post_detail_url" (Some (post_slug inst)))),
           db') /\
        objects db' = objects db ++ [set_pk (next_pk (post_table db)) inst] /\
        length (objects (E:=Post) db') = S (length (objects (E:=Post) db)) /\
        tag_table db' = tag_table db) /\
     (errs <> ∅ ->
      PostCreate_post PostForm request db =
        (inr (TemplateResponse "blog/post_create_form.html"
                (dict [("form",
                        VForm {| form_data := Some (POST_data request);
                                 form_instance := EPost inst;
                                 form_errors := Some errs;
                                 form_m2m := m2m |})])), db))) /\
  (forall (errs : ErrorDict) (inst : Tag) (m2m : list nat),
     @clean _ _ TagForm db new (POST_data request) = (errs, inst, m2m) ->
     (errs = ∅ ->
      exists db',
        TagCreate_post TagForm request db =
          (inr (HttpResponseRedirect (reverse "tag_detail_url" (Some (tag_slug inst)))),
           db') /\
        objects db' = objects db ++ [set_pk (next_pk (tag_table db)) inst] /\
        length (objects (E:=Tag) db') = S (length (objects (E:=Tag) db)) /\
        post_table db' = post_table db) /\
     (errs <> ∅ ->
      TagCreate_post TagForm request db =
        (inr (TemplateResponse "blog/tag_create.html"
                (dict [("form",
                        VForm {| form_data := Some (POST_data request);
                                 form_instance := ETag inst;
                                 form_errors := Some errs;
                                 form_m2m := m2m |})])), db))).
Proof.
  split; intros errs inst m2m Hc; (split; [intros ->|intros Hne]).
  - eexists. split; [apply (create_valid (Laws:=Post_laws)), Hc|].
    repeat split. unfold objects. simpl. by rewrite length_app, Nat.add_1_r.
  - exact (create_invalid _ _ _ _ _ _ Hc Hne).
  - eexists. split; [apply (create_valid (Laws:=Tag_laws)), Hc|].
    repeat split. unfold objects. simpl. by rewrite length_app, Nat.add_1_r.
  - exact (create_invalid _ _ _ _ _ _ Hc Hne).
Qed.

Lemma create_submission_witness :
  (exists db',
     PostCreate_post PostForm_rules
       (Sample.request POST true ∅ SampleForms.new_post) Sample.db =
     (inr (HttpResponseRedirect (reverse "post_detail_url" (Some "third"))), db') /\
     length (objects (E:=Post) db') = 3) /\
  (exists errs inst,
     errs !! "slug" = Some ["Slug must be unique."] /\
     TagCreate_post TagForm_rules
       (Sample.request POST true ∅ SampleForms.bad_tag) Sample.db =
     (inr (TemplateResponse "blog/tag_create.html"
             (dict [("form",
                     VForm {| form_data := Some SampleForms.bad_tag;
                              form_instance := ETag inst;
                              form_errors := Some errs;
                              form_m2m := [] |})])), Sample.db)).
Proof.
  split.
  - destruct (create_submission PostForm_rules TagForm_rules
                (Sample.request POST true ∅ SampleForms.new_post) Sample.db)
      as [HP _].
    destruct (HP ∅
                {| post_id := None; post_title := "Third"; post_slug := "third";
                   post_body := "more text"; post_date_pub := 0 |}
                [1] ltac:(vm_compute; reflexivity)) as [Hvalid _].
    destruct (Hvalid eq_refl) as (db' & Hrun & _ & Hlen & _).
    exists db'. split; [exact Hrun | exact Hlen].
  - destruct (create_submission PostForm_rules TagForm_rules
                (Sample.request POST true ∅ SampleForms.bad_tag) Sample.db)
      as [_ HT].
    pose (errs := <["slug" := ["Slug must be unique."]]> ∅ : ErrorDict).
    pose (inst := {| tag_id := None; tag_name := "Daily news"; tag_slug := "" |}).
    assert (TagForm_clean Sample.db new SampleForms.bad_tag = (errs, inst, []))
      as Hc by (vm_compute; reflexivity).
    destruct (HT errs inst [] Hc) as [_ Hinvalid].
    exists errs, inst. split; [reflexivity|].
    apply Hinvalid. apply insert_non_empty.
Defined.

(** C4. An update submission with clean fields on the one stored entity the
    slug names overwrites that row where it stands: the row keeps its primary
    key, the rows before and after it are untouched, the table keeps its
    length and its key sequence, the other table is left alone, and the
    caller is redirected to the entity's detail page. *)
Theorem update_submission (PostForm : ModelForm Post) (TagForm : ModelForm Tag)
    (request : HttpRequest) (s : string) (db : DB) :
  db_wf db ->
  (forall (obj inst : Post) (m2m : list nat),
     sole_match s db obj ->
     @clean _ _ PostForm db obj (POST_data request) = (∅, inst, m2m) ->
     exists db',
       PostUpdate_post PostForm request s db =
         (inr (HttpResponseRedirect (reverse "post_detail_url" (Some (post_slug inst)))),
          db') /\
       post_id inst = post_id obj /\
       (forall before after,
          objects db = before ++ obj :: after ->
          objects db' = before ++ inst :: after) /\
       length (objects (E:=Post) db') = length (objects (E:=Post) db) /\
       next_pk (post_table db') = next_pk (post_table db) /\
       tag_table db' = tag_table db) /\
  (forall (obj inst : Tag) (m2m : list nat),
     sole_match s db obj ->
     @clean _ _ TagForm db obj (POST_data request) = (∅, inst, m2m) ->
     exists db',
       TagUpdate_post TagForm request s db =
         (inr (HttpResponseRedirect (reverse "tag_detail_url" (Some (tag_slug inst)))),
          db') /\
       tag_id inst = tag_id obj /\
       (forall before after,
          objects db = before ++ obj :: after ->
          objects db' = before ++ inst :: after) /\
       length (objects (E:=Tag) db') = length (objects (E:=Tag) db) /\
       next_pk (tag_table db') = next_pk (tag_table db) /\
       post_table db' = post_table db).
Proof.
  intros [Hposts Htags]. split; intros obj inst m2m Hs Hc.
  - destruct (sole_match_key s db obj Hposts Hs) as (i & Hi & _).
    eexists. split; [exact (update_valid _ _ _ _ obj i inst m2m Hs Hi Hc)|].
    pose proof (clean_pk db obj (POST_data request)) as Hk.
    rewrite Hc in Hk. simpl in Hk.
    repeat split; [exact Hk| |].
    + intros before after Hrows. rewrite (objects_after_write (Laws:=Post_laws)).
      simpl. rewrite Hrows. apply overwrite_in_place; [|done].
      destruct Hposts as [Hnd _]. unfold objects in Hrows. simpl in Hrows.
      by rewrite <- Hrows.
    + unfold objects. simpl. by rewrite length_map.
  - destruct (sole_match_key s db obj Htags Hs) as (i & Hi & _).
    eexists. split; [exact (update_valid _ _ _ _ obj i inst m2m Hs Hi Hc)|].
    pose proof (clean_pk db obj (POST_data request)) as Hk.
    rewrite Hc in Hk. simpl in Hk.
    repeat split; [exact Hk| |].
    + intros before after Hrows. rewrite (objects_after_write (Laws:=Tag_laws)).
      simpl. rewrite Hrows. apply overwrite_in_place; [|done].
      destruct Htags as [Hnd _]. unfold objects in Hrows. simpl in Hrows.
      by rewrite <- Hrows.
    + unfold objects. simpl. by rewrite length_map.
Qed.

(** C5. A delete submission on the one stored entity the slug names removes
    that row and no other: the rows before and after it stay in order, the
    table is one row shorter, the entity is gone from it, the other table is
    left alone, and the caller is redirected to the list page of the entity
    kind. *)
Theorem delete_submission (request : HttpRequest) (s : string) (db : DB) :
  db_wf db ->
  (forall obj : Post,
     sole_match s db obj ->
     exists db',
       PostDelete_post request s db =
         (inr (HttpResponseRedirect (reverse "posts_list_url" None)), db') /\
       (forall before after,
          objects db = before ++ obj :: after -> objects db' = before ++ after) /\
       S (length (objects (E:=Post) db')) = length (objects (E:=Post) db) /\
       ~ In obj (objects db') /\
       tag_table db' = tag_table db) /\
  (forall obj : Tag,
     sole_match s db obj ->
     exists db',
       TagDelete_post request s db =
         (inr (HttpResponseRedirect (reverse "tags_list_url" None)), db') /\
       (forall before after,
          objects db = before ++ obj :: after -> objects db' = before ++ after) /\
       S (length (objects (E:=Tag) db')) = length (objects (E:=Tag) db) /\
       ~ In obj (objects db') /\
       post_table db' = post_table db).
Proof.
  intros [Hposts Htags]. split; intros obj Hs.
  - destruct (sole_match_key s db obj Hposts Hs) as (i & Hi & _).
    assert (forall before after, objects db = before ++ obj :: after ->
              List.filter (fun r => negb (has_pk i r)) (objects db) = before ++ after)
      as Hrm.
    { intros before after Hrows. rewrite Hrows. apply delete_in_place; [|done].
      destruct Hposts as [Hnd _]. unfold objects in Hrows. simpl in Hrows.
      by rewrite <- Hrows. }
    eexists. split; [exact (delete_found _ _ _ _ obj i Hs Hi)|].
    rewrite (objects_after_delete (Laws:=Post_laws)). simpl.
    repeat split; [exact Hrm| |by apply not_in_after_delete].
    destruct Hs as (before & after & Hrows & _).
    rewrite (Hrm before after Hrows), Hrows, !length_app. simpl. lia.
  - destruct (sole_match_key s db obj Htags Hs) as (i & Hi & _).
    assert (forall before after, objects db = before ++ obj :: after ->
              List.filter (fun r => negb (has_pk i r)) (objects db) = before ++ after)
      as Hrm.
    { intros before after Hrows. rewrite Hrows. apply delete_in_place; [|done].
      destruct Htags as [Hnd _]. unfold objects in Hrows. simpl in Hrows.
      by rewrite <- Hrows. }
    eexists. split; [exact (delete_found _ _ _ _ obj i Hs Hi)|].
    rewrite (objects_after_delete (Laws:=Tag_laws)). simpl.
    repeat split; [exact Hrm| |by apply not_in_after_delete].
    destruct Hs as (before & after & Hrows & _).
    rewrite (Hrm before after Hrows), Hrows, !length_app. simpl. lia.
Qed.

(** Settles well-formedness of a concrete table. *)
Ltac wf_facts :=
  repeat first
    [ apply List.NoDup_nil
    | apply List.NoDup_cons; [simpl; intuition discriminate|]
    | apply List.Forall_nil
    | apply List.Forall_cons; [eexists; split; [reflexivity|simpl; lia]|]
    | split ].

Lemma Sample_db_wf : db_wf Sample.db.
Proof. split; (split; [apply NoDup_ListNoDup|]); simpl; wf_facts. Defined.

Lemma update_submission_witness :
  exists db',
    PostUpdate_post PostForm_rules
      (Sample.request POST true ∅ SampleEdits.retitle) "SECOND" Sample.db =
    (inr (HttpResponseRedirect (reverse "post_detail_url" (Some "second"))), db') /\
    objects db' = [Sample.hello; SampleEdits.second'].
Proof.
  destruct (update_submission PostForm_rules TagForm_rules
              (Sample.request POST true ∅ SampleEdits.retitle) "SECOND" Sample.db
              Sample_db_wf) as [HP _].
  assert (sole_match "SECOND" Sample.db Sample.second) as Hs.
  { exists [Sample.hello], []. repeat split; match_facts. }
  assert (PostForm_clean Sample.db Sample.second SampleEdits.retitle
          = (∅, SampleEdits.second', [])) as Hc by (vm_compute; reflexivity).
  destruct (HP Sample.second SampleEdits.second' [] Hs Hc)
    as (db' & Hrun & _ & Hrows & _).
  exists db'. split; [exact Hrun|].
  exact (Hrows [Sample.hello] [] eq_refl).
Defined.

Lemma delete_submission_witness :
  exists db',
    PostDelete_post (Sample.request POST true ∅ ∅) "Hello-World" Sample.db =
    (inr (HttpResponseRedirect (reverse "posts_list_url" None)), db') /\
    objects db' = [Sample.second].
Proof.
  destruct (delete_submission (Sample.request POST true ∅ ∅) "Hello-World" Sample.db
              Sample_db_wf) as [HP _].
  assert (sole_match "Hello-World" Sample.db Sample.hello) as Hs.
  { exists [], [Sample.second]. repeat split; match_facts. }
  destruct (HP Sample.hello Hs) as (db' & Hrun & Hrows & _).
  exists db'. split; [exact Hrun|].
  exact (Hrows [] [Sample.second] eq_refl).
Defined.

(** ** Pagination *)

Section Pages.
Context {A : Type}.
Implicit Types (p : Paginator A) (l : list A) (k n : Z).

Lemma num_pages_make l n :
  (0 < n)%Z ->
  num_pages (make l n) = ((Z.max 1 (Z.of_nat (length l)) + n - 1) / n)%Z.
Proof.
  intros Hn. unfold num_pages, make, count. simpl.
  rewrite andb_false_r. by rewrite Z.sub_0_r.
Qed.

Lemma num_pages_pos l n : (0 < n)%Z -> (1 <= num_pages (make l n))%Z.
Proof.
  intros Hn. rewrite num_pages_make by done.
  apply Z.div_le_lower_bound; lia.
Qed.

Lemma validate_in_range p k :
  (1 <= k <= num_pages p)%Z -> validate_number p (PInt k) = inr k.
Proof.
  intros [Hlo Hhi]. unfold validate_number. simpl.
  destruct (Z.ltb_spec k 1); [lia|].
  rewrite Z.gtb_ltb. destruct (Z.ltb_spec (num_pages p) k); [lia|done].
Qed.

Lemma page_in_range p k :
  (1 <= k <= num_pages p)%Z -> page p (PInt k) = inr (page_at p k).
Proof.
  intros Hk. unfold page. by rewrite (validate_in_range p k Hk).
Qed.

Lemma resolve_range p v :
  (1 <= num_pages p)%Z -> (1 <= resolve p v <= num_pages p)%Z.
Proof.
  intros Hp. unfold resolve. destruct (Paginator.int v) as [e|k]; [lia|].
  rewrite Z.gtb_ltb.
  destruct (Z.ltb_spec k 1), (Z.ltb_spec (num_pages p) k); simpl; lia.
Qed.

(** [get_page] never raises: it yields the page the parameter resolves to. *)
Lemma get_page_resolve p v :
  (1 <= num_pages p)%Z -> get_page p v = inr (page_at p (resolve p v)).
Proof.
  intros Hp. pose proof (resolve_range p v Hp) as Hr.
  unfold get_page, validate_number, resolve in *.
  destruct (Paginator.int v) as [e|k]; simpl.
  - by apply page_in_range.
  - rewrite Z.gtb_ltb in *.
    destruct (Z.ltb_spec k 1); simpl in *; [by apply page_in_range|].
    destruct (Z.ltb_spec (num_pages p) k); simpl in *.
    + destruct (Z.eqb_spec k 1); [lia|]. simpl. by apply page_in_range.
    + by apply page_in_range.
Qed.

Lemma next_page_number_ok p k :
  (1 <= k)%Z -> has_next (page_at p k) = true ->
  next_page_number (page_at p k) = inr (k + 1)%Z.
Proof.
  unfold has_next, next_page_number. simpl. intros Hk Hn.
  apply Z.ltb_lt in Hn. apply validate_in_range. lia.
Qed.

Lemma previous_page_number_ok p k :
  (k <= num_pages p)%Z -> has_previous (page_at p k) = true ->
  previous_page_number (page_at p k) = inr (k - 1)%Z.
Proof.
  unfold has_previous, previous_page_number. simpl. intros Hk Hn.
  rewrite Z.gtb_ltb in Hn. apply Z.ltb_lt in Hn. apply validate_in_range. lia.
Qed.

End Pages.

(** ** The list view *)

Lemma mentionsb_spec (q : string) (post : Post) :
  mentionsb q post = true <-> mentions q post.
Proof.
  unfold mentionsb, mentions. by rewrite orb_true_iff, !icontains_spec.
Qed.

Lemma listing_pages_pos (request : HttpRequest) (db : DB) :
  (1 <= num_pages (listing request db))%Z.
Proof. by apply num_pages_pos. Qed.

Lemma listed_page_range (request : HttpRequest) (db : DB) :
  (1 <= number (listed_page request db) <= num_pages (listing request db))%Z.
Proof. apply resolve_range, listing_pages_pos. Qed.

(** The view always renders the index template, with the page the
    parameter resolves to and the links around it, and reads the store
    only. *)
Lemma posts_list_run (request : HttpRequest) (db : DB) :
  posts_list request db = (inr (index_page (listed_page request db)), db).
Proof.
  pose proof (listed_page_range request db) as [Hlo Hhi].
  unfold posts_list. fold (search_term request) (page_param request).
  unfold bind at 1.
  assert ((if negb (String.eqb (search_term request) "")
           then objects_filter (fun p : Post =>
                  icontains (post_title p) (search_term request) ||
                  icontains (post_body p) (search_term request))
           else objects_all) db = (inr (queryset request db), db)) as ->.
  { unfold queryset. by destruct (negb (String.eqb (search_term request) "")). }
  fold (listing request db). unfold bind at 1, lift at 1.
  rewrite (get_page_resolve _ _ (listing_pages_pos request db)).
  fold (listed_page request db).
  unfold index_page, next_link, prev_link, render, bind, lift, ret.
  unfold listed_page in *. simpl in Hlo, Hhi.
  destruct (has_previous _) eqn:Hprev.
  - rewrite (previous_page_number_ok _ _ Hhi Hprev).
    destruct (has_next _) eqn:Hnext; [|done].
    by rewrite (next_page_number_ok _ _ Hlo Hnext).
  - destruct (has_next _) eqn:Hnext; [|done].
    by rewrite (next_page_number_ok _ _ Hlo Hnext).
Qed.

Section Cover.
Context {A : Type}.
Implicit Types (l : list A) (x : A).

Lemma In_take l x (n : nat) : In x (take n l) -> In x l.
Proof.
  intros Hin. rewrite <- (take_drop n l). apply in_or_app. by left.
Qed.

Lemma In_drop l x (n : nat) : In x (drop n l) -> In x l.
Proof.
  intros Hin. rewrite <- (take_drop n l). apply in_or_app. by right.
Qed.

(** A page holds the rows of its window, at most [per_page] of them. *)
Lemma page_window l (n k : Z) :
  (0 < n)%Z -> (1 <= k)%Z ->
  page_object_list (page_at (make l n) k)
  = take (Z.to_nat n) (drop (Z.to_nat ((k - 1) * n)) l).
Proof.
  intros Hn Hk. unfold page_at, slice, make, count. simpl.
  rewrite Z.add_0_r, Z.geb_leb.
  set (b := ((k - 1) * n)%Z). assert (0 <= b)%Z as Hb by (subst b; nia).
  destruct (Z.leb_spec (Z.of_nat (length l)) (b + n)) as [Hle|Hgt].
  - rewrite !take_ge; [done| |]; rewrite length_drop; lia.
  - f_equal. lia.
Qed.

Lemma page_within l (n k : Z) x :
  (0 < n)%Z -> (1 <= k)%Z ->
  In x (page_object_list (page_at (make l n) k)) -> In x l.
Proof.
  intros Hn Hk. rewrite page_window by done.
  intros Hin. by eapply In_drop, In_take.
Qed.

Lemma page_length l (n k : Z) :
  (0 < n)%Z -> (1 <= k)%Z ->
  Z.of_nat (length (page_object_list (page_at (make l n) k)))
  = Z.max 0 (Z.min n (Z.of_nat (length l) - (k - 1) * n)).
Proof.
  intros Hn Hk. rewrite page_window by done.
  rewrite length_take, length_drop.
  assert (0 <= (k - 1) * n)%Z by nia. lia.
Qed.

(** Every listed row is on one of the pages. *)
Lemma page_of_row l (n : Z) x :
  (0 < n)%Z -> In x l ->
  exists k, (1 <= k <= num_pages (make l n))%Z /\
            In x (page_object_list (page_at (make l n) k)).
Proof.
  intros Hn Hin. apply list_elem_of_In, list_elem_of_lookup in Hin as [i Hi].
  pose proof (lookup_lt_Some _ _ _ Hi) as Hlen.
  set (q := (Z.of_nat i / n)%Z).
  assert (0 <= q)%Z as Hq by (apply Z.div_pos; lia).
  assert (q * n <= Z.of_nat i < q * n + n)%Z as Hwin.
  { subst q. pose proof (Z.div_mod (Z.of_nat i) n ltac:(lia)) as Hdm.
    pose proof (Z.mod_pos_bound (Z.of_nat i) n Hn). nia. }
  exists (q + 1)%Z. split.
  - split; [lia|]. rewrite num_pages_make by done.
    apply Z.div_le_lower_bound; [done|]. nia.
  - rewrite page_window by lia.
    apply list_elem_of_In, list_elem_of_lookup.
    exists (i - Z.to_nat (q * n))%nat.
    replace (q + 1 - 1)%Z with q by lia.
    rewrite lookup_take_lt by lia.
    rewrite lookup_drop. rewrite <- Hi. f_equal. lia.
Qed.

(** The pages of a paginator list, between them, exactly its rows. *)
Lemma pages_cover l (n : Z) x :
  (0 < n)%Z ->
  In x l <->
  exists k pg, (1 <= k <= num_pages (make l n))%Z /\
    get_page (make l n) (PInt k) = inr pg /\ In x (page_object_list pg).
Proof.
  intros Hn. split.
  - intros Hin. destruct (page_of_row l n x Hn Hin) as (k & Hk & Hx).
    exists k, (page_at (make l n) k). split; [done|]. split; [|done].
    unfold get_page. rewrite (validate_in_range _ _ Hk). simpl.
    by apply page_in_range.
  - intros (k & pg & Hk & Hpg & Hx).
    unfold get_page in Hpg. rewrite (validate_in_range _ _ Hk) in Hpg.
    simpl in Hpg. rewrite (page_in_range _ _ Hk) in Hpg.
    injection Hpg as <-. apply (page_within l n k); [done|lia|done].
Qed.

End Cover.

Lemma shown_page_index (pg : Page Post) : shown_page (index_page pg) = Some pg.
Proof. vm_compute. reflexivity. Qed.

Lemma index_page_inj (pg pg' : Page Post) : index_page pg = index_page pg' -> pg = pg'.
Proof.
  intros Heq. apply (f_equal shown_page) in Heq.
  rewrite !shown_page_index in Heq. congruence.
Qed.

Lemma posts_list_response (request : HttpRequest) (db : DB) :
  get_response (posts_list request) db = (index_page (listed_page request db), db).
Proof. unfold get_response. by rewrite posts_list_run. Qed.

Lemma shown_is_listed (request : HttpRequest) (db : DB) (pg : Page Post) :
  get_response (posts_list request) db = (index_page pg, db) ->
  pg = listed_page request db.
Proof.
  intros Hrun. rewrite posts_list_response in Hrun.
  symmetry. apply index_page_inj. exact (f_equal fst Hrun).
Qed.

Lemma queryset_search (request : HttpRequest) (db : DB) (q : string) :
  QueryDict_get (GET_data request) "search" = Some q -> q <> "" ->
  queryset request db = List.filter (mentionsb q) (objects db).
Proof.
  intros Hq Hne. unfold queryset, search_term. rewrite Hq. simpl.
  by rewrite (proj2 (String.eqb_neq q "") Hne).
Qed.

Lemma queryset_all (request : HttpRequest) (db : DB) :
  search_term request = "" -> queryset request db = objects db.
Proof. intros Hq. unfold queryset. by rewrite Hq. Qed.

(** ** Page numbers in links read back as themselves *)
Section Digits.

Lemma digit_of_pretty (d : N) :
  (d < 10)%N -> digit_of (pretty_N_char d) = Some (Z.of_N d).
Proof.
  intros Hd.
  assert (d = 0 \/ d = 1 \/ d = 2 \/ d = 3 \/ d = 4 \/ d = 5 \/ d = 6 \/ d = 7
          \/ d = 8 \/ d = 9)%N as Hcases by lia.
  repeat (destruct Hcases as [-> | Hcases]; [reflexivity|]). by subst.
Qed.

Lemma int_digits_digit (acc : Z) (b : bool) (c : ascii) (d : Z) (s : string) :
  digit_of c = Some d ->
  int_digits acc b (String c s) = int_digits (10 * acc + d) true s.
Proof. intros Hc. simpl. by rewrite Hc. Qed.

(** Reading the digits of [x] appends them to what was read before. *)
Lemma int_digits_pretty (x : N) :
  (0 < x)%N ->
  exists m : Z, forall (acc : Z) (b : bool) (s : string),
    int_digits acc b (pretty_N_go x s) = int_digits (acc * m + Z.of_N x) true s.
Proof.
  induction (N.lt_wf_0 x) as [x _ IH]. intros Hx.
  pose proof (N.mod_upper_bound x 10 ltac:(lia)) as Hmod.
  pose proof (N.div_mod x 10 ltac:(lia)) as Hdm.
  destruct (decide (x / 10 = 0)%N) as [Hz|Hnz].
  - exists 10%Z. intros acc b s.
    rewrite pretty_N_go_step, Hz, pretty_N_go_0 by done.
    rewrite (int_digits_digit _ _ _ _ _ (digit_of_pretty _ Hmod)).
    f_equal. lia.
  - destruct (IH (x / 10)%N) as [m Hm]; [apply N.div_lt; lia|lia|].
    exists (10 * m)%Z. intros acc b s.
    rewrite pretty_N_go_step, Hm by done.
    rewrite (int_digits_digit _ _ _ _ _ (digit_of_pretty _ Hmod)).
    f_equal. lia.
Qed.

Lemma pretty_starts_with_digit (x : N) (s : string) :
  (0 < x)%N ->
  exists c rest d, pretty_N_go x s = String c rest /\ digit_of c = Some d.
Proof.
  revert s. induction (N.lt_wf_0 x) as [x _ IH]. intros s Hx.
  pose proof (N.mod_upper_bound x 10 ltac:(lia)) as Hmod.
  rewrite pretty_N_go_step by done.
  destruct (decide (x / 10 = 0)%N) as [Hz|Hnz].
  - rewrite Hz, pretty_N_go_0. eexists _, _, _. split; [done|].
    by apply digit_of_pretty.
  - apply IH; [apply N.div_lt; lia|by apply N.neq_0_lt_0].
Qed.

Lemma digit_is_ascii (c : ascii) (d : Z) :
  digit_of c = Some d -> (N_of_ascii c <? 128)%N = true.
Proof.
  intros Hc.
  destruct c as [[] [] [] [] [] [] [] []];
    first [ by vm_compute in Hc | reflexivity ].
Qed.

Lemma isascii_pretty_go (x : N) (s : string) :
  isascii s = true -> isascii (pretty_N_go x s) = true.
Proof.
  revert s. induction (N.lt_wf_0 x) as [x _ IH]. intros s Hs.
  destruct (decide (x = 0)%N) as [->|Hx]; [by rewrite pretty_N_go_0|].
  pose proof (N.mod_upper_bound x 10 ltac:(lia)) as Hmod.
  rewrite pretty_N_go_step by lia.
  apply IH; [apply N.div_lt; lia|].
  cbn [isascii]. by rewrite (digit_is_ascii _ _ (digit_of_pretty _ Hmod)), Hs.
Qed.

(** On an ASCII text [int] reads the characters as they are. *)
Lemma int_of_str_ascii (s : string) :
  isascii s = true -> int_of_str s = PyLong_FromString s.
Proof.
  intros Hs. unfold int_of_str, TransformDecimalAndSpaceToASCII. by rewrite Hs.
Qed.

Lemma PyLong_FromString_digit_start (c : ascii) (d : Z) (s : string) :
  digit_of c = Some d ->
  PyLong_FromString (String c s) = int_digits 0 false (String c s).
Proof.
  intros Hc.
  destruct c as [[] [] [] [] [] [] [] []];
    first [ by vm_compute in Hc | reflexivity ].
Qed.

Lemma int_of_str_pretty_go (x : N) :
  (0 < x)%N -> int_digits 0 false (pretty_N_go x "") = Some (Z.of_N x).
Proof.
  intros Hx. destruct (int_digits_pretty x Hx) as [m Hm]. by rewrite Hm.
Qed.

(** A printed integer parses back to itself. *)
Lemma int_of_str_of_Z (k : Z) : int_of_str (str_of_Z k) = Some k.
Proof.
  unfold str_of_Z, pretty, pretty_Z. destruct k as [|p|p]; [done| |].
  - unfold pretty, pretty_positive, pretty, pretty_N.
    rewrite decide_False by done.
    rewrite int_of_str_ascii by by apply isascii_pretty_go.
    destruct (pretty_starts_with_digit (N.pos p) "" ltac:(lia)) as (c & rest & d & Hs & Hc).
    rewrite Hs, (PyLong_FromString_digit_start c d rest Hc), <- Hs.
    by apply int_of_str_pretty_go.
  - unfold pretty, pretty_positive, pretty, pretty_N.
    rewrite decide_False by done.
    rewrite int_of_str_ascii
      by (change (isascii (pretty_N_go (N.pos p) "") = true); by apply isascii_pretty_go).
    change (PyLong_FromString ("-" +:+ pretty_N_go (N.pos p) ""))
      with (Z.opp <$> int_digits 0 false (pretty_N_go (N.pos p) "")).
    by rewrite int_of_str_pretty_go.
Qed.

(** Under a limit on integer string conversion [int] reads the numerals
    of at most that many digits, and reads them alike. *)
Lemma int_of_str_with_limit (max_str_digits : nat) (s : string) (k : Z) :
  int_of_str_with max_str_digits s = Some k <->
  int_of_str s = Some k /\
  (max_str_digits = 0 \/ digit_count s <= max_str_digits)%nat.
Proof.
  unfold int_of_str_with.
  destruct (Nat.ltb_spec 0 max_str_digits) as [Hpos|Hzero];
    destruct (Nat.ltb_spec max_str_digits (digit_count s)) as [Hmany|Hfew];
    cbn [andb]; split; try (intros [? ?]); try done;
    try (intros ?; split; [done|lia]).
  lia.
Qed.

Lemma int_of_str_within_limit (max_str_digits : nat) (s : string) :
  (digit_count s <= max_str_digits)%nat ->
  int_of_str_with max_str_digits s = int_of_str s.
Proof.
  intros Hfew. unfold int_of_str_with.
  destruct (Nat.ltb_spec max_str_digits (digit_count s)); [lia|].
  by rewrite andb_false_r.
Qed.

End Digits.

Lemma with_page_page (v : string) (request : HttpRequest) :
  QueryDict_get (GET_data (with_page v request)) "page" = Some v.
Proof. unfold QueryDict_get, with_page. simpl. by rewrite lookup_insert_eq. Qed.

Lemma with_page_search (v : string) (request : HttpRequest) :
  QueryDict_get (GET_data (with_page v request)) "search"
  = QueryDict_get (GET_data request) "search".
Proof. unfold QueryDict_get, with_page. simpl. by rewrite lookup_insert_ne. Qed.

Lemma with_page_queryset (v : string) (request : HttpRequest) (db : DB) :
  queryset (with_page v request) db = queryset request db.
Proof. unfold queryset, search_term. by rewrite with_page_search. Qed.

(** Asking for page [k] of the range shows page [k]. *)
Lemma with_page_number (k : Z) (request : HttpRequest) (db : DB) :
  (1 <= k <= num_pages (listing request db))%Z ->
  listed_page (with_page (str_of_Z k) request) db = page_at (listing request db) k.
Proof.
  intros [Hlo Hhi]. unfold listed_page, listing.
  rewrite with_page_queryset. fold (listing request db). f_equal.
  unfold resolve, page_param. rewrite with_page_page. simpl.
  rewrite int_of_str_of_Z, Z.gtb_ltb.
  destruct (Z.ltb_spec k 1); [lia|].
  destruct (Z.ltb_spec (num_pages (listing request db)) k); [lia|done].
Qed.

(** The posts the view shows over all page parameters are the posts it
    paginates. *)
Lemma shown_on_some_page (request : HttpRequest) (db : DB) (post : Post) :
  In post (queryset request db) <->
  exists v pg,
    get_response (posts_list (with_page v request)) db = (index_page pg, db) /\
    In post (page_object_list pg).
Proof.
  split.
  - intros Hin.
    destruct (page_of_row (queryset request db) 10 post ltac:(lia) Hin) as (k & Hk & Hx).
    exists (str_of_Z k), (page_at (listing request db) k). split; [|done].
    by rewrite posts_list_response, with_page_number.
  - intros (v & pg & Hrun & Hx).
    rewrite (shown_is_listed _ _ _ Hrun) in Hx.
    rewrite <- (with_page_queryset v request db).
    pose proof (listed_page_range (with_page v request) db) as [Hlo _].
    apply (page_within _ 10 (number (listed_page (with_page v request) db)));
      [lia|done|done].
Qed.

(** Following the next-page link of an unfiltered listing shows the next
    page of the same listing. *)
Lemma next_link_leads_on (request : HttpRequest) (db : DB) :
  search_term request = "" ->
  has_next (listed_page request db) = true ->
  next_link (listed_page request db)
    = "?page=" +:+ str_of_Z (number (listed_page request db) + 1) /\
  listed_page (follow_page_link (number (listed_page request db) + 1) request) db
    = page_at (listing request db) (number (listed_page request db) + 1).
Proof.
  intros Hq Hnext. unfold next_link. rewrite Hnext. split; [done|].
  pose proof (listed_page_range request db) as [Hlo Hhi].
  unfold has_next in Hnext. apply Z.ltb_lt in Hnext.
  change (paginator (listed_page request db)) with (listing request db) in Hnext.
  set (k := (number (listed_page request db) + 1)%Z) in *.
  assert (queryset (follow_page_link k request) db = queryset request db) as Hset.
  { unfold queryset. by rewrite Hq. }
  unfold listed_page at 1, listing. rewrite Hset. fold (listing request db). f_equal.
  unfold resolve, page_param, follow_page_link, QueryDict_get. simpl.
  rewrite lookup_singleton_eq. simpl.
  rewrite int_of_str_of_Z, Z.gtb_ltb.
  destruct (Z.ltb_spec k 1); [lia|].
  destruct (Z.ltb_spec (num_pages (listing request db)) k); [lia|done].
Qed.

(** The link carries no search term: what it leads to is a page of the
    unfiltered listing. *)
Lemma page_link_drops_search (k : Z) (request : HttpRequest) (db : DB) :
  queryset (follow_page_link k request) db = objects db.
Proof. reflexivity. Qed.

(** C6. With a non-empty search term the view paginates exactly the stored
    posts that mention the term in their title or body, letter case aside,
    in store order: a post is in the listing if and only if it is stored and
    mentions the term, the posts shown under this term over all page
    parameters are exactly these posts, and when no stored post mentions the
    term the listing and the page shown are empty. *)
Theorem search_lists_matching_posts (request : HttpRequest) (db : DB) (q : string) :
  QueryDict_get (GET_data request) "search" = Some q -> q <> "" ->
  exists pg,
    get_response (posts_list request) db = (index_page pg, db) /\
    object_list (paginator pg) = List.filter (mentionsb q) (objects db) /\
    (forall post,
       In post (object_list (paginator pg)) <->
       In post (objects db) /\ mentions q post) /\
    (forall post,
       In post (objects db) /\ mentions q post <->
       exists v pg',
         get_response (posts_list (with_page v request)) db = (index_page pg', db) /\
         In post (page_object_list pg')) /\
    ((forall post, In post (objects db) -> ~ mentions q post) ->
     object_list (paginator pg) = [] /\ page_object_list pg = []).
Proof.
  intros Hq Hne. exists (listed_page request db).
  split; [apply posts_list_response|].
  pose proof (queryset_search request db q Hq Hne) as Hset.
  assert (object_list (paginator (listed_page request db))
          = List.filter (mentionsb q) (objects db)) as Hobj by exact Hset.
  split; [exact Hobj|]. split; [|split].
  - intros post. rewrite Hobj, List.filter_In. by rewrite mentionsb_spec.
  - intros post. rewrite <- shown_on_some_page, Hset, List.filter_In.
    by rewrite mentionsb_spec.
  - intros Hnone.
    assert (List.filter (mentionsb q) (objects (E:=Post) db) = []) as Hempty.
    { destruct (List.filter _ _) as [|post rest] eqn:Hf; [done|].
      assert (In post (List.filter (mentionsb q) (objects db))) as Hin
        by (rewrite Hf; by left).
      apply List.filter_In in Hin as [Hin Hm].
      apply mentionsb_spec in Hm. by destruct (Hnone post Hin). }
    split; [by rewrite Hobj|].
    destruct (page_object_list (listed_page request db)) as [|post rest] eqn:Hp; [done|].
    assert (In post (queryset request db)) as Hin.
    { pose proof (listed_page_range request db) as [Hlo _].
      apply (page_within _ 10 (number (listed_page request db))); [lia|done|].
      unfold listed_page in *. simpl in *. fold (listing request db).
      rewrite Hp. by left. }
    rewrite Hset, Hempty in Hin. destruct Hin.
Qed.

(** C9. When the search parameter is absent or is the empty string the
    view paginates all stored posts, in store order. *)
Theorem list_without_search_is_unfiltered (request : HttpRequest) (db : DB) :
  QueryDict_get (GET_data request) "search" = None \/
  QueryDict_get (GET_data request) "search" = Some "" ->
  exists pg,
    get_response (posts_list request) db = (index_page pg, db) /\
    object_list (paginator pg) = objects db.
Proof.
  intros Hq. exists (listed_page request db).
  split; [apply posts_list_response|].
  apply queryset_all. unfold search_term. by destruct Hq as [-> | ->].
Qed.

Lemma listed_page_number (request : HttpRequest) (db : DB) :
  number (listed_page request db) = resolve (listing request db) (page_param request).
Proof. reflexivity. Qed.


(** What else the page parameter resolves to: an integer below 1 gives the
    last page, an integer within the range gives that page. *)
Lemma page_parameter_integer (request : HttpRequest) (db : DB) (v : string) (k : Z) :
  QueryDict_get (GET_data request) "page" = Some v -> int_of_str v = Some k ->
  number (listed_page request db) =
  if (k <? 1)%Z then num_pages (listing request db)
  else if (num_pages (listing request db) <? k)%Z then num_pages (listing request db)
  else k.
Proof.
  intros Hv Hk. rewrite listed_page_number. unfold resolve, page_param.
  rewrite Hv. simpl. rewrite Hk, Z.gtb_ltb.
  by destruct (k <? 1)%Z, (num_pages (listing request db) <? k)%Z.
Qed.

(** C7. With 25 stored posts and no search term the listing has page size
    10 and 3 pages; the page parameters 1 and 2 render a next-page link (to
    pages 2 and 3), the page parameter 3 renders none, and page 1 renders no
    previous-page link. *)
Theorem twenty_five_posts_three_pages (request : HttpRequest) (db : DB) :
  length (objects (E:=Post) db) = 25%nat ->
  search_term request = "" ->
  exists pg is_paginated next_url prev_url,
    get_response (posts_list request) db =
      (TemplateResponse "blog/index.html"
         (dict [("page_object", VPage pg);
                ("is_paginated", VBool is_paginated);
                ("next_url", VStr next_url);
                ("prev_url", VStr prev_url)]), db) /\
    per_page (paginator pg) = 10%Z /\
    num_pages (paginator pg) = 3%Z /\
    (QueryDict_get (GET_data request) "page" = Some "1" ->
     number pg = 1%Z /\ next_url = "?page=2" /\ prev_url = "" /\
     length (page_object_list pg) = 10%nat) /\
    (QueryDict_get (GET_data request) "page" = Some "2" ->
     number pg = 2%Z /\ next_url = "?page=3" /\
     length (page_object_list pg) = 10%nat) /\
    (QueryDict_get (GET_data request) "page" = Some "3" ->
     number pg = 3%Z /\ next_url = "" /\
     length (page_object_list pg) = 5%nat).
Proof.
  intros Hlen Hq.
  exists (listed_page request db), (has_other_pages (listed_page request db)),
         (next_link (listed_page request db)), (prev_link (listed_page request db)).
  split; [apply posts_list_response|]. split; [done|].
  assert (num_pages (listing request db) = 3%Z) as Hpages.
  { unfold listing. rewrite num_pages_make by lia.
    by rewrite (queryset_all request db Hq), Hlen. }
  split; [exact Hpages|].
  assert (forall k : Z, (1 <= k)%Z ->
            length (page_object_list (page_at (listing request db) k))
            = Z.to_nat (Z.max 0 (Z.min 10 (25 - (k - 1) * 10)))) as Hsize.
  { intros k Hk. apply Nat2Z.inj. unfold listing.
    rewrite page_length by lia.
    rewrite (queryset_all request db Hq), Hlen. lia. }
  assert (forall (v : string) (k : Z),
            QueryDict_get (GET_data request) "page" = Some v ->
            int_of_str v = Some k -> (1 <= k <= 3)%Z ->
            number (listed_page request db) = k /\
            next_link (listed_page request db)
              = (if (k <? 3)%Z then "?page=" +:+ str_of_Z (k + 1) else "") /\
            prev_link (listed_page request db)
              = (if (k >? 1)%Z then "?page=" +:+ str_of_Z (k - 1) else "") /\
            length (page_object_list (listed_page request db))
              = Z.to_nat (Z.max 0 (Z.min 10 (25 - (k - 1) * 10)))) as Hpage.
  { intros v k Hv Hk Hrange.
    pose proof (page_parameter_integer request db v k Hv Hk) as Hn.
    rewrite Hpages in Hn.
    destruct (Z.ltb_spec k 1); [lia|]. destruct (Z.ltb_spec 3 k); [lia|].
    unfold next_link, prev_link, has_next, has_previous.
    change (paginator (listed_page request db)) with (listing request db).
    rewrite Hpages, Hn. repeat split.
    unfold listed_page. rewrite <- listed_page_number, Hn. apply Hsize. lia. }
  split; [|split]; intros Hv.
  - destruct (Hpage "1" 1%Z Hv eq_refl ltac:(lia)) as (-> & -> & -> & ->). done.
  - destruct (Hpage "2" 2%Z Hv eq_refl ltac:(lia)) as (-> & -> & _ & ->). done.
  - destruct (Hpage "3" 3%Z Hv eq_refl ltac:(lia)) as (-> & -> & _ & ->). done.
Qed.

Lemma search_lists_matching_posts_witness :
  (exists pg,
     get_response (posts_list SampleListing.search_hello) Sample.db
       = (index_page pg, Sample.db) /\
     object_list (paginator pg) = [Sample.hello; Sample.second]) /\
  (exists pg,
     get_response (posts_list SampleListing.search_world) Sample.db
       = (index_page pg, Sample.db) /\
     object_list (paginator pg) = [Sample.hello]).
Proof.
  split.
  - destruct (search_lists_matching_posts
                SampleListing.search_hello Sample.db "HELLO"
                ltac:(vm_compute; reflexivity) ltac:(discriminate))
      as (pg & Hrun & Hobj & _).
    exists pg. split; [exact Hrun|]. rewrite Hobj. reflexivity.
  - destruct (search_lists_matching_posts
                SampleListing.search_world Sample.db "World"
                ltac:(vm_compute; reflexivity) ltac:(discriminate))
      as (pg & Hrun & Hobj & _).
    exists pg. split; [exact Hrun|]. rewrite Hobj. reflexivity.
Defined.

Lemma list_without_search_is_unfiltered_witness :
  exists pg,
    get_response (posts_list SampleListing.search_blank) Sample.db
      = (index_page pg, Sample.db) /\
    object_list (paginator pg) = [Sample.hello; Sample.second].
Proof.
  destruct (list_without_search_is_unfiltered
              SampleListing.search_blank Sample.db
              ltac:(right; vm_compute; reflexivity))
    as (pg & Hrun & Hobj).
  exists pg. split; [exact Hrun | exact Hobj].
Defined.


Lemma twenty_five_posts_three_pages_witness :
  exists pg is_paginated prev_url,
    get_response (posts_list SampleListing.page_2)
      SampleListing.db25 =
    (TemplateResponse "blog/index.html"
       (dict [("page_object", VPage pg);
              ("is_paginated", VBool is_paginated);
              ("next_url", VStr "?page=3");
              ("prev_url", VStr prev_url)]), SampleListing.db25) /\
    number pg = 2%Z.
Proof.
  destruct (twenty_five_posts_three_pages
              SampleListing.page_2 SampleListing.db25
              eq_refl ltac:(vm_compute; reflexivity))
    as (pg & ip & next_url & prev_url & Hrun & _ & _ & _ & Htwo & _).
  destruct (Htwo ltac:(vm_compute; reflexivity)) as (Hn & -> & _).
  exists pg, ip, prev_url. split; [exact Hrun | exact Hn].
Defined.

(** ** The store invariant

    Every request leaves primary keys present, below the sequence, and
    unique, starting from the empty store. *)
Section TableInvariant.
Context {E : Type} `{Model E}.
Implicit Types (t : Table E) (e : E) (i : nat).

Lemma keys_below_weaken (l : list E) (n m : nat) :
  (n <= m)%nat ->
  Forall (fun r => exists i, pk r = Some i /\ (i < n)%nat) l ->
  Forall (fun r => exists i, pk r = Some i /\ (i < m)%nat) l.
Proof.
  intros Hnm. apply List.Forall_impl. intros r (i & Hi & Hlt). exists i. split; [done|lia].
Qed.

Lemma append_wf t e i (n : nat) :
  table_wf t -> pk e = Some i -> (next_pk t <= n)%nat -> (i < n)%nat ->
  existsb (has_pk i) (rows t) = false ->
  table_wf {| rows := rows t ++ [e]; next_pk := n |}.
Proof.
  intros [Hnd Hk] He Hn Hi Hfresh. split; simpl.
  - apply NoDup_ListNoDup. rewrite List.map_app. simpl.
    apply NoDup_ListNoDup in Hnd.
    apply List.NoDup_app; [done|repeat constructor; by intros []|].
    intros k Hin [<-|[]]. apply List.in_map_iff in Hin as (r & Hr & Hin).
    assert (existsb (has_pk i) (rows t) = true) as Hex; [|congruence].
    apply existsb_exists. exists r. split; [done|]. apply has_pk_true. congruence.
  - apply Forall_app. split; [by apply (keys_below_weaken _ (next_pk t))|].
    repeat constructor. by exists i.
Qed.

Lemma fresh_key t : table_wf t -> existsb (has_pk (next_pk t)) (rows t) = false.
Proof.
  intros [_ Hk]. apply not_true_is_false. intros Hex.
  apply existsb_exists in Hex as (r & Hin & Hr). apply has_pk_true in Hr.
  rewrite List.Forall_forall in Hk. destruct (Hk r Hin) as (i & Hi & Hlt).
  assert (i = next_pk t) by congruence. lia.
Qed.

Lemma overwrite_keys e i (l : list E) :
  pk e = Some i ->
  List.map pk (List.map (fun r => if has_pk i r then e else r) l) = List.map pk l.
Proof.
  intros He. rewrite List.map_map. apply List.map_ext. intros r.
  destruct (has_pk i r) eqn:Hr; [|done]. apply has_pk_true in Hr. congruence.
Qed.

Lemma overwrite_wf t e i :
  table_wf t -> pk e = Some i -> existsb (has_pk i) (rows t) = true ->
  table_wf {| rows := List.map (fun r => if has_pk i r then e else r) (rows t);
              next_pk := next_pk t |}.
Proof.
  intros [Hnd Hk] He Hex. split; simpl.
  - by rewrite overwrite_keys.
  - apply existsb_exists in Hex as (r0 & Hin0 & Hr0). apply has_pk_true in Hr0.
    rewrite List.Forall_forall in Hk. destruct (Hk r0 Hin0) as (j & Hj & Hlt).
    apply List.Forall_forall. intros r Hin.
    apply List.in_map_iff in Hin as (r' & <- & Hin).
    destruct (has_pk i r'); [|by apply Hk].
    exists i. split; [done|]. assert (i = j) by congruence. lia.
Qed.

Lemma filter_keys_NoDup (f : E -> bool) (l : list E) :
  List.NoDup (List.map pk l) -> List.NoDup (List.map pk (List.filter f l)).
Proof.
  induction l as [|r l IH]; simpl; [done|].
  intros Hnd. inversion Hnd as [|k ks Hnotin Hrest]; subst.
  destruct (f r); simpl; [|by apply IH].
  constructor; [|by apply IH].
  intros Hin. apply Hnotin. apply List.in_map_iff in Hin as (r' & Hr' & Hin).
  apply List.filter_In in Hin as [Hin _]. apply List.in_map_iff. by exists r'.
Qed.

Lemma remove_wf t i :
  table_wf t ->
  table_wf {| rows := List.filter (fun r => negb (has_pk i r)) (rows t);
              next_pk := next_pk t |}.
Proof.
  intros [Hnd Hk]. split; simpl.
  - apply NoDup_ListNoDup in Hnd. by apply NoDup_ListNoDup, filter_keys_NoDup.
  - apply List.Forall_forall. intros r Hin.
    apply List.filter_In in Hin as [Hin _].
    rewrite List.Forall_forall in Hk. by apply Hk.
Qed.

Context {Laws : ModelLaws E}.

Lemma Model_save_wf e (db : DB) :
  table_wf (table db) -> table_wf (table (snd (Model_save e db))).
Proof.
  intros Hwf. unfold Model_save, bind, get_db, put_db, ret. cbn [fst snd].
  destruct (pk e) as [i|] eqn:He.
  - destruct (existsb (has_pk i) (rows (table db))) eqn:Hex; cbn [fst snd];
      rewrite table_set_table.
    + by apply overwrite_wf.
    + apply (append_wf _ _ i); [done|done|lia|lia|done].
  - cbn [fst snd]. rewrite table_set_table.
    apply (append_wf _ _ (next_pk (table db))); [done|apply pk_set_pk|lia|lia|].
    by apply fresh_key.
Qed.

Lemma Model_delete_wf e (db : DB) :
  table_wf (table db) -> table_wf (table (snd (Model_delete e db))).
Proof.
  intros Hwf. unfold Model_delete. destruct (pk e) as [i|]; [|done].
  unfold bind, get_db, put_db. cbn [fst snd].
  rewrite table_unlink, table_set_table. by apply remove_wf.
Qed.

End TableInvariant.

Lemma empty_db_wf : db_wf empty_db.
Proof. repeat split; constructor. Qed.

Section Keeps.
Context {A B : Type}.

Lemma keeps_ret (a : A) : keeps_wf (ret a).
Proof. by intros db Hwf. Qed.

Lemma keeps_raise (e : Exn) : keeps_wf (raise (A:=A) e).
Proof. by intros db Hwf. Qed.

Lemma keeps_lift (r : Result A) : keeps_wf (lift r).
Proof. by intros db Hwf. Qed.

Lemma keeps_bind (c : M A) (k : A -> M B) :
  keeps_wf c -> (forall a, keeps_wf (k a)) -> keeps_wf (Run.bind c k).
Proof.
  intros Hc Hk db Hwf. unfold Run.bind. specialize (Hc db Hwf).
  destruct (c db) as [[e|a] db']; [done|]. by apply Hk.
Qed.

End Keeps.

Lemma keeps_get_db : keeps_wf get_db.
Proof. by intros db Hwf. Qed.

Lemma keeps_try_except {A} (c : M A) (h : Exn -> M A) :
  keeps_wf c -> (forall e, keeps_wf (h e)) -> keeps_wf (try_except c h).
Proof.
  intros Hc Hh db Hwf. unfold try_except. specialize (Hc db Hwf).
  destruct (c db) as [[e|a] db']; [by apply Hh|done].
Qed.

(** Breaks a computation into its steps. *)
Ltac keeps :=
  repeat first
    [ apply keeps_ret | apply keeps_raise | apply keeps_lift | apply keeps_get_db
    | apply keeps_bind; [|intros ?]
    | apply keeps_try_except; [|intros ?]
    | match goal with
      | |- keeps_wf (match ?x with _ => _ end) => destruct x
      | |- keeps_wf (let (_, _) := ?x in _) => destruct x
      end ].

Section KeepsModel.
Context {E : Type} `{Model E}.

Lemma keeps_objects_get (s : string) : keeps_wf (objects_get s).
Proof. unfold objects_get, objects_filter. keeps. Qed.

Lemma keeps_get_object_or_404 (s : string) : keeps_wf (get_object_or_404 s).
Proof. unfold get_object_or_404. keeps. Qed.

Lemma keeps_objects_all : keeps_wf objects_all.
Proof. unfold objects_all. keeps. Qed.

Lemma keeps_detail (template : string) (request : HttpRequest) (s : string) :
  keeps_wf (ObjectDetailMixin_get template request s).
Proof. unfold ObjectDetailMixin_get, render. keeps. Qed.

End KeepsModel.

Lemma keeps_save_post (e : Post) : keeps_wf (Model_save e).
Proof.
  intros db [Hp Ht]. split; [by apply (Model_save_wf (Laws:=Post_laws))|].
  unfold Model_save, Run.bind, get_db, put_db, ret.
  destruct (pk e); [destruct (existsb _ _)|]; exact Ht.
Qed.

Lemma keeps_save_tag (e : Tag) : keeps_wf (Model_save e).
Proof.
  intros db [Hp Ht]. split; [|by apply (Model_save_wf (Laws:=Tag_laws))].
  unfold Model_save, Run.bind, get_db, put_db, ret.
  destruct (pk e); [destruct (existsb _ _)|]; exact Hp.
Qed.

Lemma keeps_delete_post (e : Post) : keeps_wf (Model_delete e).
Proof.
  intros db [Hp Ht]. split; [by apply (Model_delete_wf (Laws:=Post_laws))|].
  unfold Model_delete. destruct (pk e); exact Ht.
Qed.

Lemma keeps_delete_tag (e : Tag) : keeps_wf (Model_delete e).
Proof.
  intros db [Hp Ht]. split; [|by apply (Model_delete_wf (Laws:=Tag_laws))].
  unfold Model_delete. destruct (pk e); exact Hp.
Qed.

Lemma keeps_set_m2m_post (i : nat) (ts : list nat) :
  keeps_wf (db <- get_db ;; put_db (set_m2m (E:=Post) i ts db)).
Proof. by intros db Hwf. Qed.

Lemma keeps_set_m2m_tag (i : nat) (ts : list nat) :
  keeps_wf (db <- get_db ;; put_db (set_m2m (E:=Tag) i ts db)).
Proof. by intros db Hwf. Qed.

Section KeepsForms.
Context (PostForm : ModelForm Post) (TagForm : ModelForm Tag).

Lemma keeps_is_valid {E} `{ModelForm E} (f : ModelFormObj E) : keeps_wf (is_valid f).
Proof. unfold is_valid, errors, full_clean. keeps. Qed.

Ltac keeps_store :=
  repeat first
    [ apply keeps_save_post | apply keeps_save_tag
    | apply keeps_delete_post | apply keeps_delete_tag
    | apply keeps_set_m2m_post | apply keeps_set_m2m_tag
    | apply keeps_ret | apply keeps_raise | apply keeps_lift | apply keeps_get_db
    | apply keeps_bind; [|intros ?]
    | apply keeps_try_except; [|intros ?]
    | match goal with
      | |- keeps_wf (match ?x with _ => _ end) => destruct x
      | |- keeps_wf (let (_, _) := ?x in _) => destruct x
      end ].

Lemma keeps_form_save_post (f : ModelFormObj Post) : keeps_wf (save f).
Proof. unfold save, errors, full_clean. keeps_store. Qed.

Lemma keeps_form_save_tag (f : ModelFormObj Tag) : keeps_wf (save f).
Proof. unfold save, errors, full_clean. keeps_store. Qed.

Ltac keeps_view :=
  repeat first
    [ apply keeps_is_valid | apply keeps_form_save_post | apply keeps_form_save_tag
    | apply keeps_objects_get | apply keeps_get_object_or_404
    | apply keeps_delete_post | apply keeps_delete_tag
    | apply keeps_ret | apply keeps_raise | apply keeps_lift | apply keeps_get_db
    | apply keeps_bind; [|intros ?]
    | apply keeps_try_except; [|intros ?]
    | match goal with
      | |- keeps_wf (match ?x with _ => _ end) => destruct x
      | |- keeps_wf (let (_, _) := ?x in _) => destruct x
      end ].

(** Every view of the application preserves the store invariant. *)
Lemma views_keep_wf (request : HttpRequest) (s : string) :
  keeps_wf (posts_list request) /\ keeps_wf (tags_list request) /\
  keeps_wf (PostDetail request s) /\ keeps_wf (TagDetail request s) /\
  keeps_wf (PostCreate PostForm request) /\ keeps_wf (TagCreate TagForm request) /\
  keeps_wf (PostUpdate PostForm request s) /\ keeps_wf (TagUpdate TagForm request s) /\
  keeps_wf (PostDelete request s) /\ keeps_wf (TagDelete request s).
Proof.
  repeat apply conj.
  - intros db Hwf. by rewrite posts_list_run.
  - by intros db Hwf.
  - unfold PostDetail, View_dispatch, http_method_not_allowed.
    destruct (method request); simpl; keeps_view.
  - unfold TagDetail, View_dispatch, http_method_not_allowed.
    destruct (method request); simpl; keeps_view.
  - unfold PostCreate, LoginRequiredMixin_dispatch, handle_no_permission,
      View_dispatch, http_method_not_allowed, PostCreate_post,
      ObjectCreateMixin_get, ObjectCreateMixin_post, render, redirect_to_object.
    destruct (user_is_authenticated request), (method request); simpl; keeps_view.
  - unfold TagCreate, LoginRequiredMixin_dispatch, handle_no_permission,
      View_dispatch, http_method_not_allowed, TagCreate_post,
      ObjectCreateMixin_get, ObjectCreateMixin_post, render, redirect_to_object.
    destruct (user_is_authenticated request), (method request); simpl; keeps_view.
  - unfold PostUpdate, LoginRequiredMixin_dispatch, handle_no_permission,
      View_dispatch, http_method_not_allowed, PostUpdate_post,
      ObjectUpdateMixin_get, ObjectUpdateMixin_post, render, redirect_to_object.
    destruct (user_is_authenticated request), (method request); simpl; keeps_view.
  - unfold TagUpdate, LoginRequiredMixin_dispatch, handle_no_permission,
      View_dispatch, http_method_not_allowed, TagUpdate_post,
      ObjectUpdateMixin_get, ObjectUpdateMixin_post, render, redirect_to_object.
    destruct (user_is_authenticated request), (method request); simpl; keeps_view.
  - unfold PostDelete, LoginRequiredMixin_dispatch, handle_no_permission,
      View_dispatch, http_method_not_allowed, PostDelete_post,
      ObjectDeleteMixin_get, ObjectDeleteMixin_post, render, redirect.
    destruct (user_is_authenticated request), (method request); simpl; keeps_view.
  - unfold TagDelete, LoginRequiredMixin_dispatch, handle_no_permission,
      View_dispatch, http_method_not_allowed, TagDelete_post,
      ObjectDeleteMixin_get, ObjectDeleteMixin_post, render, redirect.
    destruct (user_is_authenticated request), (method request); simpl; keeps_view.
Qed.

End KeepsForms.

(** * Further properties *)

(** ** Slugs that several rows, or none, answer to *)
Section Ambiguous.
Context {E : Type} `{Model E}.

Lemma filter_sublist_app (f : E -> bool) (l1 l2 : list E) (a : E) :
  f a = true ->
  exists pre suf, List.filter f (l1 ++ a :: l2) = pre ++ a :: suf.
Proof.
  intros Ha. exists (List.filter f l1), (List.filter f l2).
  rewrite List.filter_app. simpl. by rewrite Ha.
Qed.

Lemma filter_ambiguous (s : string) (db : DB) :
  ambiguous s db ->
  exists x y rest,
    List.filter (fun r => iexact (slug r) s) (objects db) = x :: y :: rest.
Proof.
  intros (l1 & a & l2 & b & l3 & Hrows & Ha & Hb).
  apply iexact_spec in Ha, Hb. rewrite Hrows, List.filter_app. simpl. rewrite Ha.
  destruct (filter_sublist_app (fun r => iexact (slug r) s) l2 l3 b Hb)
    as (pre & suf & ->).
  destruct (List.filter _ l1) as [|x [|y rest]]; simpl.
  - destruct pre as [|y pre]; simpl; eauto.
  - eauto.
  - eauto.
Qed.

Lemma objects_get_ambiguous (s : string) (db : DB) :
  ambiguous s db ->
  objects_get s db = (inl (MultipleObjectsReturned model_name), db).
Proof.
  intros Hs. destruct (filter_ambiguous s db Hs) as (x & y & rest & Hf).
  unfold objects_get, objects_filter, Run.bind, get_db, ret. by rewrite Hf.
Qed.

Lemma get_object_or_404_ambiguous (s : string) (db : DB) :
  ambiguous s db ->
  get_object_or_404 s db = (inl (MultipleObjectsReturned model_name), db).
Proof.
  intros Hs. unfold get_object_or_404, try_except.
  by rewrite (objects_get_ambiguous s db Hs).
Qed.

(** Whatever the lookup raises, every handler that starts with it raises
    too and leaves the store alone. *)
Lemma handlers_fail_with_lookup (s : string) (db : DB) (e : Exn)
    (template redirect_url : string) (request : HttpRequest) :
  objects_get s db = (inl e, db) ->
  ObjectDeleteMixin_get template request s db = (inl e, db) /\
  ObjectDeleteMixin_post redirect_url request s db = (inl e, db).
Proof.
  intros Hget. unfold ObjectDeleteMixin_get, ObjectDeleteMixin_post, Run.bind.
  by rewrite Hget.
Qed.

Lemma form_handlers_fail_with_lookup `{!ModelForm E} (s : string) (db : DB) (e : Exn)
    (template : string) (request : HttpRequest) :
  objects_get s db = (inl e, db) ->
  ObjectUpdateMixin_get template request s db = (inl e, db) /\
  ObjectUpdateMixin_post template request s db = (inl e, db).
Proof.
  intros Hget. unfold ObjectUpdateMixin_get, ObjectUpdateMixin_post, Run.bind.
  by rewrite Hget.
Qed.

End Ambiguous.

(** Opens an authenticated GET or POST to a gated view up to its handler. *)
Ltac enter_view Hu Hm :=
  unfold get_response, PostCreate, PostUpdate, PostDelete, TagCreate, TagUpdate,
    TagDelete, PostDetail, TagDetail, PostCreate_post, PostUpdate_post,
    PostDelete_post, TagCreate_post, TagUpdate_post, TagDelete_post;
  rewrite ?(gate_admits _ _ Hu); unfold View_dispatch; rewrite Hm; simpl default.

(** X1. When more than one stored entity answers to the slug, the detail,
    update and delete views all end in [MultipleObjectsReturned], a server
    error, and change nothing: in particular nothing is deleted. *)
Theorem ambiguous_slug_is_a_server_error
    (PostForm : ModelForm Post) (TagForm : ModelForm Tag)
    (request : HttpRequest) (s : string) (db : DB) :
  user_is_authenticated request = true ->
  method request = GET \/ method request = POST ->
  (ambiguous (E:=Post) s db ->
   (method request = GET ->
    get_response (PostDetail request s) db =
    (HttpResponseServerError (MultipleObjectsReturned "Post"), db)) /\
   get_response (PostUpdate PostForm request s) db =
   (HttpResponseServerError (MultipleObjectsReturned "Post"), db) /\
   get_response (PostDelete request s) db =
   (HttpResponseServerError (MultipleObjectsReturned "Post"), db)) /\
  (ambiguous (E:=Tag) s db ->
   (method request = GET ->
    get_response (TagDetail request s) db =
    (HttpResponseServerError (MultipleObjectsReturned "Tag"), db)) /\
   get_response (TagUpdate TagForm request s) db =
   (HttpResponseServerError (MultipleObjectsReturned "Tag"), db) /\
   get_response (TagDelete request s) db =
   (HttpResponseServerError (MultipleObjectsReturned "Tag"), db)).
Proof.
  intros Hu Hm. split; intros Hs.
  - pose proof (objects_get_ambiguous s db Hs) as Hget.
    destruct (handlers_fail_with_lookup s db _ "blog/post_delete_form.html"
                "posts_list_url" request Hget) as [Hdg Hdp].
    destruct (form_handlers_fail_with_lookup s db _ "blog/post_update_form.html"
                request Hget) as [Hug Hup].
    split; [|split].
    + intros Hg. enter_view Hu Hg. unfold ObjectDetailMixin_get, Run.bind.
      by rewrite (get_object_or_404_ambiguous s db Hs).
    + destruct Hm as [Hm|Hm]; enter_view Hu Hm; by rewrite ?Hug, ?Hup.
    + destruct Hm as [Hm|Hm]; enter_view Hu Hm; by rewrite ?Hdg, ?Hdp.
  - pose proof (objects_get_ambiguous s db Hs) as Hget.
    destruct (handlers_fail_with_lookup s db _ "blog/tag_delete_form.html"
                "tags_list_url" request Hget) as [Hdg Hdp].
    destruct (form_handlers_fail_with_lookup s db _ "blog/tag_update_form.html"
                request Hget) as [Hug Hup].
    split; [|split].
    + intros Hg. enter_view Hu Hg. unfold ObjectDetailMixin_get, Run.bind.
      by rewrite (get_object_or_404_ambiguous s db Hs).
    + destruct Hm as [Hm|Hm]; enter_view Hu Hm; by rewrite ?Hug, ?Hup.
    + destruct Hm as [Hm|Hm]; enter_view Hu Hm; by rewrite ?Hdg, ?Hdp.
Qed.

Lemma ambiguous_slug_is_a_server_error_witness :
  get_response (PostDelete (Sample.request POST true ∅ ∅) "News") SampleTwins.db =
  (HttpResponseServerError (MultipleObjectsReturned "Post"), SampleTwins.db).
Proof.
  destruct (ambiguous_slug_is_a_server_error PostForm_rules TagForm_rules
              (Sample.request POST true ∅ ∅) "News" SampleTwins.db
              eq_refl (or_intror eq_refl)) as [HP _].
  apply HP.
  exists [], SampleTwins.upper, [], SampleTwins.lower, []. by repeat split.
Defined.

(** X2. For an authenticated caller, the update and the delete view of a slug
    no stored entity answers to end in the [DoesNotExist] of [objects.get], a
    server error, on GET as on POST, whatever the store and the submitted
    data, and change nothing. *)
Theorem missing_slug_is_a_server_error
    (PostForm : ModelForm Post) (TagForm : ModelForm Tag)
    (request : HttpRequest) (s : string) (db : DB) :
  user_is_authenticated request = true ->
  method request = GET \/ method request = POST ->
  (no_match (E:=Post) s db ->
   get_response (PostUpdate PostForm request s) db =
   (HttpResponseServerError (DoesNotExist "Post"), db) /\
   get_response (PostDelete request s) db =
   (HttpResponseServerError (DoesNotExist "Post"), db)) /\
  (no_match (E:=Tag) s db ->
   get_response (TagUpdate TagForm request s) db =
   (HttpResponseServerError (DoesNotExist "Tag"), db) /\
   get_response (TagDelete request s) db =
   (HttpResponseServerError (DoesNotExist "Tag"), db)).
Proof.
  intros Hu Hm. split; intros Hs.
  - pose proof (objects_get_missing s db Hs) as Hget.
    destruct (handlers_fail_with_lookup s db _ "blog/post_delete_form.html"
                "posts_list_url" request Hget) as [Hdg Hdp].
    destruct (form_handlers_fail_with_lookup s db _ "blog/post_update_form.html"
                request Hget) as [Hug Hup].
    split; destruct Hm as [Hm|Hm]; enter_view Hu Hm;
      by rewrite ?Hug, ?Hup, ?Hdg, ?Hdp.
  - pose proof (objects_get_missing s db Hs) as Hget.
    destruct (handlers_fail_with_lookup s db _ "blog/tag_delete_form.html"
                "tags_list_url" request Hget) as [Hdg Hdp].
    destruct (form_handlers_fail_with_lookup s db _ "blog/tag_update_form.html"
                request Hget) as [Hug Hup].
    split; destruct Hm as [Hm|Hm]; enter_view Hu Hm;
      by rewrite ?Hug, ?Hup, ?Hdg, ?Hdp.
Qed.

Lemma missing_slug_is_a_server_error_witness :
  get_response (TagUpdate TagForm_rules (Sample.request GET true ∅ ∅) "sports")
    Sample.db =
  (HttpResponseServerError (DoesNotExist "Tag"), Sample.db).
Proof.
  destruct (missing_slug_is_a_server_error PostForm_rules TagForm_rules
              (Sample.request GET true ∅ ∅) "sports" Sample.db
              eq_refl (or_introl eq_refl)) as [_ HT].
  apply HT. match_facts.
Defined.

(** ** The pages behind the forms *)
Section FormPages.
Context {E : Type} `{ModelForm E}.

Lemma update_get_found (template : string) (request : HttpRequest) (s : string)
    (db : DB) (obj : E) :
  sole_match s db obj ->
  ObjectUpdateMixin_get template request s db =
  (inr (TemplateResponse template
          (dict [("form", form_value (model_form None (Some obj)));
                 (model_key, object_value obj)])), db).
Proof.
  intros Hs. unfold ObjectUpdateMixin_get, Run.bind.
  by rewrite (objects_get_found s db obj Hs).
Qed.

Lemma delete_get_found (template : string) (request : HttpRequest) (s : string)
    (db : DB) (obj : E) :
  sole_match s db obj ->
  ObjectDeleteMixin_get template request s db =
  (inr (TemplateResponse template (dict [(model_key, object_value obj)])), db).
Proof.
  intros Hs. unfold ObjectDeleteMixin_get, Run.bind.
  by rewrite (objects_get_found s db obj Hs).
Qed.

End FormPages.

(** X3. For an authenticated caller, a GET of the create page renders the
    create template with an unbound form on a blank instance, whatever the
    store holds; a GET of the update page of the one entity the slug names
    renders the update template with an unbound form built on that entity
    (no submitted data, no errors) and the entity itself; a GET of the
    delete page renders the confirmation template with the entity.  None of
    them changes the store. *)
Theorem edit_pages_show_the_stored_entity
    (PostForm : ModelForm Post) (TagForm : ModelForm Tag)
    (request : HttpRequest) (s : string) (db : DB) :
  user_is_authenticated request = true -> method request = GET ->
  get_response (PostCreate PostForm request) db =
  (TemplateResponse "blog/post_create_form.html"
     (dict [("form", VForm {| form_data := None; form_instance := EPost new;
                              form_errors := None; form_m2m := [] |})]), db) /\
  get_response (TagCreate TagForm request) db =
  (TemplateResponse "blog/tag_create.html"
     (dict [("form", VForm {| form_data := None; form_instance := ETag new;
                              form_errors := None; form_m2m := [] |})]), db) /\
  (forall p : Post, sole_match s db p ->
   get_response (PostUpdate PostForm request s) db =
   (TemplateResponse "blog/post_update_form.html"
      (dict [("form", VForm {| form_data := None; form_instance := EPost p;
                               form_errors := None; form_m2m := [] |});
             ("post", VEntity (EPost p))]), db) /\
   get_response (PostDelete request s) db =
   (TemplateResponse "blog/post_delete_form.html"
      (dict [("post", VEntity (EPost p))]), db)) /\
  (forall t : Tag, sole_match s db t ->
   get_response (TagUpdate TagForm request s) db =
   (TemplateResponse "blog/tag_update_form.html"
      (dict [("form", VForm {| form_data := None; form_instance := ETag t;
                               form_errors := None; form_m2m := [] |});
             ("tag", VEntity (ETag t))]), db) /\
   get_response (TagDelete request s) db =
   (TemplateResponse "blog/tag_delete_form.html"
      (dict [("tag", VEntity (ETag t))]), db)).
Proof.
  intros Hu Hm.
  split; [by enter_view Hu Hm|]. split; [by enter_view Hu Hm|].
  split; intros obj Hs; split; enter_view Hu Hm.
  - by rewrite (update_get_found _ _ _ _ _ Hs).
  - by rewrite (delete_get_found _ _ _ _ _ Hs).
  - by rewrite (update_get_found _ _ _ _ _ Hs).
  - by rewrite (delete_get_found _ _ _ _ _ Hs).
Qed.

Lemma edit_pages_show_the_stored_entity_witness :
  get_response (PostDelete (Sample.request GET true ∅ ∅) "SECOND") Sample.db =
  (TemplateResponse "blog/post_delete_form.html"
     (dict [("post", VEntity (EPost Sample.second))]), Sample.db).
Proof.
  destruct (edit_pages_show_the_stored_entity PostForm_rules TagForm_rules
              (Sample.request GET true ∅ ∅) "SECOND" Sample.db eq_refl eq_refl)
    as (_ & _ & HP & _).
  apply HP. exists [Sample.hello], []. repeat split; match_facts.
Defined.

(** X4. An update submission whose fields have errors leaves the store as it
    was and renders the update form again, bound to the submitted data and
    carrying the errors; the entity handed to the template is the form's
    instance as cleaning left it, which still has the stored entity's
    primary key. *)
Theorem update_with_errors_changes_nothing
    (PostForm : ModelForm Post) (TagForm : ModelForm Tag)
    (request : HttpRequest) (s : string) (db : DB) :
  user_is_authenticated request = true -> method request = POST ->
  (forall (obj inst : Post) (errs : ErrorDict) (m2m : list nat),
     sole_match s db obj ->
     @clean _ _ PostForm db obj (POST_data request) = (errs, inst, m2m) ->
     errs <> ∅ ->
     get_response (PostUpdate PostForm request s) db =
     (TemplateResponse "blog/post_update_form.html"
        (dict [("form", VForm {| form_data := Some (POST_data request);
                                 form_instance := EPost inst;
                                 form_errors := Some errs; form_m2m := m2m |});
               ("post", VEntity (EPost inst))]), db) /\
     post_id inst = post_id obj) /\
  (forall (obj inst : Tag) (errs : ErrorDict) (m2m : list nat),
     sole_match s db obj ->
     @clean _ _ TagForm db obj (POST_data request) = (errs, inst, m2m) ->
     errs <> ∅ ->
     get_response (TagUpdate TagForm request s) db =
     (TemplateResponse "blog/tag_update_form.html"
        (dict [("form", VForm {| form_data := Some (POST_data request);
                                 form_instance := ETag inst;
                                 form_errors := Some errs; form_m2m := m2m |});
               ("tag", VEntity (ETag inst))]), db) /\
     tag_id inst = tag_id obj).
Proof.
  intros Hu Hm. split; intros obj inst errs m2m Hs Hc Hne.
  - split.
    + enter_view Hu Hm. by rewrite (update_invalid _ _ _ _ _ _ _ _ Hs Hc Hne).
    + pose proof (clean_pk db obj (POST_data request)) as Hk.
      rewrite Hc in Hk. exact Hk.
  - split.
    + enter_view Hu Hm. by rewrite (update_invalid _ _ _ _ _ _ _ _ Hs Hc Hne).
    + pose proof (clean_pk db obj (POST_data request)) as Hk.
      rewrite Hc in Hk. exact Hk.
Qed.

Lemma update_with_errors_changes_nothing_witness :
  get_response
    (PostUpdate PostForm_rules (Sample.request POST true ∅ SampleClash.data) "second")
    Sample.db =
  (TemplateResponse "blog/post_update_form.html"
     (dict [("form", VForm {| form_data := Some SampleClash.data;
                              form_instance := EPost SampleClash.shown;
                              form_errors := Some SampleClash.errs;
                              form_m2m := [] |});
            ("post", VEntity (EPost SampleClash.shown))]), Sample.db).
Proof.
  destruct (update_with_errors_changes_nothing PostForm_rules TagForm_rules
              (Sample.request POST true ∅ SampleClash.data) "second" Sample.db
              eq_refl eq_refl) as [HP _].
  assert (sole_match "second" Sample.db Sample.second) as Hs.
  { exists [Sample.hello], []. repeat split; match_facts. }
  assert (PostForm_clean Sample.db Sample.second SampleClash.data
          = (SampleClash.errs, SampleClash.shown, [])) as Hc
    by (vm_compute; reflexivity).
  destruct (HP Sample.second SampleClash.shown SampleClash.errs [] Hs Hc) as [Hrun _].
  - apply insert_non_empty.
  - exact Hrun.
Defined.

(** ** Create, update and delete, then look up *)
Section RoundTrips.
Context {E : Type} `{Model E}.

Lemma slug_matches_trans (s s' : string) (r : E) :
  lower s = lower s' -> slug_matches s r <-> slug_matches s' r.
Proof. unfold slug_matches. intros ->. done. Qed.

Lemma no_match_other_case (s s' : string) (l : list E) :
  lower s = lower s' ->
  Forall (fun r => ~ slug_matches s' r) l -> Forall (fun r => ~ slug_matches s r) l.
Proof.
  intros Hs. apply List.Forall_impl. intros r Hr Hm. apply Hr.
  by apply (slug_matches_trans s s').
Qed.

Lemma appended_is_sole_match (s : string) (db db' : DB) (e : E) :
  no_match (slug e) db -> lower s = lower (slug e) ->
  objects db' = objects db ++ [e] ->
  sole_match s db' e.
Proof.
  intros Hnone Hs Hrows. exists (objects db), []. split; [done|].
  split; [by unfold slug_matches|]. split; [|constructor].
  by apply (no_match_other_case s (slug e)).
Qed.

Lemma replaced_is_sole_match (db db' : DB) (obj e : E) (before after : list E) :
  objects db = before ++ obj :: after ->
  objects db' = before ++ e :: after ->
  Forall (fun r => ~ slug_matches (slug e) r) (before ++ after) ->
  sole_match (slug e) db' e.
Proof.
  intros Hrows Hrows' Hfree. apply Forall_app in Hfree as [Hb Ha].
  exists before, after. by repeat split.
Qed.

Lemma removed_is_no_match (s : string) (db db' : DB) (obj : E) (i : nat) :
  sole_match s db obj -> pk obj = Some i ->
  objects db' = List.filter (fun r => negb (has_pk i r)) (objects db) ->
  no_match s db'.
Proof.
  intros (before & after & Hrows & _ & Hb & Ha) Hpk Hrows'.
  unfold no_match. rewrite Hrows', Hrows, List.filter_app. simpl.
  rewrite (proj2 (has_pk_true i obj) Hpk). simpl.
  apply Forall_app. split; apply List.Forall_forall; intros r Hin;
    apply List.filter_In in Hin as [Hin _].
  - rewrite List.Forall_forall in Hb. by apply Hb.
  - rewrite List.Forall_forall in Ha. by apply Ha.
Qed.

End RoundTrips.

(** X5. Create, then look up: after a create submission with clean fields
    whose slug no stored entity answered to, a GET of the detail page under
    that slug, in any letter case, shows exactly the entity just created. *)
Theorem created_entity_is_found
    (PostForm : ModelForm Post) (TagForm : ModelForm Tag)
    (request request' : HttpRequest) (s : string) (db : DB) :
  user_is_authenticated request = true -> method request = POST ->
  method request' = GET ->
  (forall (inst : Post) (m2m : list nat),
     @clean _ _ PostForm db new (POST_data request) = (∅, inst, m2m) ->
     no_match (E:=Post) (post_slug inst) db ->
     lower s = lower (post_slug inst) ->
     let created := set_pk (next_pk (post_table db)) inst in
     let db' := snd (get_response (PostCreate PostForm request) db) in
     get_response (PostDetail request' s) db' =
     (TemplateResponse "blog/post_detail.html"
        (dict [("post", VEntity (EPost created));
               ("admin_object", VEntity (EPost created));
               ("detail", VBool true)]), db')) /\
  (forall (inst : Tag) (m2m : list nat),
     @clean _ _ TagForm db new (POST_data request) = (∅, inst, m2m) ->
     no_match (E:=Tag) (tag_slug inst) db ->
     lower s = lower (tag_slug inst) ->
     let created := set_pk (next_pk (tag_table db)) inst in
     let db' := snd (get_response (TagCreate TagForm request) db) in
     get_response (TagDetail request' s) db' =
     (TemplateResponse "blog/tag_detail.html"
        (dict [("tag", VEntity (ETag created));
               ("admin_object", VEntity (ETag created));
               ("detail", VBool true)]), db')).
Proof.
  intros Hu Hm Hg. split; intros inst m2m Hc Hnone Hs created db'.
  - assert (sole_match s db' created) as Hsole.
    { apply (appended_is_sole_match s db); [done|done|].
      subst db'. enter_view Hu Hm.
      by rewrite (create_valid (Laws:=Post_laws) _ _ _ _ _ Hc). }
    enter_view Hu Hg. by rewrite (detail_found _ _ _ _ _ Hsole).
  - assert (sole_match s db' created) as Hsole.
    { apply (appended_is_sole_match s db); [done|done|].
      subst db'. enter_view Hu Hm.
      by rewrite (create_valid (Laws:=Tag_laws) _ _ _ _ _ Hc). }
    enter_view Hu Hg. by rewrite (detail_found _ _ _ _ _ Hsole).
Qed.

(** X6. Delete, then look up: after a delete submission on the one entity
    the slug names, a GET of the detail page under that slug gives NotFound,
    and a second delete submission on it ends in [DoesNotExist], a server
    error, and changes nothing more. *)
Theorem deleted_entity_is_gone
    (request request' : HttpRequest) (s : string) (db : DB) :
  db_wf db ->
  user_is_authenticated request = true -> method request = POST ->
  method request' = GET ->
  (forall obj : Post, sole_match s db obj ->
     let db' := snd (get_response (PostDelete request s) db) in
     get_response (PostDetail request' s) db' = (HttpResponseNotFound, db') /\
     get_response (PostDelete request s) db' =
     (HttpResponseServerError (DoesNotExist "Post"), db')) /\
  (forall obj : Tag, sole_match s db obj ->
     let db' := snd (get_response (TagDelete request s) db) in
     get_response (TagDetail request' s) db' = (HttpResponseNotFound, db') /\
     get_response (TagDelete request s) db' =
     (HttpResponseServerError (DoesNotExist "Tag"), db')).
Proof.
  intros [Hposts Htags] Hu Hm Hg. split; intros obj Hs db'.
  - destruct (sole_match_key s db obj Hposts Hs) as (i & Hi & _).
    assert (no_match (E:=Post) s db') as Hnone.
    { apply (removed_is_no_match s db db' obj i Hs Hi).
      subst db'. enter_view Hu Hm. by rewrite (delete_found _ _ _ _ obj i Hs Hi). }
    split.
    + enter_view Hu Hg. by rewrite (detail_missing _ _ _ _ Hnone).
    + enter_view Hu Hm. by rewrite (delete_post_missing _ _ _ _ Hnone).
  - destruct (sole_match_key s db obj Htags Hs) as (i & Hi & _).
    assert (no_match (E:=Tag) s db') as Hnone.
    { apply (removed_is_no_match s db db' obj i Hs Hi).
      subst db'. enter_view Hu Hm. by rewrite (delete_found _ _ _ _ obj i Hs Hi). }
    split.
    + enter_view Hu Hg. by rewrite (detail_missing _ _ _ _ Hnone).
    + enter_view Hu Hm. by rewrite (delete_post_missing _ _ _ _ Hnone).
Qed.

Lemma created_entity_is_found_witness :
  let db' := snd (get_response
                    (PostCreate PostForm_rules
                       (Sample.request POST true ∅ SampleForms.new_post)) Sample.db) in
  get_response (PostDetail (Sample.request GET false ∅ ∅) "THIRD") db' =
  (TemplateResponse "blog/post_detail.html"
     (dict [("post", VEntity (EPost SampleRename.third));
            ("admin_object", VEntity (EPost SampleRename.third));
            ("detail", VBool true)]), db').
Proof.
  destruct (created_entity_is_found PostForm_rules TagForm_rules
              (Sample.request POST true ∅ SampleForms.new_post)
              (Sample.request GET false ∅ ∅) "THIRD" Sample.db
              eq_refl eq_refl eq_refl) as [HP _].
  assert (PostForm_clean Sample.db new SampleForms.new_post
          = (∅, {| post_id := None; post_title := "Third"; post_slug := "third";
                   post_body := "more text"; post_date_pub := 0 |}, [1])) as Hc
    by (vm_compute; reflexivity).
  apply (HP _ _ Hc); [match_facts | reflexivity].
Defined.

Lemma deleted_entity_is_gone_witness :
  let db' := snd (get_response
                    (PostDelete (Sample.request POST true ∅ ∅) "second") Sample.db) in
  get_response (PostDetail (Sample.request GET false ∅ ∅) "second") db' =
    (HttpResponseNotFound, db') /\
  get_response (PostDelete (Sample.request POST true ∅ ∅) "second") db' =
    (HttpResponseServerError (DoesNotExist "Post"), db').
Proof.
  destruct (deleted_entity_is_gone (Sample.request POST true ∅ ∅)
              (Sample.request GET false ∅ ∅) "second" Sample.db
              Sample_db_wf eq_refl eq_refl eq_refl) as [HP _].
  apply (HP Sample.second). exists [Sample.hello], []. repeat split; match_facts.
Defined.

(** X7. Update, then look up: after an update submission with clean fields
    whose new slug no other stored entity answers to, a GET of the detail
    page under the new slug shows the entity as updated; if the new slug
    differs from the old one beyond letter case, the old slug gives
    NotFound. *)
Theorem updated_entity_is_found
    (PostForm : ModelForm Post) (TagForm : ModelForm Tag)
    (request request' : HttpRequest) (s : string) (db : DB) :
  db_wf db ->
  user_is_authenticated request = true -> method request = POST ->
  method request' = GET ->
  (forall (obj inst : Post) (m2m : list nat),
     sole_match s db obj ->
     @clean _ _ PostForm db obj (POST_data request) = (∅, inst, m2m) ->
     (forall r : Post, In r (objects db) -> pk r <> pk obj ->
                       ~ slug_matches (post_slug inst) r) ->
     let db' := snd (get_response (PostUpdate PostForm request s) db) in
     get_response (PostDetail request' (post_slug inst)) db' =
     (TemplateResponse "blog/post_detail.html"
        (dict [("post", VEntity (EPost inst));
               ("admin_object", VEntity (EPost inst));
               ("detail", VBool true)]), db') /\
     (~ slug_matches s inst ->
      get_response (PostDetail request' s) db' = (HttpResponseNotFound, db'))) /\
  (forall (obj inst : Tag) (m2m : list nat),
     sole_match s db obj ->
     @clean _ _ TagForm db obj (POST_data request) = (∅, inst, m2m) ->
     (forall r : Tag, In r (objects db) -> pk r <> pk obj ->
                      ~ slug_matches (tag_slug inst) r) ->
     let db' := snd (get_response (TagUpdate TagForm request s) db) in
     get_response (TagDetail request' (tag_slug inst)) db' =
     (TemplateResponse "blog/tag_detail.html"
        (dict [("tag", VEntity (ETag inst));
               ("admin_object", VEntity (ETag inst));
               ("detail", VBool true)]), db') /\
     (~ slug_matches s inst ->
      get_response (TagDetail request' s) db' = (HttpResponseNotFound, db'))).
Proof.
  intros [Hposts Htags] Hu Hm Hg. split; intros obj inst m2m Hs Hc Hfree db'.
  - destruct (sole_match_key s db obj Hposts Hs) as (i & Hi & _).
    destruct Hs as (before & after & Hrows & Hobj & Hb & Ha).
    assert (sole_match s db obj) as Hs by (exists before, after; by repeat split).
    assert (NoDup (List.map pk (before ++ obj :: after))) as Hnd.
    { destruct Hposts as [Hnd _]. unfold objects in Hrows. simpl in Hrows.
      by rewrite <- Hrows. }
    assert (objects db' = before ++ inst :: after) as Hrows'.
    { subst db'. enter_view Hu Hm.
      rewrite (update_valid _ _ _ _ obj i inst m2m Hs Hi Hc).
      cbn [snd]. rewrite (objects_after_write (Laws:=Post_laws)). cbn [rows].
      rewrite Hrows. by apply overwrite_in_place. }
    pose proof (others_have_other_keys i obj before after Hnd Hi) as Hother.
    assert (Forall (fun r : Post => ~ slug_matches (post_slug inst) r) (before ++ after))
      as Hclear.
    { apply List.Forall_forall. intros r Hin. apply Hfree.
      - rewrite Hrows. apply in_app_or in Hin as [Hin|Hin]; apply in_or_app;
          [by left|right; by right].
      - rewrite List.Forall_forall in Hother. specialize (Hother r Hin).
        apply has_pk_false in Hother. congruence. }
    split.
    + pose proof (replaced_is_sole_match db db' obj inst before after Hrows Hrows' Hclear)
        as Hsole.
      enter_view Hu Hg. by rewrite (detail_found _ _ _ _ _ Hsole).
    + intros Hold.
      assert (no_match (E:=Post) s db') as Hnone.
      { unfold no_match. rewrite Hrows'. apply Forall_app. split; [done|].
        by constructor. }
      enter_view Hu Hg. by rewrite (detail_missing _ _ _ _ Hnone).
  - destruct (sole_match_key s db obj Htags Hs) as (i & Hi & _).
    destruct Hs as (before & after & Hrows & Hobj & Hb & Ha).
    assert (sole_match s db obj) as Hs by (exists before, after; by repeat split).
    assert (NoDup (List.map pk (before ++ obj :: after))) as Hnd.
    { destruct Htags as [Hnd _]. unfold objects in Hrows. simpl in Hrows.
      by rewrite <- Hrows. }
    assert (objects db' = before ++ inst :: after) as Hrows'.
    { subst db'. enter_view Hu Hm.
      rewrite (update_valid _ _ _ _ obj i inst m2m Hs Hi Hc).
      cbn [snd]. rewrite (objects_after_write (Laws:=Tag_laws)). cbn [rows].
      rewrite Hrows. by apply overwrite_in_place. }
    pose proof (others_have_other_keys i obj before after Hnd Hi) as Hother.
    assert (Forall (fun r : Tag => ~ slug_matches (tag_slug inst) r) (before ++ after))
      as Hclear.
    { apply List.Forall_forall. intros r Hin. apply Hfree.
      - rewrite Hrows. apply in_app_or in Hin as [Hin|Hin]; apply in_or_app;
          [by left|right; by right].
      - rewrite List.Forall_forall in Hother. specialize (Hother r Hin).
        apply has_pk_false in Hother. congruence. }
    split.
    + pose proof (replaced_is_sole_match db db' obj inst before after Hrows Hrows' Hclear)
        as Hsole.
      enter_view Hu Hg. by rewrite (detail_found _ _ _ _ _ Hsole).
    + intros Hold.
      assert (no_match (E:=Tag) s db') as Hnone.
      { unfold no_match. rewrite Hrows'. apply Forall_app. split; [done|].
        by constructor. }
      enter_view Hu Hg. by rewrite (detail_missing _ _ _ _ Hnone).
Qed.

Lemma updated_entity_is_found_witness :
  let db' := snd (get_response
                    (PostUpdate PostForm_rules
                       (Sample.request POST true ∅ SampleRename.data) "second")
                    Sample.db) in
  get_response (PostDetail (Sample.request GET false ∅ ∅) "renamed") db' =
    (TemplateResponse "blog/post_detail.html"
       (dict [("post", VEntity (EPost SampleRename.renamed));
              ("admin_object", VEntity (EPost SampleRename.renamed));
              ("detail", VBool true)]), db') /\
  get_response (PostDetail (Sample.request GET false ∅ ∅) "second") db' =
    (HttpResponseNotFound, db').
Proof.
  destruct (updated_entity_is_found PostForm_rules TagForm_rules
              (Sample.request POST true ∅ SampleRename.data)
              (Sample.request GET false ∅ ∅) "second" Sample.db
              Sample_db_wf eq_refl eq_refl eq_refl) as [HP _].
  assert (sole_match "second" Sample.db Sample.second) as Hs.
  { exists [Sample.hello], []. repeat split; match_facts. }
  assert (PostForm_clean Sample.db Sample.second SampleRename.data
          = (∅, SampleRename.renamed, [])) as Hc by (vm_compute; reflexivity).
  destruct (HP Sample.second SampleRename.renamed [] Hs Hc) as [Hnew Hold].
  - intros r [<-|[<-|[]]] Hpk; [discriminate|by destruct Hpk].
  - split; [exact Hnew|]. apply Hold. discriminate.
Defined.

(** ** What a sequence of requests can do to the store *)

Lemma serve_keeps_wf (PostForm : ModelForm Post) (TagForm : ModelForm Tag)
    (v : ViewCall) (request : HttpRequest) :
  keeps_wf (serve PostForm TagForm v request).
Proof.
  destruct v as [| |s| |s|s|s| |s|s]; simpl;
    try (pose proof (views_keep_wf PostForm TagForm request s) as Hv);
    try (pose proof (views_keep_wf PostForm TagForm request "") as Hv);
    tauto.
Qed.

Lemma snd_get_response (c : M HttpResponse) (db : DB) :
  snd (get_response c db) = snd (c db).
Proof.
  unfold get_response. destruct (c db) as [[e|r] db']; [|done]. by destruct e.
Qed.

(** X8. Whatever requests are made, to whatever views, with whatever
    forms, starting from the empty store: in every table of the resulting
    store each row has a primary key, the keys are below the table's
    sequence, and no two rows share a key. *)
Theorem reachable_stores_have_unique_keys
    (PostForm : ModelForm Post) (TagForm : ModelForm Tag)
    (hits : list (ViewCall * HttpRequest)) :
  db_wf (store_after PostForm TagForm hits empty_db).
Proof.
  unfold store_after. generalize empty_db_wf. generalize empty_db.
  induction hits as [|[v request] hits IH]; intros db Hwf; simpl; [done|].
  apply IH. rewrite snd_get_response. by apply serve_keeps_wf.
Qed.

Section ReadsOnly.
Context {A B : Type}.

Lemma reads_ret (a : A) : reads_only (ret a).
Proof. by intros db. Qed.

Lemma reads_raise (e : Exn) : reads_only (raise (A:=A) e).
Proof. by intros db. Qed.

Lemma reads_lift (r : Result A) : reads_only (lift r).
Proof. by intros db. Qed.

Lemma reads_bind (c : M A) (k : A -> M B) :
  reads_only c -> (forall a, reads_only (k a)) -> reads_only (Run.bind c k).
Proof.
  intros Hc Hk db. unfold Run.bind. specialize (Hc db).
  destruct (c db) as [[e|a] db']; simpl in *; subst; [done|]. apply Hk.
Qed.

Lemma reads_try_except (c : M A) (h : Exn -> M A) :
  reads_only c -> (forall e, reads_only (h e)) -> reads_only (try_except c h).
Proof.
  intros Hc Hh db. unfold try_except. specialize (Hc db).
  destruct (c db) as [[e|a] db']; simpl in *; subst; [apply Hh|done].
Qed.

End ReadsOnly.

Lemma reads_get_db : reads_only get_db.
Proof. by intros db. Qed.

Ltac reads :=
  repeat first
    [ apply reads_ret | apply reads_raise | apply reads_lift | apply reads_get_db
    | apply reads_bind; [|intros ?]
    | apply reads_try_except; [|intros ?]
    | match goal with
      | |- reads_only (match ?x with _ => _ end) => destruct x
      | |- reads_only (let (_, _) := ?x in _) => destruct x
      end ].

Lemma reads_then_redirects (c : M HttpResponse) :
  reads_only c -> redirects_or_reads c.
Proof. intros Hc db. left. apply Hc. Qed.

Lemma redirects_bind {A} (c : M A) (k : A -> M HttpResponse) :
  reads_only c -> (forall a, redirects_or_reads (k a)) ->
  redirects_or_reads (Run.bind c k).
Proof.
  intros Hc Hk db. unfold Run.bind. specialize (Hc db).
  destruct (c db) as [[e|a] db']; simpl in *; subst; [by left|]. apply Hk.
Qed.

Section Writes.
Context {E : Type} `{ModelForm E}.

Lemma reads_objects_get (s : string) : reads_only (objects_get s).
Proof. unfold objects_get, objects_filter. reads. Qed.

Lemma reads_is_valid (f : ModelFormObj E) : reads_only (is_valid f).
Proof. unfold is_valid, errors, full_clean. reads. Qed.

(** Saving a form and redirecting to the saved object either raises before
    anything is written or ends in the redirect. *)
Lemma save_redirects (f : ModelFormObj E) :
  redirects_or_reads (new_obj <- save f ;; redirect_to_object new_obj).
Proof.
  intros db.
  unfold save, errors, full_clean, Model_save, redirect_to_object,
    Run.bind, get_db, put_db, ret, raise.
  destruct (form_errors f) as [errs|]; [|destruct (form_data f) as [d|]]; simpl;
    try destruct (clean db (form_instance f) d) as [[errs inst] m2m]; simpl;
    destruct (bool_decide _); simpl; eauto;
    destruct (pk _) as [i|]; simpl; try destruct (existsb _ _); simpl;
    try destruct (pk _); simpl; eauto.
Qed.

Lemma create_post_redirects (template : string) (request : HttpRequest) :
  redirects_or_reads (ObjectCreateMixin_post template request).
Proof.
  unfold ObjectCreateMixin_post. apply redirects_bind; [apply reads_is_valid|].
  intros [[] f]; [apply save_redirects|by apply reads_then_redirects].
Qed.

Lemma update_post_redirects (template : string) (request : HttpRequest) (s : string) :
  redirects_or_reads (ObjectUpdateMixin_post template request s).
Proof.
  unfold ObjectUpdateMixin_post. apply redirects_bind; [apply reads_objects_get|].
  intros obj. apply redirects_bind; [apply reads_is_valid|].
  intros [[] f]; [apply save_redirects|by apply reads_then_redirects].
Qed.

Lemma delete_post_redirects (redirect_url : string) (request : HttpRequest) (s : string) :
  redirects_or_reads (ObjectDeleteMixin_post redirect_url request s).
Proof.
  unfold ObjectDeleteMixin_post. apply redirects_bind; [apply reads_objects_get|].
  intros obj db. unfold Model_delete, redirect, Run.bind, get_db, put_db, ret, raise.
  destruct (pk obj); simpl; eauto.
Qed.

Lemma reads_update_get (template : string) (request : HttpRequest) (s : string) :
  reads_only (ObjectUpdateMixin_get template request s).
Proof. unfold ObjectUpdateMixin_get, render. reads. Qed.

Lemma reads_delete_get (template : string) (request : HttpRequest) (s : string) :
  reads_only (ObjectDeleteMixin_get template request s).
Proof. unfold ObjectDeleteMixin_get, render. reads. Qed.

Lemma reads_detail_get (template : string) (request : HttpRequest) (s : string) :
  reads_only (ObjectDetailMixin_get template request s).
Proof. unfold ObjectDetailMixin_get, render. reads. Qed.

Lemma reads_create_get (template : string) (request : HttpRequest) :
  reads_only (ObjectCreateMixin_get template request).
Proof. unfold ObjectCreateMixin_get, render. reads. Qed.

End Writes.

Lemma fst_get_response_redirect (c : M HttpResponse) (db : DB) (u : Url) :
  fst (c db) = inr (HttpResponseRedirect u) ->
  fst (get_response c db) = HttpResponseRedirect u.
Proof.
  unfold get_response. destruct (c db) as [[e|r] db']; simpl; [done|congruence].
Qed.

Lemma gated_view_changes (request : HttpRequest) (get post : M HttpResponse)
    (db : DB) :
  reads_only get -> redirects_or_reads post ->
  let view := LoginRequiredMixin_dispatch raise_exception request
                (View_dispatch request (Some get) (Some post)) in
  snd (view db) = db \/
  (user_is_authenticated request = true /\ method request = POST /\
   exists u, fst (view db) = inr (HttpResponseRedirect u)).
Proof.
  intros Hget Hpost.
  unfold LoginRequiredMixin_dispatch, handle_no_permission, View_dispatch,
    http_method_not_allowed.
  destruct (user_is_authenticated request) eqn:Hu; simpl; [|by left].
  destruct (method request) eqn:Hm; simpl;
    [left; apply Hget| |by left..].
  destruct (Hpost db) as [Hsame|Hredirect]; [by left|right; by repeat split].
Qed.

Lemma open_view_reads (request : HttpRequest) (get : M HttpResponse) :
  reads_only get -> reads_only (View_dispatch request (Some get) None).
Proof.
  intros Hget. unfold View_dispatch, http_method_not_allowed.
  destruct (method request); simpl; first [exact Hget | reads].
Qed.

(** X9. The store changes only when an authenticated caller POSTs to a
    create, update or delete view, and then the response is a redirect:
    every other request, and every request answered with a page or an
    error, leaves the store exactly as it was. *)
Theorem store_changes_only_with_a_redirect
    (PostForm : ModelForm Post) (TagForm : ModelForm Tag)
    (v : ViewCall) (request : HttpRequest) (db : DB) :
  snd (get_response (serve PostForm TagForm v request) db) <> db ->
  user_is_authenticated request = true /\ method request = POST /\
  gated v = true /\
  exists u, fst (get_response (serve PostForm TagForm v request) db)
            = HttpResponseRedirect u.
Proof.
  intros Hchanged. rewrite snd_get_response in Hchanged.
  assert (forall get post : M HttpResponse,
            serve PostForm TagForm v request =
            LoginRequiredMixin_dispatch raise_exception request
              (View_dispatch request (Some get) (Some post)) ->
            gated v = true -> reads_only get -> redirects_or_reads post ->
            user_is_authenticated request = true /\ method request = POST /\
            gated v = true /\
            exists u, fst (get_response (serve PostForm TagForm v request) db)
                      = HttpResponseRedirect u) as Hgated.
  { intros get post Hv Hg Hget Hpost. rewrite Hv in *.
    destruct (gated_view_changes request get post db Hget Hpost)
      as [Hsame|(Hu & Hm & u & Hredirect)]; [done|].
    repeat split; [done..|]. exists u. by apply fst_get_response_redirect. }
  assert (reads_only (serve PostForm TagForm v request) -> False) as Hreads.
  { intros Hr. apply Hchanged, Hr. }
  destruct v as [| |s| |s|s|s| |s|s].
  - destruct Hreads. intros db0. simpl. by rewrite posts_list_run.
  - destruct Hreads. simpl. unfold tags_list, render. reads.
  - destruct Hreads. apply open_view_reads, reads_detail_get.
  - apply (Hgated _ _ eq_refl eq_refl);
      [apply reads_create_get | apply create_post_redirects].
  - apply (Hgated _ _ eq_refl eq_refl);
      [apply reads_update_get | apply update_post_redirects].
  - apply (Hgated _ _ eq_refl eq_refl);
      [apply reads_delete_get | apply delete_post_redirects].
  - destruct Hreads. apply open_view_reads, reads_detail_get.
  - apply (Hgated _ _ eq_refl eq_refl);
      [apply reads_create_get | apply create_post_redirects].
  - apply (Hgated _ _ eq_refl eq_refl);
      [apply reads_update_get | apply update_post_redirects].
  - apply (Hgated _ _ eq_refl eq_refl);
      [apply reads_delete_get | apply delete_post_redirects].
Qed.

Lemma store_changes_only_with_a_redirect_witness :
  exists u,
    fst (get_response
           (serve PostForm_rules TagForm_rules (call_PostDelete "second")
              (Sample.request POST true ∅ ∅)) Sample.db)
    = HttpResponseRedirect u.
Proof.
  apply (store_changes_only_with_a_redirect PostForm_rules TagForm_rules
           (call_PostDelete "second") (Sample.request POST true ∅ ∅) Sample.db).
  intros Heq. vm_compute in Heq. discriminate.
Defined.

(** X10. The class-based views dispatch on the request method.  A detail
    view has a GET handler only: it answers POST, PUT, PATCH and DELETE with
    405 Method Not Allowed.  The gated views have GET and POST handlers: they
    answer an authenticated PUT, PATCH or DELETE with 405, and an
    unauthenticated one with Forbidden, the gate coming first.  The store is
    untouched in every case. *)
Theorem other_methods_are_not_allowed
    (PostForm : ModelForm Post) (TagForm : ModelForm Tag)
    (v : ViewCall) (request : HttpRequest) (db : DB) :
  class_based v = true ->
  method request <> GET ->
  method request <> POST \/ gated v = false ->
  get_response (serve PostForm TagForm v request) db =
  (if gated v && negb (user_is_authenticated request)
   then HttpResponseForbidden else HttpResponseNotAllowed, db).
Proof.
  intros Hclass Hget Hpost.
  destruct v as [| |s| |s|s|s| |s|s]; try discriminate; simpl;
    unfold get_response, PostDetail, TagDetail, PostCreate, PostUpdate, PostDelete,
      TagCreate, TagUpdate, TagDelete, LoginRequiredMixin_dispatch,
      handle_no_permission, View_dispatch, http_method_not_allowed;
    destruct (user_is_authenticated request); simpl;
    destruct (method request); simpl; try done;
    destruct Hpost; done.
Qed.

Lemma other_methods_are_not_allowed_witness :
  get_response
    (serve PostForm_rules TagForm_rules (call_PostDelete "second")
       (Sample.request DELETE true ∅ ∅)) Sample.db
  = (HttpResponseNotAllowed, Sample.db).
Proof.
  apply (other_methods_are_not_allowed PostForm_rules TagForm_rules
           (call_PostDelete "second") (Sample.request DELETE true ∅ ∅) Sample.db);
    [reflexivity | discriminate | left; discriminate].
Defined.

(** ** More on the list view *)

Lemma num_pages_over_one (l : list Post) :
  (1 <? num_pages (Paginator.make l 10))%Z = true <-> (10 < length l)%nat.
Proof.
  rewrite num_pages_make by lia. rewrite Z.ltb_lt. split.
  - intros Hp.
    assert (Z.max 1 (Z.of_nat (length l)) + 10 - 1 >= 20)%Z; [|lia].
    destruct (Z_lt_ge_dec (Z.max 1 (Z.of_nat (length l)) + 10 - 1) 20) as [Hlt|]; [|done].
    apply (Z.div_lt_upper_bound _ 10 2) in Hlt; lia.
  - intros Hl. apply Z.lt_le_trans with 2%Z; [lia|].
    apply Z.div_le_lower_bound; lia.
Qed.

Lemma link_not_empty (k : Z) : "?page=" +:+ str_of_Z k <> "".
Proof. discriminate. Qed.

(** X11. The links and the flag of the index page, for every request: the
    next-page link is empty exactly on the last page and otherwise is
    [?page=] followed by the next page number, nothing else; the
    previous-page link is empty exactly on page 1 and otherwise is [?page=]
    followed by the previous page number; is_paginated is set exactly when
    the listing has more than 10 posts. *)
Theorem index_page_links (request : HttpRequest) (db : DB) :
  exists pg is_paginated next_url prev_url,
    get_response (posts_list request) db =
      (TemplateResponse "blog/index.html"
         (dict [("page_object", VPage pg);
                ("is_paginated", VBool is_paginated);
                ("next_url", VStr next_url);
                ("prev_url", VStr prev_url)]), db) /\
    (next_url = "" <-> number pg = num_pages (paginator pg)) /\
    ((number pg < num_pages (paginator pg))%Z ->
     next_url = "?page=" +:+ str_of_Z (number pg + 1)) /\
    (prev_url = "" <-> number pg = 1%Z) /\
    ((1 < number pg)%Z -> prev_url = "?page=" +:+ str_of_Z (number pg - 1)) /\
    (is_paginated = true <-> (10 < length (object_list (paginator pg)))%nat).
Proof.
  exists (listed_page request db), (has_other_pages (listed_page request db)),
         (next_link (listed_page request db)), (prev_link (listed_page request db)).
  split; [apply posts_list_response|].
  pose proof (listed_page_range request db) as [Hlo Hhi].
  change (paginator (listed_page request db)) with (listing request db).
  unfold next_link, prev_link, has_other_pages, has_next, has_previous.
  change (paginator (listed_page request db)) with (listing request db).
  set (n := number (listed_page request db)) in *.
  set (m := num_pages (listing request db)) in *.
  rewrite Z.gtb_ltb.
  split; [|split; [|split; [|split]]].
  - destruct (Z.ltb_spec n m); split; intros Heq; try lia; try done.
  - intros Hlt. by rewrite (proj2 (Z.ltb_lt n m) Hlt).
  - destruct (Z.ltb_spec 1 n); split; intros Heq; try lia; try done.
  - intros Hlt. by rewrite (proj2 (Z.ltb_lt 1 n) Hlt).
  - rewrite <- (num_pages_over_one (queryset request db)).
    fold (listing request db). fold m.
    destruct (Z.ltb_spec 1 n), (Z.ltb_spec n m), (Z.ltb_spec 1 m); simpl;
      split; intros; try done; lia.
Qed.

Lemma index_page_links_witness :
  exists pg is_paginated,
    get_response (posts_list SampleListing.page_2) SampleListing.db25 =
      (TemplateResponse "blog/index.html"
         (dict [("page_object", VPage pg);
                ("is_paginated", VBool is_paginated);
                ("next_url", VStr "?page=3");
                ("prev_url", VStr "?page=1")]), SampleListing.db25) /\
    is_paginated = true.
Proof.
  destruct (index_page_links SampleListing.page_2 SampleListing.db25)
    as (pg & ip & next_url & prev_url & Hrun & _ & Hnext & _ & Hprev & Hflag).
  assert (listed_page SampleListing.page_2 SampleListing.db25 = pg) as Hpg.
  { pose proof Hrun as Hshown. rewrite posts_list_response in Hshown.
    apply (f_equal (fun r => shown_page (fst r))) in Hshown.
    cbn [fst] in Hshown. rewrite shown_page_index in Hshown.
    vm_compute in Hshown. injection Hshown as <-. vm_compute. reflexivity. }
  exists pg, ip.
  rewrite Hnext in Hrun by (rewrite <- Hpg; vm_compute; reflexivity).
  rewrite Hprev in Hrun by (rewrite <- Hpg; vm_compute; reflexivity).
  replace (number pg) with 2%Z in Hrun by (rewrite <- Hpg; vm_compute; reflexivity).
  split; [exact Hrun|].
  apply Hflag. rewrite <- Hpg. vm_compute. lia.
Defined.

(** X12. A page parameter that is the numeral of an integer, of at most
    4300 digits so that [int] reads it under every setting of the
    interpreter: below 1 it selects the last page, within the page range it
    selects that page.  The page shown holds the posts of its window of the
    listing, the ten that follow the [10 * (number - 1)] before it, and so
    at most ten. *)
Theorem integer_page_parameter
    (request : HttpRequest) (db : DB) (v : string) (k : Z) :
  QueryDict_get (GET_data request) "page" = Some v -> int_of_str v = Some k ->
  (digit_count v <= default_max_str_digits)%nat ->
  exists pg,
    get_response (posts_list request) db = (index_page pg, db) /\
    ((k < 1)%Z -> number pg = num_pages (paginator pg)) /\
    ((1 <= k <= num_pages (paginator pg))%Z -> number pg = k) /\
    page_object_list pg
      = take 10 (drop (Z.to_nat (10 * (number pg - 1))) (object_list (paginator pg))) /\
    (length (page_object_list pg) <= 10)%nat.
Proof.
  intros Hv Hk _. exists (listed_page request db).
  split; [apply posts_list_response|].
  pose proof (page_parameter_integer request db v k Hv Hk) as Hn.
  pose proof (listed_page_range request db) as [Hlo Hhi].
  change (paginator (listed_page request db)) with (listing request db).
  assert (page_object_list (listed_page request db)
          = take 10 (drop (Z.to_nat (10 * (number (listed_page request db) - 1)))
                          (queryset request db))) as Hwin.
  { unfold listed_page at 1, listing. rewrite page_window; [|lia|].
    - fold (listing request db). rewrite <- listed_page_number.
      do 2 f_equal. lia.
    - fold (listing request db). by rewrite <- listed_page_number. }
  split; [|split; [|split]].
  - intros Hlt. rewrite Hn. by rewrite (proj2 (Z.ltb_lt k 1) Hlt).
  - intros [Hk1 Hk2]. rewrite Hn.
    destruct (Z.ltb_spec k 1); [lia|].
    destruct (Z.ltb_spec (num_pages (listing request db)) k); [lia|done].
  - exact Hwin.
  - rewrite Hwin, length_take. lia.
Qed.

Lemma integer_page_parameter_witness :
  (exists pg,
     get_response
       (posts_list (SampleListing.get {[ "page" := ["-4"] ]})) SampleListing.db25
       = (index_page pg, SampleListing.db25) /\
     number pg = 3%Z /\ length (page_object_list pg) = 5%nat) /\
  (exists pg,
     get_response (posts_list SampleListing.page_fullwidth_2) SampleListing.db25
       = (index_page pg, SampleListing.db25) /\
     number pg = 2%Z /\ length (page_object_list pg) = 10%nat).
Proof.
  split.
  - destruct (integer_page_parameter
                (Sample.request GET false {[ "page" := ["-4"] ]} ∅)
                SampleListing.db25 "-4" (-4)%Z)
      as (pg & Hrun & Hlast & _ & Hwin & _);
      [vm_compute; reflexivity ..|apply Nat.leb_le; vm_compute; reflexivity|].
    pose proof (shown_is_listed _ _ _ Hrun) as Hpg.
    exists pg. split; [exact Hrun|]. split.
    + rewrite Hlast by lia. rewrite Hpg. vm_compute. reflexivity.
    + rewrite Hpg. vm_compute. reflexivity.
  - destruct (integer_page_parameter
                SampleListing.page_fullwidth_2
                SampleListing.db25 SampleListing.fullwidth_2 2%Z)
      as (pg & Hrun & _ & Hin & Hwin & _);
      [vm_compute; reflexivity ..|apply Nat.leb_le; vm_compute; reflexivity|].
    pose proof (shown_is_listed _ _ _ Hrun) as Hpg.
    exists pg. split; [exact Hrun|]. split.
    + apply Hin. rewrite Hpg. vm_compute. split; discriminate.
    + rewrite Hpg. vm_compute. reflexivity.
Defined.

Section Partition.
Context {A : Type}.

Lemma windows_concat (l : list A) (n m : nat) :
  concat (List.map (fun i => take n (drop (i * n) l)) (seq 0 m)) = take (m * n) l.
Proof.
  induction m as [|m IH]; [done|].
  rewrite List.seq_S, List.map_app, List.concat_app, IH. simpl.
  rewrite app_nil_r, take_take_drop. f_equal. lia.
Qed.

Lemma pages_reach_the_end (l : list A) :
  (length l <= Z.to_nat (num_pages (Paginator.make l 10)) * 10)%nat.
Proof.
  rewrite num_pages_make by lia.
  set (a := (Z.max 1 (Z.of_nat (length l)) + 10 - 1)%Z).
  pose proof (Z.div_mod a 10 ltac:(lia)) as Hdm.
  pose proof (Z.mod_pos_bound a 10 ltac:(lia)) as Hmod.
  assert (0 <= a / 10)%Z by (apply Z.div_pos; lia). lia.
Qed.

(** The pages of a paginator, put end to end, are its object list. *)
Lemma pages_partition (l : list A) :
  concat (List.map (fun k => page_object_list (page_at (Paginator.make l 10) (Z.of_nat k)))
                   (seq 1 (Z.to_nat (num_pages (Paginator.make l 10)))))
  = l.
Proof.
  rewrite <- List.seq_shift, List.map_map.
  rewrite (List.map_ext _ (fun i => take 10 (drop (i * 10) l))).
  - rewrite windows_concat. apply take_ge, pages_reach_the_end.
  - intros i. rewrite page_window by lia. do 2 f_equal. lia.
Qed.

End Partition.

Lemma shown_posts_listed (request : HttpRequest) (db : DB) :
  shown_posts request db = page_object_list (listed_page request db).
Proof.
  unfold shown_posts. rewrite posts_list_response. cbn [fst].
  by rewrite shown_page_index.
Qed.

(** X13. The pages of a listing partition it: asking for the pages 1, 2,
    ... up to the last in turn, under the same search term, and putting the
    posts shown end to end gives back the whole listing, every post once and
    in order. *)
Theorem pages_put_together_are_the_listing (request : HttpRequest) (db : DB) :
  exists pg,
    get_response (posts_list request) db = (index_page pg, db) /\
    concat (List.map
              (fun k => shown_posts (with_page (str_of_Z (Z.of_nat k)) request) db)
              (seq 1 (Z.to_nat (num_pages (paginator pg)))))
    = object_list (paginator pg).
Proof.
  exists (listed_page request db). split; [apply posts_list_response|].
  change (paginator (listed_page request db)) with (listing request db).
  etrans; [|apply (pages_partition (queryset request db))].
  fold (listing request db). f_equal.
  apply List.map_ext_in. intros k Hk. apply List.in_seq in Hk.
  rewrite shown_posts_listed, with_page_number; [done|].
  pose proof (listing_pages_pos request db). lia.
Qed.

Lemma num_pages_mono {A} (l l' : list A) :
  (length l <= length l')%nat ->
  (num_pages (Paginator.make l 10) <= num_pages (Paginator.make l' 10))%Z.
Proof.
  intros Hlen. rewrite !num_pages_make by lia. apply Z.div_le_mono; lia.
Qed.

Lemma queryset_length (request : HttpRequest) (db : DB) :
  (length (queryset request db) <= length (objects (E:=Post) db))%nat.
Proof.
  unfold queryset. destruct (negb _); [apply List.filter_length_le|done].
Qed.

(** X14. Following the next-page link: the link is [?page=] and the next
    page number and carries no search term, so the request it stands for
    shows the page of that number of the listing of all stored posts.  For
    an unfiltered listing this is the next page of the same listing; for a
    search it is a page of unfiltered posts. *)
Theorem next_link_shows_next_unfiltered_page
    (request : HttpRequest) (db : DB) (pg : Page Post) :
  get_response (posts_list request) db = (index_page pg, db) ->
  has_next pg = true ->
  next_link pg = "?page=" +:+ str_of_Z (number pg + 1) /\
  exists pg',
    get_response (posts_list (follow_page_link (number pg + 1) request)) db
      = (index_page pg', db) /\
    number pg' = (number pg + 1)%Z /\
    object_list (paginator pg') = objects db /\
    (search_term request = "" -> paginator pg' = paginator pg).
Proof.
  intros Hrun Hnext. rewrite (shown_is_listed _ _ _ Hrun) in *.
  split; [unfold next_link; by rewrite Hnext|].
  set (k := (number (listed_page request db) + 1)%Z).
  exists (listed_page (follow_page_link k request) db).
  split; [apply posts_list_response|].
  pose proof (listed_page_range request db) as [Hlo Hhi].
  unfold has_next in Hnext. apply Z.ltb_lt in Hnext.
  change (paginator (listed_page request db)) with (listing request db) in *.
  pose proof (num_pages_mono _ _ (queryset_length request db)) as Hmono.
  fold (listing request db) in Hmono.
  assert (queryset (follow_page_link k request) db = objects db) as Hall
    by reflexivity.
  assert (1 <= k <= num_pages (Paginator.make (objects (E:=Post) db) 10))%Z as Hk
    by (unfold k; lia).
  split; [|split].
  - rewrite listed_page_number. unfold listing. rewrite Hall.
    unfold resolve, page_param, follow_page_link, QueryDict_get. cbn [GET_data].
    rewrite lookup_singleton_eq. simpl.
    rewrite int_of_str_of_Z, Z.gtb_ltb.
    destruct (Z.ltb_spec k 1); [lia|].
    destruct (Z.ltb_spec (num_pages (Paginator.make (objects (E:=Post) db) 10)) k);
      [lia|done].
  - exact Hall.
  - intros Hq. unfold listed_page, page_at. cbn [paginator]. unfold listing.
    by rewrite Hall, (queryset_all request db Hq).
Qed.

Lemma next_link_shows_next_unfiltered_page_witness :
  exists pg pg',
    get_response (posts_list SampleListing.page_2) SampleListing.db25
      = (index_page pg, SampleListing.db25) /\
    next_link pg = "?page=3" /\
    get_response (posts_list (follow_page_link 3 SampleListing.page_2))
      SampleListing.db25 = (index_page pg', SampleListing.db25) /\
    number pg' = 3%Z.
Proof.
  exists (listed_page SampleListing.page_2 SampleListing.db25).
  destruct (next_link_shows_next_unfiltered_page SampleListing.page_2
              SampleListing.db25 _ (posts_list_response _ _) eq_refl)
    as (Hlink & pg' & Hrun' & Hn & _).
  exists pg'. split; [apply posts_list_response|].
  split; [exact Hlink|]. split; [exact Hrun' | exact Hn].
Defined.

(** X15. Nothing to list: when no stored post is listed, because there is
    none or because none mentions the search term, every request shows page
    1 of 1 with no posts, no links and is_paginated unset, whatever its page
    parameter. *)
Theorem empty_listing (request : HttpRequest) (db : DB) :
  (forall post, In post (objects db) ->
     search_term request <> "" /\ ~ mentions (search_term request) post) ->
  get_response (posts_list request) db =
  (TemplateResponse "blog/index.html"
     (dict [("page_object",
             VPage {| page_object_list := []; number := 1;
                      paginator := Paginator.make [] 10 |});
            ("is_paginated", VBool false);
            ("next_url", VStr "");
            ("prev_url", VStr "")]), db).
Proof.
  intros Hnone.
  assert (queryset request db = []) as Hempty.
  { unfold queryset.
    destruct (String.eqb_spec (search_term request) "") as [Hq|Hq]; cbn [negb].
    - destruct (objects (E:=Post) db) as [|post rest]; [done|].
      destruct (Hnone post) as [Hne _]; [by left|done].
    - destruct (List.filter _ _) as [|post rest] eqn:Hf; [done|].
      assert (In post (List.filter (mentionsb (search_term request)) (objects db)))
        as Hin by (rewrite Hf; by left).
      apply List.filter_In in Hin as [Hin Hm]. apply mentionsb_spec in Hm.
      by destruct (Hnone post Hin). }
  rewrite posts_list_response.
  assert (listing request db = Paginator.make [] 10) as Hlisting
    by (unfold listing; by rewrite Hempty).
  assert (number (listed_page request db) = 1%Z) as Hnum.
  { pose proof (listed_page_range request db) as Hr. rewrite Hlisting in Hr.
    change (num_pages (Paginator.make [] 10)) with 1%Z in Hr. lia. }
  assert (listed_page request db =
          {| page_object_list := []; number := 1; paginator := Paginator.make [] 10 |})
    as ->; [|reflexivity].
  unfold listed_page. rewrite <- listed_page_number, Hnum, Hlisting. reflexivity.
Qed.

Lemma empty_listing_witness :
  get_response (posts_list (SampleListing.get {[ "page" := ["7"] ]})) empty_db =
  (TemplateResponse "blog/index.html"
     (dict [("page_object",
             VPage {| page_object_list := []; number := 1;
                      paginator := Paginator.make [] 10 |});
            ("is_paginated", VBool false);
            ("next_url", VStr "");
            ("prev_url", VStr "")]), empty_db).
Proof.
  apply (empty_listing (Sample.request GET false {[ "page" := ["7"] ]} ∅) empty_db).
  intros post [].
Defined.

(** ** The tag list *)

Lemma tags_list_run (request : HttpRequest) (db : DB) :
  get_response (tags_list request) db =
  (TemplateResponse "blog/tags_list.html" (dict [("tags", VTags (objects db))]), db).
Proof. reflexivity. Qed.

(** X16. The tag list shows every stored tag, in store order, to any
    caller, and follows the store: after a create submission with clean
    fields it shows the tags it showed before and then the new tag; after a
    delete submission on the one tag the slug names it shows the tags it
    showed before without that tag. *)
Theorem tags_list_follows_the_store
    (TagForm : ModelForm Tag)
    (request request' : HttpRequest) (s : string) (db : DB) :
  user_is_authenticated request = true -> method request = POST ->
  (forall (inst : Tag) (m2m : list nat),
     @clean _ _ TagForm db new (POST_data request) = (∅, inst, m2m) ->
     let db' := snd (get_response (TagCreate TagForm request) db) in
     get_response (tags_list request') db' =
     (TemplateResponse "blog/tags_list.html"
        (dict [("tags", VTags (objects db ++ [set_pk (next_pk (tag_table db)) inst]))]),
      db')) /\
  (db_wf db ->
   forall (obj : Tag) (before after : list Tag),
     objects db = before ++ obj :: after -> sole_match s db obj ->
     let db' := snd (get_response (TagDelete request s) db) in
     get_response (tags_list request') db' =
     (TemplateResponse "blog/tags_list.html"
        (dict [("tags", VTags (before ++ after))]), db')).
Proof.
  intros Hu Hm. split.
  - intros inst m2m Hc db'.
    assert (objects db' = objects db ++ [set_pk (next_pk (tag_table db)) inst]) as Hrows'.
    { subst db'. enter_view Hu Hm.
      by rewrite (create_valid (Laws:=Tag_laws) _ _ _ _ _ Hc). }
    by rewrite tags_list_run, Hrows'.
  - intros [_ Htags] obj before after Hrows Hs db'.
    destruct (sole_match_key s db obj Htags Hs) as (i & Hi & _).
    assert (objects db' = before ++ after) as Hrows'.
    { subst db'. enter_view Hu Hm.
      rewrite (delete_found _ _ _ _ obj i Hs Hi). cbn [snd].
      rewrite (objects_after_delete (Laws:=Tag_laws)). cbn [rows].
      rewrite Hrows. apply delete_in_place; [|done].
      destruct Htags as [Hnd _]. unfold objects in Hrows. simpl in Hrows.
      by rewrite <- Hrows. }
    by rewrite tags_list_run, Hrows'.
Qed.

Lemma tags_list_follows_the_store_witness :
  let db' := snd (get_response
                    (TagDelete (Sample.request POST true ∅ ∅) "news") Sample.db) in
  get_response (tags_list (Sample.request GET false ∅ ∅)) db' =
  (TemplateResponse "blog/tags_list.html" (dict [("tags", VTags [])]), db').
Proof.
  destruct (tags_list_follows_the_store TagForm_rules
              (Sample.request POST true ∅ ∅) (Sample.request GET false ∅ ∅)
              "news" Sample.db eq_refl eq_refl) as [_ Hdel].
  apply (Hdel Sample_db_wf Sample.news [] [] eq_refl).
  exists [], []. repeat split; match_facts.
Defined.

(** X17. The post listing follows the store: after a create submission
    with clean fields, any list request lists what it listed before and
    then the new post, provided the request has no search term or the new
    post mentions it; otherwise it lists what it listed before. *)
Theorem created_post_is_listed
    (PostForm : ModelForm Post)
    (request request' : HttpRequest) (db : DB) (inst : Post) (m2m : list nat) :
  user_is_authenticated request = true -> method request = POST ->
  @clean _ _ PostForm db new (POST_data request) = (∅, inst, m2m) ->
  let created := set_pk (next_pk (post_table db)) inst in
  let db' := snd (get_response (PostCreate PostForm request) db) in
  exists pg pg',
    get_response (posts_list request') db = (index_page pg, db) /\
    get_response (posts_list request') db' = (index_page pg', db') /\
    object_list (paginator pg') =
    object_list (paginator pg) ++
    (if String.eqb (search_term request') "" || mentionsb (search_term request') created
     then [created] else []).
Proof.
  intros Hu Hm Hc created db'.
  exists (listed_page request' db), (listed_page request' db').
  split; [apply posts_list_response|]. split; [apply posts_list_response|].
  assert (objects db' = objects db ++ [created]) as Hrows'.
  { subst db'. enter_view Hu Hm.
    by rewrite (create_valid (Laws:=Post_laws) _ _ _ _ _ Hc). }
  change (queryset request' db' =
          queryset request' db ++
          (if String.eqb (search_term request') "" || mentionsb (search_term request') created
           then [created] else [])).
  unfold queryset. rewrite Hrows'.
  destruct (String.eqb (search_term request') ""); simpl; [done|].
  rewrite List.filter_app. simpl.
  by destruct (mentionsb (search_term request') created).
Qed.

Lemma created_post_is_listed_witness :
  let db' := snd (get_response
                    (PostCreate PostForm_rules
                       (Sample.request POST true ∅ SampleForms.new_post)) Sample.db) in
  exists pg',
    get_response (posts_list SampleListing.search_hello) db' = (index_page pg', db') /\
    object_list (paginator pg') = [Sample.hello; Sample.second].
Proof.
  intros db'.
  assert (PostForm_clean Sample.db new SampleForms.new_post
          = (∅, {| post_id := None; post_title := "Third"; post_slug := "third";
                   post_body := "more text"; post_date_pub := 0 |}, [1])) as Hc
    by (vm_compute; reflexivity).
  destruct (created_post_is_listed PostForm_rules
              (Sample.request POST true ∅ SampleForms.new_post)
              SampleListing.search_hello Sample.db _ _ eq_refl eq_refl Hc)
    as (pg & pg' & Hrun & Hrun' & Hlist).
  exists pg'. split; [exact Hrun'|].
  rewrite Hlist, (shown_is_listed _ _ _ Hrun). vm_compute. reflexivity.
Defined.
